(** * Offline synchronisation of attendance records

    A shallow embedding of the sync path of the attendance server:

    - [src/utils/syncResolver.js]  (module [SyncResolver]),
    - [src/modules/attendance/attendance.repository.js], the functions
      [create] and [update]  (module [AttendanceRepository]),
    - [src/modules/attendance/attendance.service.js], the function
      [syncOfflineRecords]  (module [AttendanceService]),
    - the [attendance] table of [database/schema] with its constraints and
      its [updated_at] trigger  (module [Schema]).

    and of the rest of the attendance module:

    - [mergeRecords] of [src/utils/syncResolver.js]  (module [Merging]),
    - [getClient] of [src/config/database.js]  (module [Database]),
    - [findById], [findByUserId], [findActiveAttendance], [bulkInsert]
      and [formatAttendance] of the repository  (module
      [AttendanceQueries], their statements in module [Statements]),
    - [clockIn], [clockOut] and [getUserAttendance] of the service
      (module [ClockService]).

    JavaScript objects are finite maps from property names to values, the
    table is a list of typed rows, and the statements sent to the database
    are functions on the table that either succeed or raise an error and
    leave the table as it was (each statement runs in its own implicit
    transaction).

    Bounds of the model:
    - one call of [syncOfflineRecords] at a time, its statements run in
      the order of the loop; the calls of the logger are left out;
    - the server clock is read once per call ([now]);
    - a string of a record is a timestamp ([VDate]) or plain text
      ([VStr]), and a column that is not text takes the values of its own
      kind only; the texts and numerals that PostgreSQL would still read
      as a value of the column are left out;
    - a database error is known by its kind and by the type, column or
      constraint it names, not by the wording of its message;
    - a text is a sequence of one-byte characters, so that the length a
      [VARCHAR] column counts is the length of the string;
    - rows with the same [clock_in] come out of ORDER BY in the order of
      the table; the number [parseFloat] reads from a coordinate is
      exact; an identifier, a page and a limit passed to the service are
      decoded (an identifier of the table, two integers);
    - the pool answers [getClient]: the client it hands out is given
      to [bulkInsert], with what earlier calls of [getClient] left on
      it;
    - the sum of two numbers is a double, which need not be their exact
      sum: [mergeRecords] takes the addition as it is given. *)

From Stdlib Require Import ZArith QArith Bool List Lia Ascii.
From stdpp Require Import gmap strings list.

Local Open Scope string_scope.
Local Open Scope Z_scope.

(* ===================================================================== *)
(** ** JavaScript values *)
(* ===================================================================== *)

Module JS.

(** The values a parsed JSON body, or a row handed back by the database
    driver, can hold in a property.

    - [VNum q]: a finite number (JSON has no NaN and no infinities).
    - [VDate t]: a timestamp denoting the instant [t], in milliseconds
      since the epoch; on the wire an ISO-8601 string, in a row a [Date].
    - [VStr s]: any other string: text that is neither a timestamp, nor
      a numeral, nor a boolean word, nor a JSON document.
    - [VObj j]: a nested object, named by its JSON text. *)
Inductive value : Type :=
| VUndef
| VNull
| VBool (b : bool)
| VNum (q : Q)
| VStr (s : string)
| VDate (t : Z)
| VObj (j : string).

(** An object: [o.k] is [get o k], and a missing property reads as
    [undefined]. *)
Definition get (o : gmap string value) (k : string) : value :=
  default VUndef (o !! k).

(** ToBoolean: what [if (v)], [!v], [v || w] and [v && w] test. *)
Definition truthy (v : value) : bool :=
  match v with
  | VUndef | VNull => false
  | VBool b => b
  | VNum q => negb (Qnum q =? 0)
  | VStr s => negb (String.eqb s "")
  | VDate _ | VObj _ => true
  end.

(** [a || b] *)
Definition or_else (a b : value) : value := if truthy a then a else b.

(** [a === b] where [b] is a string literal or a number; two timestamps
    or two objects are never identified. *)
Definition strict_eq (a b : value) : bool :=
  match a, b with
  | VUndef, VUndef | VNull, VNull => true
  | VBool x, VBool y => Bool.eqb x y
  | VNum x, VNum y => Qeq_bool x y
  | VStr x, VStr y => String.eqb x y
  | _, _ => false
  end.

(** [typeof v === 'number'] *)
Definition is_number (v : value) : bool :=
  match v with VNum _ => true | _ => false end.

(** [new Date(v).getTime()]; [None] is NaN.  A number is truncated
    towards zero and must lie within 8.64e15 ms of the epoch. *)
Definition getTime (v : value) : option Z :=
  match v with
  | VUndef => None
  | VNull => Some 0
  | VBool b => Some (if b then 1 else 0)
  | VNum q =>
      let t := Z.quot (Qnum q) (Zpos (Qden q)) in
      if Z.abs t <=? 8640000000000000 then Some t else None
  | VStr _ => None
  | VDate t => Some t
  | VObj _ => None
  end.

(** [Math.abs(a - b) > bound]; a comparison with NaN is false. *)
Definition abs_diff_gt (a b : option Z) (bound : Z) : bool :=
  match a, b with
  | Some x, Some y => bound <? Z.abs (x - y)
  | _, _ => false
  end.

End JS.

Export JS.

(** An element of the submitted array.  Reading a property of [null]
    throws; a string, number or boolean element has none of the
    properties the sync path reads. *)
Inductive item : Type :=
| IObj (o : gmap string value)
| INull
| IScalar (v : value).

(** [a.push(x)] *)
Definition push {A : Type} (a : list A) (x : A) : list A := (a ++ [x])%list.

Definition fields (r : item) : gmap string value :=
  match r with
  | IObj o => o
  | INull | IScalar _ => ∅
  end.

(* ===================================================================== *)
(** ** src/utils/syncResolver.js *)
(* ===================================================================== *)

Module SyncResolver.

(** The object [resolveConflict] returns; [resolved] is the client
    record ([inl]), the server record ([inr]) or [null]. *)
Record resolution (C S : Type) : Type := mkResolution {
  resolved : option (C + S);
  winner : string;
  reason : string;
  clientRecord : option C;
  serverRecord : option S
}.
Arguments mkResolution {C S}.
Arguments resolved {C S}.
Arguments winner {C S}.
Arguments reason {C S}.
Arguments clientRecord {C S}.
Arguments serverRecord {C S}.

Definition resolveConflict {C S : Type}
    (clientRecord : C) (serverRecord : S) (strategy : value) : resolution C S :=
  let strategy :=
    match strategy with VUndef => VStr "server_wins" | _ => strategy end in
  if strict_eq strategy (VStr "client_wins") then
    mkResolution (Some (inl clientRecord)) "client"
      "Client-wins strategy applied" None None
  else if strict_eq strategy (VStr "server_wins") then
    mkResolution (Some (inr serverRecord)) "server"
      "Server-wins strategy applied" None None
  else if strict_eq strategy (VStr "manual") then
    mkResolution None "manual"
      "Manual resolution required" (Some clientRecord) (Some serverRecord)
  else
    mkResolution (Some (inr serverRecord)) "server"
      "Unknown strategy, defaulted to server_wins" None None.

Definition hasConflict
    (clientRecord : gmap string value)
    (serverRecord : option (gmap string value)) : bool :=
  match serverRecord with
  | None => false
  | Some serverRecord =>
      if negb (strict_eq (get clientRecord "sync_version")
                         (get serverRecord "sync_version")) then true
      else
        let clientTime := getTime (get clientRecord "clock_in") in
        let serverTime := getTime (get serverRecord "clock_in") in
        if abs_diff_gt clientTime serverTime 60000 then true
        else if truthy (get clientRecord "clock_out")
                && truthy (get serverRecord "clock_out") then
          let clientOutTime := getTime (get clientRecord "clock_out") in
          let serverOutTime := getTime (get serverRecord "clock_out") in
          if abs_diff_gt clientOutTime serverOutTime 60000 then true
          else false
        else false
  end.

Record validation : Type := mkValidation {
  isValid : bool;
  errors : list string
}.

Definition validStrategies : list value :=
  [VStr "client_wins"; VStr "server_wins"; VStr "manual"].

(** [Array.prototype.includes] on the literal array above. *)
Definition includes (l : list value) (v : value) : bool :=
  existsb (fun x => strict_eq v x) l.

Definition validateSyncMetadata (record : gmap string value) : validation :=
  let errors : list string := [] in
  let errors :=
    if negb (truthy (get record "device_id"))
    then push errors "Missing device_id" else errors in
  let errors :=
    if negb (truthy (get record "client_timestamp"))
    then push errors "Missing client_timestamp" else errors in
  let errors :=
    if truthy (get record "sync_version")
       && negb (is_number (get record "sync_version"))
    then push errors "Invalid sync_version type" else errors in
  let errors :=
    if truthy (get record "conflict_resolution_strategy") then
      if negb (includes validStrategies
                 (get record "conflict_resolution_strategy"))
      then push errors "Invalid conflict_resolution_strategy" else errors
    else errors in
  mkValidation (Nat.eqb (length errors) 0) errors.

Record syncResponse (A B C : Type) : Type := mkSyncResponse {
  success : bool;
  synced : nat;
  conflicts : nat;
  errors_count : nat;
  timestamp : Z;
  data_synced : list A;
  data_conflicts : list B;
  data_errors : list C
}.
Arguments mkSyncResponse {A B C}.
Arguments success {A B C}.
Arguments synced {A B C}.
Arguments conflicts {A B C}.
Arguments errors_count {A B C}.
Arguments timestamp {A B C}.
Arguments data_synced {A B C}.
Arguments data_conflicts {A B C}.
Arguments data_errors {A B C}.

(** [now] is the reading of the server clock, [new Date()]. *)
Definition createSyncResponse {A B C : Type} (now : Z)
    (syncedRecords : list A) (conflicts : list B) (errors : list C)
    : syncResponse A B C :=
  mkSyncResponse true
    (length syncedRecords) (length conflicts) (length errors)
    now syncedRecords conflicts errors.

End SyncResolver.

(* ===================================================================== *)
(** ** Results and errors *)
(* ===================================================================== *)

(** A computation that returns or throws. *)
Inductive result (X A : Type) : Type :=
| Ok (a : A)
| Throw (x : X).
Arguments Ok {X A}.
Arguments Throw {X A}.

Definition rbind {X A B : Type} (m : result X A) (k : A -> result X B)
    : result X B :=
  match m with
  | Ok a => k a
  | Throw x => Throw x
  end.

#[global] Instance result_bind {X : Type} : MBind (result X) :=
  fun A B k m => rbind m k.
#[global] Instance result_ret {X : Type} : MRet (result X) :=
  fun A a => Ok a.

(** The errors the database raises, by kind and by the type, column or
    constraint they name. *)
Inductive pg_error : Type :=
| InvalidText (type : string)
| OutOfRange (type : string)
| NumericOverflow
| StringTooLong (limit : nat)
| NotNullViolation (column : string)
| CheckViolation (constraint : string)
| ForeignKeyViolation (constraint : string)
| UndefinedColumn (column : string).

(** What the sync loop can catch. *)
Inductive error : Type :=
| TypeErrorNull (property : string)
| JsError (message : string)
| Pg (e : pg_error).

(* ===================================================================== *)
(** ** The attendance table (database/schema) *)
(* ===================================================================== *)

Module Schema.

(** A row of [attendance].  Timestamps are instants in milliseconds,
    [DECIMAL] columns are integers in units of 1e-8, [None] is
    SQL NULL, and [id] counts the identifiers [uuid_generate_v4] gave
    out. *)
Record row : Type := mkRow {
  id : N;
  user_id : string;
  facility_id : string;
  clock_in : Z;
  clock_out : option Z;
  clock_in_latitude : option Z;
  clock_in_longitude : option Z;
  clock_out_latitude : option Z;
  clock_out_longitude : option Z;
  notes : option string;
  status : option string;
  synced : option bool;
  client_timestamp : option Z;
  server_timestamp : option Z;
  device_id : option string;
  sync_version : option Z;
  conflict_resolution_strategy : option string;
  metadata : option value;
  created_at : option Z;
  updated_at : option Z
}.

Record table : Type := mkTable {
  rows : list row;
  next_id : N
}.

(** What the sync path reads and never writes: the server clock, the
    identifiers in [users] and [facilities], the input syntax of [uuid]
    (giving the canonical text) and the text the driver sends for a
    parameter that is not a string. *)
Record env : Type := mkEnv {
  now : Z;
  users : list string;
  facilities : list string;
  uuid_in : string -> option string;
  text_out : value -> string
}.

(** The object the driver builds from a row, restricted to the
    properties the resolver reads. *)
Definition row_object (r : row) : gmap string value :=
  <["sync_version" :=
      match sync_version r with
      | Some n => VNum (inject_Z n)
      | None => VNull
      end]>
  (<["clock_in" := VDate (clock_in r)]>
  (<["clock_out" :=
      match clock_out r with Some t => VDate t | None => VNull end]> ∅)).

Section Statements.

Variable E : env.

(** *** Parameters: text sent by the driver, read by the input
    function of the type the statement gives the parameter.
    [undefined] and [null] are sent as NULL. *)

Definition param_text (v : value) : option string :=
  match v with
  | VUndef | VNull => None
  | VStr s => Some s
  | _ => Some (text_out E v)
  end.

Definition in_uuid (v : value) : result pg_error (option string) :=
  match param_text v with
  | None => Ok None
  | Some s =>
      match uuid_in E s with
      | Some u => Ok (Some u)
      | None => Throw (InvalidText "uuid")
      end
  end.

Definition in_timestamptz (v : value) : result pg_error (option Z) :=
  match v with
  | VUndef | VNull => Ok None
  | VDate t => Ok (Some t)
  | _ => Throw (InvalidText "timestamp with time zone")
  end.

Definition in_numeric (v : value) : result pg_error (option Q) :=
  match v with
  | VUndef | VNull => Ok None
  | VNum q => Ok (Some q)
  | _ => Throw (InvalidText "numeric")
  end.

(** An integer is written in digits below 1e21, with an exponent from
    there on. *)
Definition in_integer (v : value) : result pg_error (option Z) :=
  match v with
  | VUndef | VNull => Ok None
  | VNum q =>
      let n := Qnum (Qred q) in
      if Pos.eqb (Qden (Qred q)) 1 then
        if (-2147483648 <=? n) && (n <=? 2147483647) then Ok (Some n)
        else if Z.abs n <? 10 ^ 21 then Throw (OutOfRange "integer")
        else Throw (InvalidText "integer")
      else Throw (InvalidText "integer")
  | _ => Throw (InvalidText "integer")
  end.

Definition in_boolean (v : value) : result pg_error (option bool) :=
  match v with
  | VUndef | VNull => Ok None
  | VBool b => Ok (Some b)
  | VNum q =>
      if Qeq_bool q 1 then Ok (Some true)
      else if Qeq_bool q 0 then Ok (Some false)
      else Throw (InvalidText "boolean")
  | _ => Throw (InvalidText "boolean")
  end.

Definition in_jsonb (v : value) : result pg_error (option value) :=
  match v with
  | VUndef | VNull => Ok None
  | VObj _ | VNum _ | VBool _ => Ok (Some v)
  | VStr _ | VDate _ => Throw (InvalidText "json")
  end.

(** *** Assignment to a column with a length or a precision. *)

(** Rounding half away from zero to eight decimals. *)
Definition round8 (q : Q) : Z :=
  let n := Qnum q * 10 ^ 8 in
  let d := Zpos (Qden q) in
  Z.sgn n * ((2 * Z.abs n + d) / (2 * d)).

(** [DECIMAL(10, 8)]: two digits before the point. *)
Definition fit_decimal_10_8 (q : option Q) : result pg_error (option Z) :=
  match q with
  | None => Ok None
  | Some q =>
      let z := round8 q in
      if Z.abs z <? 10 ^ 10 then Ok (Some z) else Throw NumericOverflow
  end.

(** [DECIMAL(11, 8)], the type of the longitude columns: three digits
    before the point. *)
Definition fit_decimal_11_8 (q : option Q) : result pg_error (option Z) :=
  match q with
  | None => Ok None
  | Some q =>
      let z := round8 q in
      if Z.abs z <? 10 ^ 11 then Ok (Some z) else Throw NumericOverflow
  end.

Fixpoint all_blank (s : string) : bool :=
  match s with
  | EmptyString => true
  | String c s => Ascii.eqb c " "%char && all_blank s
  end.

(** [VARCHAR(n)]: a text of more than [n] characters is refused, unless
    the characters after the first [n] are all blanks, which are then
    cut off. *)
Definition fit_varchar (n : nat) (s : option string)
    : result pg_error (option string) :=
  match s with
  | None => Ok None
  | Some s =>
      if (String.length s <=? n)%nat then Ok (Some s)
      else if all_blank (String.substring n (String.length s - n) s)
      then Ok (Some (String.substring 0 n s))
      else Throw (StringTooLong n)
  end.

(** *** Constraints of the table *)

Definition in_list (s : string) (l : list string) : bool :=
  existsb (String.eqb s) l.

(** A CHECK passes when its condition is true or unknown. *)
Definition check_status (r : row) : bool :=
  match status r with
  | None => true
  | Some s => in_list s ["clocked_in"; "clocked_out"; "incomplete"]
  end.

Definition check_strategy (r : row) : bool :=
  match conflict_resolution_strategy r with
  | None => true
  | Some s => in_list s ["client_wins"; "server_wins"; "manual"]
  end.

Definition valid_clock_times (r : row) : bool :=
  match clock_out r with
  | None => true
  | Some t => clock_in r <? t
  end.

Definition valid_coords (lat lon : option Z) : bool :=
  match lat, lon with
  | None, None => true
  | Some a, Some o =>
      (-90 * 10 ^ 8 <=? a) && (a <=? 90 * 10 ^ 8)
      && (-180 * 10 ^ 8 <=? o) && (o <=? 180 * 10 ^ 8)
  | _, _ => false
  end.

Definition valid_clock_in_coords (r : row) : bool :=
  valid_coords (clock_in_latitude r) (clock_in_longitude r).

Definition valid_clock_out_coords (r : row) : bool :=
  valid_coords (clock_out_latitude r) (clock_out_longitude r).

(** The CHECK constraints, in the order of their names. *)
Definition check_constraints (r : row) : result pg_error unit :=
  if negb (check_strategy r)
  then Throw (CheckViolation "attendance_conflict_resolution_strategy_check")
  else if negb (check_status r)
  then Throw (CheckViolation "attendance_status_check")
  else if negb (valid_clock_in_coords r)
  then Throw (CheckViolation "valid_clock_in_coords")
  else if negb (valid_clock_out_coords r)
  then Throw (CheckViolation "valid_clock_out_coords")
  else if negb (valid_clock_times r)
  then Throw (CheckViolation "valid_clock_times")
  else Ok tt.

Definition not_null {A : Type} (column : string) (v : option A)
    : result pg_error A :=
  match v with
  | Some a => Ok a
  | None => Throw (NotNullViolation column)
  end.

Definition references (constraint : string) (ids : list string)
    (u : string) : result pg_error unit :=
  if in_list u ids then Ok tt else Throw (ForeignKeyViolation constraint).

(** *** SELECT * FROM attendance
        WHERE device_id = $1 AND client_timestamp = $2 *)

Definition key_matches (d : string) (t : Z) (r : row) : bool :=
  match device_id r, client_timestamp r with
  | Some d', Some t' => String.eqb d' d && (t' =? t)
  | _, _ => false
  end.

Definition select_by_device_and_client_timestamp
    (p1 p2 : value) (tb : table) : result pg_error (list row) :=
  t ← in_timestamptz p2;
  match param_text p1, t with
  | Some d, Some t => Ok (List.filter (key_matches d t) (rows tb))
  | _, _ => Ok []
  end.

(** *** INSERT INTO attendance (user_id, facility_id, clock_in,
        clock_in_latitude, clock_in_longitude, notes, status, synced,
        client_timestamp, device_id, sync_version,
        conflict_resolution_strategy, metadata)
        VALUES ($1, ..., $13) RETURNING * *)

Record insert_params : Type := mkInsertParams {
  p_user_id : value;
  p_facility_id : value;
  p_clock_in : value;
  p_clock_in_latitude : value;
  p_clock_in_longitude : value;
  p_notes : value;
  p_status : value;
  p_synced : value;
  p_client_timestamp : value;
  p_device_id : value;
  p_sync_version : value;
  p_conflict_resolution_strategy : value;
  p_metadata : value
}.

(** The parameters are read in their order, then fitted to the
    columns; the columns the statement does not name take their
    defaults; then NOT NULL, the CHECK constraints and the foreign
    keys.  A statement that fails stores nothing. *)
Definition insert_attendance (p : insert_params) (tb : table)
    : result pg_error (row * table) :=
  user ← in_uuid (p_user_id p);
  facility ← in_uuid (p_facility_id p);
  cin ← in_timestamptz (p_clock_in p);
  lat ← in_numeric (p_clock_in_latitude p);
  lon ← in_numeric (p_clock_in_longitude p);
  sync ← in_boolean (p_synced p);
  cts ← in_timestamptz (p_client_timestamp p);
  ver ← in_integer (p_sync_version p);
  meta ← in_jsonb (p_metadata p);
  lat ← fit_decimal_10_8 lat;
  lon ← fit_decimal_11_8 lon;
  st ← fit_varchar 50 (param_text (p_status p));
  dev ← fit_varchar 255 (param_text (p_device_id p));
  strat ← fit_varchar 50 (param_text (p_conflict_resolution_strategy p));
  user ← not_null "user_id" user;
  facility ← not_null "facility_id" facility;
  cin ← not_null "clock_in" cin;
  let r :=
    {| id := next_id tb;
       user_id := user;
       facility_id := facility;
       clock_in := cin;
       clock_out := None;
       clock_in_latitude := lat;
       clock_in_longitude := lon;
       clock_out_latitude := None;
       clock_out_longitude := None;
       notes := param_text (p_notes p);
       status := st;
       synced := sync;
       client_timestamp := cts;
       server_timestamp := Some (now E);
       device_id := dev;
       sync_version := ver;
       conflict_resolution_strategy := strat;
       metadata := meta;
       created_at := Some (now E);
       updated_at := Some (now E) |} in
  _ ← check_constraints r;
  _ ← references "attendance_facility_id_fkey" (facilities E) facility;
  _ ← references "attendance_user_id_fkey" (users E) user;
  Ok (r, mkTable (rows tb ++ [r]) (N.succ (next_id tb))).

(** *** UPDATE attendance SET c1 = $1, ..., cn = $n
        WHERE id = $(n+1) RETURNING * *)

Definition set_clock_out (v : option Z) (r : row) : row :=
  mkRow (id r) (user_id r) (facility_id r) (clock_in r) v
    (clock_in_latitude r) (clock_in_longitude r)
    (clock_out_latitude r) (clock_out_longitude r) (notes r) (status r)
    (synced r) (client_timestamp r) (server_timestamp r) (device_id r)
    (sync_version r) (conflict_resolution_strategy r) (metadata r)
    (created_at r) (updated_at r).

Definition set_clock_out_latitude (v : option Z) (r : row) : row :=
  mkRow (id r) (user_id r) (facility_id r) (clock_in r) (clock_out r)
    (clock_in_latitude r) (clock_in_longitude r)
    v (clock_out_longitude r) (notes r) (status r)
    (synced r) (client_timestamp r) (server_timestamp r) (device_id r)
    (sync_version r) (conflict_resolution_strategy r) (metadata r)
    (created_at r) (updated_at r).

Definition set_clock_out_longitude (v : option Z) (r : row) : row :=
  mkRow (id r) (user_id r) (facility_id r) (clock_in r) (clock_out r)
    (clock_in_latitude r) (clock_in_longitude r)
    (clock_out_latitude r) v (notes r) (status r)
    (synced r) (client_timestamp r) (server_timestamp r) (device_id r)
    (sync_version r) (conflict_resolution_strategy r) (metadata r)
    (created_at r) (updated_at r).

Definition set_notes (v : option string) (r : row) : row :=
  mkRow (id r) (user_id r) (facility_id r) (clock_in r) (clock_out r)
    (clock_in_latitude r) (clock_in_longitude r)
    (clock_out_latitude r) (clock_out_longitude r) v (status r)
    (synced r) (client_timestamp r) (server_timestamp r) (device_id r)
    (sync_version r) (conflict_resolution_strategy r) (metadata r)
    (created_at r) (updated_at r).

Definition set_status (v : option string) (r : row) : row :=
  mkRow (id r) (user_id r) (facility_id r) (clock_in r) (clock_out r)
    (clock_in_latitude r) (clock_in_longitude r)
    (clock_out_latitude r) (clock_out_longitude r) (notes r) v
    (synced r) (client_timestamp r) (server_timestamp r) (device_id r)
    (sync_version r) (conflict_resolution_strategy r) (metadata r)
    (created_at r) (updated_at r).

Definition set_synced (v : option bool) (r : row) : row :=
  mkRow (id r) (user_id r) (facility_id r) (clock_in r) (clock_out r)
    (clock_in_latitude r) (clock_in_longitude r)
    (clock_out_latitude r) (clock_out_longitude r) (notes r) (status r)
    v (client_timestamp r) (server_timestamp r) (device_id r)
    (sync_version r) (conflict_resolution_strategy r) (metadata r)
    (created_at r) (updated_at r).

Definition set_sync_version (v : option Z) (r : row) : row :=
  mkRow (id r) (user_id r) (facility_id r) (clock_in r) (clock_out r)
    (clock_in_latitude r) (clock_in_longitude r)
    (clock_out_latitude r) (clock_out_longitude r) (notes r) (status r)
    (synced r) (client_timestamp r) (server_timestamp r) (device_id r)
    v (conflict_resolution_strategy r) (metadata r)
    (created_at r) (updated_at r).

Definition set_metadata (v : option value) (r : row) : row :=
  mkRow (id r) (user_id r) (facility_id r) (clock_in r) (clock_out r)
    (clock_in_latitude r) (clock_in_longitude r)
    (clock_out_latitude r) (clock_out_longitude r) (notes r) (status r)
    (synced r) (client_timestamp r) (server_timestamp r) (device_id r)
    (sync_version r) (conflict_resolution_strategy r) v
    (created_at r) (updated_at r).

(** The trigger [update_attendance_updated_at]. *)
Definition update_updated_at_column (r : row) : row :=
  mkRow (id r) (user_id r) (facility_id r) (clock_in r) (clock_out r)
    (clock_in_latitude r) (clock_in_longitude r)
    (clock_out_latitude r) (clock_out_longitude r) (notes r) (status r)
    (synced r) (client_timestamp r) (server_timestamp r) (device_id r)
    (sync_version r) (conflict_resolution_strategy r) (metadata r)
    (created_at r) (Some (now E)).

(** The assignment [column = $i]: the parameter is read by the input
    function of the column's type and fitted to the column when the
    statement is prepared, before any row is looked at; what is left
    is the assignment to a row. *)
Definition bind_assignment (column : string) (v : value)
    : result pg_error (row -> row) :=
  if String.eqb column "clock_out" then
    t ← in_timestamptz v; Ok (set_clock_out t)
  else if String.eqb column "clock_out_latitude" then
    q ← in_numeric v; z ← fit_decimal_10_8 q; Ok (set_clock_out_latitude z)
  else if String.eqb column "clock_out_longitude" then
    q ← in_numeric v; z ← fit_decimal_11_8 q; Ok (set_clock_out_longitude z)
  else if String.eqb column "notes" then
    Ok (set_notes (param_text v))
  else if String.eqb column "status" then
    s ← fit_varchar 50 (param_text v); Ok (set_status s)
  else if String.eqb column "synced" then
    b ← in_boolean v; Ok (set_synced b)
  else if String.eqb column "sync_version" then
    n ← in_integer v; Ok (set_sync_version n)
  else if String.eqb column "metadata" then
    j ← in_jsonb v; Ok (set_metadata j)
  else Throw (UndefinedColumn column).

Fixpoint bind_assignments (sets : list (string * value))
    : result pg_error (list (row -> row)) :=
  match sets with
  | [] => Ok []
  | (column, v) :: sets =>
      f ← bind_assignment column v;
      fs ← bind_assignments sets;
      Ok (f :: fs)
  end.

Definition assign (fs : list (row -> row)) (r : row) : row :=
  fold_left (fun r f => f r) fs r.

(** The new version of one row: the SET list, the trigger, the CHECK
    constraints. *)
Definition update_row (fs : list (row -> row)) (r : row)
    : result pg_error row :=
  let r := update_updated_at_column (assign fs r) in
  _ ← check_constraints r;
  Ok r.

Fixpoint update_rows (fs : list (row -> row))
    (target : N) (rs : list row) : result pg_error (list row) :=
  match rs with
  | [] => Ok []
  | r :: rs =>
      r ← (if N.eqb (id r) target then update_row fs r else Ok r);
      rs ← update_rows fs target rs;
      Ok (r :: rs)
  end.

(** The rows returned are the updated ones.  A statement that fails
    changes nothing. *)
Definition update_attendance (sets : list (string * value)) (target : N)
    (tb : table) : result pg_error (list row * table) :=
  fs ← bind_assignments sets;
  rs ← update_rows fs target (rows tb);
  Ok (List.filter (fun r => N.eqb (id r) target) rs,
      mkTable rs (next_id tb)).

End Statements.

End Schema.

(* ===================================================================== *)
(** ** src/modules/attendance/attendance.repository.js *)
(* ===================================================================== *)

Module AttendanceRepository.

Import Schema.

Section Repository.

Variable E : env.

(** [create(attendanceData)]: thirteen parameters, none of them read
    from [clockOut], [clockOutLatitude] or [clockOutLongitude]. *)
Definition create (attendanceData : gmap string value) (tb : table)
    : result error row * table :=
  let params :=
    {| p_user_id := get attendanceData "userId";
       p_facility_id := get attendanceData "facilityId";
       p_clock_in := JS.or_else (get attendanceData "clockIn") (VDate (now E));
       p_clock_in_latitude :=
         JS.or_else (get attendanceData "clockInLatitude") VNull;
       p_clock_in_longitude :=
         JS.or_else (get attendanceData "clockInLongitude") VNull;
       p_notes := JS.or_else (get attendanceData "notes") VNull;
       p_status := VStr "clocked_in";
       p_synced := JS.or_else (get attendanceData "synced") (VBool true);
       p_client_timestamp :=
         JS.or_else (get attendanceData "clientTimestamp") VNull;
       p_device_id := JS.or_else (get attendanceData "deviceId") VNull;
       p_sync_version := JS.or_else (get attendanceData "syncVersion") (VNum 1);
       p_conflict_resolution_strategy :=
         JS.or_else (get attendanceData "conflictResolutionStrategy")
                    (VStr "server_wins");
       p_metadata :=
         JS.or_else (get attendanceData "metadata") (VObj "{}") |} in
  match insert_attendance E params tb with
  | Ok (r, tb') => (Ok r, tb')
  | Throw e => (Throw (Pg e), tb)
  end.

Definition allowedFields : list string :=
  ["clock_out"; "clock_out_latitude"; "clock_out_longitude";
   "notes"; "status"; "synced"; "sync_version"; "metadata"].

Definition is_undefined (v : value) : bool :=
  match v with VUndef => true | _ => false end.

(** [update(attendanceId, updates)].  The SET list holds the allowed
    keys of [updates] whose value is not [undefined]; it is listed
    here in the order of [allowedFields], which decides nothing but
    which of several refused parameters is reported.  The result is
    [result.rows[0]]. *)
Definition update (attendanceId : N) (updates : gmap string value)
    (tb : table) : result error (option row) * table :=
  let fields :=
    List.filter (fun key => negb (is_undefined (get updates key)))
                allowedFields in
  if Nat.eqb (length fields) 0 then
    (Throw (JsError "No valid fields to update"), tb)
  else
    match update_attendance E
            (map (fun key => (key, get updates key)) fields)
            attendanceId tb with
    | Ok (rs, tb') => (Ok (head rs), tb')
    | Throw e => (Throw (Pg e), tb)
    end.

End Repository.

End AttendanceRepository.

(* ===================================================================== *)
(** ** src/modules/attendance/attendance.service.js *)
(* ===================================================================== *)

Module AttendanceService.

Import Schema.
Import SyncResolver.

(** The entries pushed on the three arrays. *)
Record synced_entry : Type := mkSynced {
  synced_id : N;
  action : string;
  resolution_winner : option string
}.

Record conflict_entry : Type := mkConflict {
  conflict_record : item;
  existingRecord : row;
  conflict_resolution : resolution item row
}.

(** A message is a literal of the validator or the [message] of a
    caught error. *)
Inductive message : Type :=
| Text (s : string)
| Raised (e : error).

Record error_entry : Type := mkErrorEntry {
  error_record : item;
  error_messages : list message
}.

(** The state of one call: the table, and the arrays [synced],
    [conflicts] and [errors], which the loop body and its [catch]
    clause share. *)
Record state : Type := mkState {
  db : table;
  synced_records : list synced_entry;
  conflict_records : list conflict_entry;
  error_records : list error_entry
}.

(** State and exceptions. *)
Definition M (A : Type) : Type := state -> result error A * state.

Definition ret {A : Type} (a : A) : M A := fun st => (Ok a, st).

Definition bind {A B : Type} (m : M A) (k : A -> M B) : M B :=
  fun st =>
    match m st with
    | (Ok a, st') => k a st'
    | (Throw e, st') => (Throw e, st')
    end.

Notation "'let*' x := m 'in' k" := (bind m (fun x => k))
  (at level 10, x name, m at level 100, k at level 200, only parsing).

(** A call of the repository or of [db.query]. *)
Definition query {A : Type} (q : table -> result error A * table) : M A :=
  fun st =>
    let '(r, tb) := q (db st) in
    (r, mkState tb (synced_records st) (conflict_records st)
          (error_records st)).

Definition push_synced (e : synced_entry) : M unit :=
  fun st =>
    (Ok tt, mkState (db st) (push (synced_records st) e)
              (conflict_records st) (error_records st)).

Definition push_conflict (e : conflict_entry) : M unit :=
  fun st =>
    (Ok tt, mkState (db st) (synced_records st)
              (push (conflict_records st) e) (error_records st)).

Definition push_error (e : error_entry) : M unit :=
  fun st =>
    (Ok tt, mkState (db st) (synced_records st) (conflict_records st)
              (push (error_records st) e)).

Section Service.

Variable E : env.

(** [syncResolver.validateSyncMetadata(record)]: its first statement
    reads [record.device_id]. *)
Definition validate (record : item) : M validation :=
  fun st =>
    match record with
    | INull => (Throw (TypeErrorNull "device_id"), st)
    | _ => (Ok (validateSyncMetadata (fields record)), st)
    end.

Definition select_existing (record : item) : M (list row) :=
  query (fun tb =>
    match select_by_device_and_client_timestamp E
            (get (fields record) "deviceId")
            (get (fields record) "clientTimestamp") tb with
    | Ok rs => (Ok rs, tb)
    | Throw e => (Throw (Pg e), tb)
    end).

(** [existingRecord.sync_version + 1]; [null + 1] is 1. *)
Definition next_version (existingRecord : row) : value :=
  match sync_version existingRecord with
  | Some n => VNum (inject_Z (n + 1))
  | None => VNum 1
  end.

(** The object literal passed to [create]. *)
Definition attendanceData (userId : string) (record : item)
    : gmap string value :=
  let r := fields record in
  list_to_map
    [("userId", VStr userId);
     ("facilityId", get r "facilityId");
     ("clockIn", get r "clockIn");
     ("clockOut", JS.or_else (get r "clockOut") VNull);
     ("clockInLatitude", get r "clockInLatitude");
     ("clockInLongitude", get r "clockInLongitude");
     ("clockOutLatitude", get r "clockOutLatitude");
     ("clockOutLongitude", get r "clockOutLongitude");
     ("notes", get r "notes");
     ("deviceId", get r "deviceId");
     ("clientTimestamp", get r "clientTimestamp");
     ("syncVersion", JS.or_else (get r "syncVersion") (VNum 1));
     ("conflictResolutionStrategy", get r "conflictResolutionStrategy");
     ("metadata", get r "metadata");
     ("synced", VBool true)].

(** The [try] block of the loop; [continue] ends it. *)
Definition try_record (userId : string) (record : item) : M unit :=
  let* validation := validate record in
  if negb (isValid validation) then
    push_error (mkErrorEntry record (map Text (errors validation)))
  else
    let* existingResult := select_existing record in
    match existingResult with
    | existingRecord :: _ =>
        if hasConflict (fields record) (Some (row_object existingRecord))
        then
          let resolution :=
            resolveConflict record existingRecord
              (JS.or_else (get (fields record) "conflictResolutionStrategy")
                          (VStr "server_wins")) in
          if String.eqb (winner resolution) "manual" then
            push_conflict (mkConflict record existingRecord resolution)
          else
            let* _ :=
              (if String.eqb (winner resolution) "client" then
                 let* _ :=
                   query (AttendanceRepository.update E (id existingRecord)
                            (<["sync_version" := next_version existingRecord]>
                               (fields record))) in
                 ret tt
               else ret tt) in
            push_synced
              (mkSynced (id existingRecord) "updated"
                 (Some (winner resolution)))
        else
          push_synced (mkSynced (id existingRecord) "no_change" None)
    | [] =>
        let* created :=
          query (AttendanceRepository.create E
                   (attendanceData userId record)) in
        push_synced (mkSynced (id created) "created" None)
    end.

(** One turn of the loop: the [try] block and its [catch] clause. *)
Definition process_record (userId : string) (st : state) (record : item)
    : state :=
  match try_record userId record st with
  | (Ok _, st') => st'
  | (Throw e, st') =>
      snd (push_error (mkErrorEntry record [Raised e]) st')
  end.

Definition sync_loop (userId : string) (records : list item) (st : state)
    : state :=
  fold_left (process_record userId) records st.

Definition syncOfflineRecords (userId : string) (records : list item)
    (tb : table)
    : syncResponse synced_entry conflict_entry error_entry * table :=
  let st := sync_loop userId records (mkState tb [] [] []) in
  (createSyncResponse (now E)
     (synced_records st) (conflict_records st) (error_records st),
   db st).

End Service.

End AttendanceService.

(* ===================================================================== *)
(** ** Vocabulary of the properties *)
(* ===================================================================== *)

Import Schema SyncResolver AttendanceService.



(** The device identifier the record sends fits the column
    [device_id VARCHAR(255)]: it is stored as it was sent. *)
Definition device_id_fits (E : env) (record : item) : Prop :=
  forall d,
    param_text E (get (fields record) "deviceId") = Some d ->
    (String.length d <= 255)%nat.

(** The columns no UPDATE of the repository assigns. *)
Definition untouched (r r' : row) : Prop :=
  id r' = id r
  /\ user_id r' = user_id r
  /\ facility_id r' = facility_id r
  /\ clock_in r' = clock_in r
  /\ clock_in_latitude r' = clock_in_latitude r
  /\ clock_in_longitude r' = clock_in_longitude r
  /\ client_timestamp r' = client_timestamp r
  /\ server_timestamp r' = server_timestamp r
  /\ device_id r' = device_id r
  /\ conflict_resolution_strategy r' = conflict_resolution_strategy r
  /\ created_at r' = created_at r.

(** What one turn of the loop did. *)
Inductive turn (E : env) (userId : string) (st : state) (record : item)
    : state -> Prop :=
| turn_error msgs :
    turn E userId st record
      (mkState (db st) (synced_records st) (conflict_records st)
         (push (error_records st) (mkErrorEntry record msgs)))
| turn_conflict existing res :
    turn E userId st record
      (mkState (db st) (synced_records st)
         (push (conflict_records st) (mkConflict record existing res))
         (error_records st))
| turn_kept entry :
    turn E userId st record
      (mkState (db st) (push (synced_records st) entry)
         (conflict_records st) (error_records st))
| turn_updated entry tb' :
    Forall2 untouched (rows (db st)) (rows tb') ->
    next_id tb' = next_id (db st) ->
    turn E userId st record
      (mkState tb' (push (synced_records st) entry)
         (conflict_records st) (error_records st))
| turn_created r tb' :
    select_by_device_and_client_timestamp E
      (get (fields record) "deviceId")
      (get (fields record) "clientTimestamp") (db st) = Ok [] ->
    AttendanceRepository.create E (attendanceData userId record) (db st)
      = (Ok r, tb') ->
    turn E userId st record
      (mkState tb' (push (synced_records st) (mkSynced (id r) "created" None))
         (conflict_records st) (error_records st)).


(** The record [o] passed the validator, the lookup by its
    [(deviceId, clientTimestamp)] returned [existing] first, and the
    resolver found the two in conflict. *)
Definition detected_conflict (E : env) (o : gmap string value) (tb : table)
    (existing : row) : Prop :=
  isValid (validateSyncMetadata o) = true
  /\ (exists rest,
        select_by_device_and_client_timestamp E
          (get o "deviceId") (get o "clientTimestamp") tb
        = Ok (existing :: rest))
  /\ hasConflict o (Some (row_object existing)) = true.

(** Between [st] and [st'] exactly one array received exactly one entry,
    and an entry of [conflicts] or [errors] carries the record. *)
Definition one_entry (record : item) (st st' : state) : Prop :=
  (exists e,
     synced_records st' = push (synced_records st) e
     /\ conflict_records st' = conflict_records st
     /\ error_records st' = error_records st)
  \/ (exists e,
     conflict_record e = record
     /\ synced_records st' = synced_records st
     /\ conflict_records st' = push (conflict_records st) e
     /\ error_records st' = error_records st)
  \/ (exists e,
     error_record e = record
     /\ synced_records st' = synced_records st
     /\ conflict_records st' = conflict_records st
     /\ error_records st' = push (error_records st) e).

Module Examples.

Definition user1 : string := "6f1c2a9e-52b7-4c1d-9a57-0d7c0f3b8e11".
Definition facility1 : string := "0b9d3c44-7a1e-4f02-8a3c-5e2f6d7c8b90".

(** A server at 2024-01-01T10:00:00Z with one user and one facility. *)
Definition E0 : env :=
  {| now := 1704103200000;
     users := [user1];
     facilities := [facility1];
     uuid_in := fun s => if Nat.eqb (String.length s) 36 then Some s else None;
     text_out := fun v =>
       match v with
       | VBool true => "true"
       | VBool false => "false"
       | VObj j => j
       | _ => ""
       end |}.

(** 2024-01-01T08:00:00Z *)
Definition T : Z := 1704096000000.

Definition empty : table := mkTable [] 0.

(** The stored record [E] of the strategy scenarios: version 1,
    clocked in at [T]. *)
Definition stored : row :=
  {| id := 0;
     user_id := user1;
     facility_id := facility1;
     clock_in := T;
     clock_out := None;
     clock_in_latitude := None;
     clock_in_longitude := None;
     clock_out_latitude := None;
     clock_out_longitude := None;
     notes := None;
     status := Some "clocked_in";
     Schema.synced := Some true;
     client_timestamp := Some T;
     server_timestamp := Some (T + 5000);
     device_id := Some "device_123";
     sync_version := Some 1;
     conflict_resolution_strategy := Some "server_wins";
     metadata := Some (VObj "{}");
     created_at := Some (T + 5000);
     updated_at := Some (T + 5000) |}.

Definition one_row : table := mkTable [stored] 1.

(** A record in the wire format of the sync request. *)
Definition wire (clientTimestamp : Z) : gmap string value :=
  list_to_map
    [("facilityId", VStr facility1);
     ("clockIn", VDate clientTimestamp);
     ("deviceId", VStr "device_123");
     ("clientTimestamp", VDate clientTimestamp);
     ("syncVersion", VNum 1)].

(** The incoming record [C] of the strategy scenarios: version 2,
    clocked in at [T + 120 s], every field under both spellings. *)
Definition incoming (strategy : string) : gmap string value :=
  list_to_map
    [("facilityId", VStr facility1);
     ("deviceId", VStr "device_123"); ("device_id", VStr "device_123");
     ("clientTimestamp", VDate T); ("client_timestamp", VDate T);
     ("clockIn", VDate (T + 120000)); ("clock_in", VDate (T + 120000));
     ("syncVersion", VNum 2); ("sync_version", VNum 2);
     ("conflictResolutionStrategy", VStr strategy)].

(** A resubmission of [stored] with a clock-in latitude of 95. *)
Definition latitude_95 : gmap string value :=
  list_to_map
    [("facilityId", VStr facility1);
     ("deviceId", VStr "device_123"); ("device_id", VStr "device_123");
     ("clientTimestamp", VDate T); ("client_timestamp", VDate T);
     ("clockIn", VDate T); ("clock_in", VDate T);
     ("syncVersion", VNum 1); ("sync_version", VNum 1);
     ("clockInLatitude", VNum 95); ("clockInLongitude", VNum 30)].

(** A new record that was clocked out on the device. *)
Definition clocked_out : gmap string value :=
  list_to_map
    [("facilityId", VStr facility1);
     ("deviceId", VStr "device_456"); ("device_id", VStr "device_456");
     ("clientTimestamp", VDate T); ("client_timestamp", VDate T);
     ("clockIn", VDate T);
     ("clockOut", VDate (T + 28800000));
     ("clockOutLatitude", VNum (-19536 # 10000));
     ("clockOutLongitude", VNum (300606 # 10000));
     ("syncVersion", VNum 1)].

(** The row [create] stores for [clocked_out]. *)
Definition created : row :=
  {| id := 1;
     user_id := user1;
     facility_id := facility1;
     clock_in := T;
     clock_out := None;
     clock_in_latitude := None;
     clock_in_longitude := None;
     clock_out_latitude := None;
     clock_out_longitude := None;
     notes := None;
     status := Some "clocked_in";
     Schema.synced := Some true;
     client_timestamp := Some T;
     server_timestamp := Some (now E0);
     device_id := Some "device_456";
     sync_version := Some 1;
     conflict_resolution_strategy := Some "server_wins";
     metadata := Some (VObj "{}");
     created_at := Some (now E0);
     updated_at := Some (now E0) |}.

Definition two_rows : table := mkTable [stored; created] 2.

(** Two objects as the resolver reads them: same version, same
    clock-in, a clock-out on the client side only. *)
Definition client_with_clock_out : gmap string value :=
  list_to_map
    [("sync_version", VNum 1); ("clock_in", VDate T);
     ("clock_out", VDate (T + 28800000))].

Definition server_without_clock_out : gmap string value :=
  row_object stored.



End Examples.

(* ===================================================================== *)
(** ** Vocabulary of the properties of [create], [update] and the loop *)
(* ===================================================================== *)

(** The value is plain text, which the database may still read as a
    boolean or as a number. *)
Definition is_text (v : value) : bool :=
  match v with
  | VStr _ => true
  | _ => false
  end.

(** What a key of the object given to [update] leaves in its column:
    the column is as it was when the key is [undefined], and holds what
    the input function of the column read otherwise. *)
Definition assigned {A : Type} (v : value) (old new : A)
    (read : value -> A -> Prop) : Prop :=
  if AttendanceRepository.is_undefined v then new = old else read v new.

(** A coordinate is stored rounded to eight decimals. *)
Definition rounded (v : value) (z : option Z) : Prop :=
  exists q, in_numeric v = Ok q /\ z = option_map round8 q.

(** A row [r] that [update] reached with the object [u], and what it
    became. *)
Definition written (E : env) (u : gmap string value) (r r' : row) : Prop :=
  untouched r r'
  /\ updated_at r' = Some (now E)
  /\ assigned (get u "clock_out") (clock_out r) (clock_out r')
       (fun v t => in_timestamptz v = Ok t)
  /\ assigned (get u "clock_out_latitude")
       (clock_out_latitude r) (clock_out_latitude r') rounded
  /\ assigned (get u "clock_out_longitude")
       (clock_out_longitude r) (clock_out_longitude r') rounded
  /\ assigned (get u "notes") (notes r) (notes r')
       (fun v s => s = param_text E v)
  /\ assigned (get u "status") (status r) (status r')
       (fun v s => fit_varchar 50 (param_text E v) = Ok s)
  /\ assigned (get u "synced") (Schema.synced r) (Schema.synced r')
       (fun v b => in_boolean v = Ok b)
  /\ assigned (get u "sync_version") (sync_version r) (sync_version r')
       (fun v n => in_integer v = Ok n)
  /\ assigned (get u "metadata") (metadata r) (metadata r')
       (fun v j => in_jsonb v = Ok j)
  /\ check_constraints r' = Ok tt.

(** The SET list [update] builds from the object [u]. *)
Definition sets_of (u : gmap string value) : list (string * value) :=
  map (fun key => (key, get u key))
    (List.filter
       (fun key => negb (AttendanceRepository.is_undefined (get u key)))
       AttendanceRepository.allowedFields).

(** The effect of [update] on one row of the table. *)
Definition update_effect (E : env) (target : N) (u : gmap string value)
    (r r' : row) : Prop :=
  if N.eqb (id r) target then written E u r r' else r' = r.

(** The entries of [synced] that report a new row. *)
Definition created_entries (l : list synced_entry) : list synced_entry :=
  List.filter (fun e => String.eqb (action e) "created") l.

(** [st] with the entries of an earlier call before its own. *)
Definition after (sy : list synced_entry) (co : list conflict_entry)
    (er : list error_entry) (st : state) : state :=
  mkState (db st) (sy ++ synced_records st) (co ++ conflict_records st)
    (er ++ error_records st).

(* ===================================================================== *)
(** ** src/utils/syncResolver.js: mergeRecords *)
(* ===================================================================== *)

Module Merging.

(** ToNumber of a version; [None] is NaN.  Plain text is no numeral. *)
Definition to_number (v : value) : option Q :=
  match v with
  | VUndef => None
  | VNull => Some 0%Q
  | VBool b => Some (if b then 1%Q else 0%Q)
  | VNum q => Some q
  | VStr s => if String.eqb s "" then Some 0%Q else None
  | VDate _ | VObj _ => None
  end.

(** [a > b] on the results of [getTime]; false if one of them is NaN. *)
Definition later (a b : option Z) : bool :=
  match a, b with
  | Some x, Some y => y <? x
  | _, _ => false
  end.

Section Numbers.

(** [x + y] as the language computes it on two numbers: their sum
    rounded to the nearest double. *)
Variable plus : Q -> Q -> Q.

(** [Math.max(a, b) + 1]; NaN if one of them is. *)
Definition max_plus_one (a b : option Q) : option Q :=
  match a, b with
  | Some x, Some y => Some (plus (if Qle_bool x y then y else x) 1)
  | _, _ => None
  end.

(** [mergeRecords(clientRecord, serverRecord)] at the clock reading
    [now].  [{...a, ...b}] is [b ∪ a].  The result is [None] when the
    merged [sync_version] is NaN, which [value] does not hold; a version
    that is a timestamp or an object is taken as its text, which is no
    numeral. *)
Definition mergeRecords (now : Z) (clientRecord serverRecord : gmap string value)
    : option (gmap string value) :=
  let clientTimestamp :=
    getTime (JS.or_else (get clientRecord "client_timestamp")
                        (get clientRecord "updated_at")) in
  let serverTimestamp :=
    getTime (JS.or_else (get serverRecord "server_timestamp")
                        (get serverRecord "updated_at")) in
  match max_plus_one
          (to_number (JS.or_else (get clientRecord "sync_version") (VNum 1)))
          (to_number (JS.or_else (get serverRecord "sync_version") (VNum 1)))
  with
  | None => None
  | Some version =>
      let spread :=
        if later clientTimestamp serverTimestamp
        then clientRecord ∪ serverRecord
        else serverRecord ∪ clientRecord in
      Some (<["merge_timestamp" := VDate now]>
             (<["merged" := VBool true]>
               (<["sync_version" := VNum version]> spread)))
  end.

End Numbers.

End Merging.

(* ===================================================================== *)
(** ** The other statements on the attendance table *)
(* ===================================================================== *)

Module Statements.

(** What the statements read of [users] and [facilities] besides the
    identifiers: the names, and the status of a facility. *)
Record directory : Type := mkDirectory {
  first_name : string -> string;
  last_name : string -> string;
  facility_name : string -> string;
  facility_status : string -> option string
}.

(** A row of [activities], as far as the service fills it;
    [act_metadata] is the [facilityId] of the JSON document, and
    [None] the default ['{}']. *)
Record activity : Type := mkActivity {
  act_user_id : option string;
  act_action : string;
  act_entity_type : string;
  act_entity_id : N;
  act_description : string;
  act_metadata : option value;
  act_created_at : Z
}.

(** A row of [attendance] with the columns a join added to it; a
    column the statement did not select reads as [undefined]. *)
Record joined : Type := mkJoined {
  j_row : row;
  j_first_name : option string;
  j_last_name : option string;
  j_facility_name : option string
}.

(** What a statement can raise besides the errors of the sync path: a
    negative row count in [LIMIT] or [OFFSET]. *)
Inductive statement_error : Type :=
| Refused (e : pg_error)
| InvalidRowCount (clause : string).

Section OnTables.

Variable E : env.
Variable D : directory.

(** [bigint], for a number that is an integer. *)
Definition in_bigint (n : Z) : result pg_error Z :=
  if (- 2 ^ 63 <=? n) && (n <? 2 ^ 63) then Ok n
  else if Z.abs n <? 10 ^ 21 then Throw (OutOfRange "bigint")
  else Throw (InvalidText "bigint").

Definition text_is (s : string) (v : option string) : bool :=
  match v with
  | Some s' => String.eqb s' s
  | None => false
  end.

Definition is_null {A : Type} (v : option A) : bool :=
  match v with
  | Some _ => false
  | None => true
  end.

(** *** ORDER BY clock_in DESC, LIMIT and OFFSET.  Rows with the same
    [clock_in] are left in the order of the table. *)

Fixpoint insert_desc (r : row) (rs : list row) : list row :=
  match rs with
  | [] => [r]
  | r' :: rs' =>
      if clock_in r' <=? clock_in r then r :: rs
      else r' :: insert_desc r rs'
  end.

Definition order_by_clock_in_desc (rs : list row) : list row :=
  fold_right insert_desc [] rs.

Definition limit_offset {A : Type} (limit offset : Z) (rs : list A)
    : result statement_error (list A) :=
  if offset <? 0 then Throw (InvalidRowCount "OFFSET")
  else if limit <? 0 then Throw (InvalidRowCount "LIMIT")
  else Ok (firstn (Z.to_nat limit) (skipn (Z.to_nat offset) rs)).

(** *** SELECT a.*, u.first_name, u.last_name, u.email, u.employee_id,
        f.name as facility_name
        FROM attendance a
        INNER JOIN users u ON a.user_id = u.id
        INNER JOIN facilities f ON a.facility_id = f.id
        WHERE a.id = $1 *)

Definition select_by_id (target : N) (tb : table) : list joined :=
  map (fun r =>
         {| j_row := r;
            j_first_name := Some (first_name D (user_id r));
            j_last_name := Some (last_name D (user_id r));
            j_facility_name := Some (facility_name D (facility_id r)) |})
    (List.filter
       (fun r => N.eqb (id r) target
                 && in_list (user_id r) (users E)
                 && in_list (facility_id r) (facilities E))
       (rows tb)).

(** *** SELECT a.*, f.name as facility_name
        FROM attendance a
        INNER JOIN facilities f ON a.facility_id = f.id
        WHERE a.user_id = $1 [AND a.clock_in >= $i] [AND a.clock_in <= $j]
              [AND a.status = $k]
        ORDER BY a.clock_in DESC LIMIT $m OFFSET $n

    A condition that is left out of the statement is [None]. *)

Definition condition (o : option value) (keeps : value -> result pg_error (row -> bool))
    : result pg_error (row -> bool) :=
  match o with
  | None => Ok (fun _ => true)
  | Some v => keeps v
  end.

Definition compare_clock_in (holds : Z -> Z -> bool) (v : value)
    : result pg_error (row -> bool) :=
  t ← in_timestamptz v;
  Ok (fun r =>
        match t with
        | Some t => holds (clock_in r) t
        | None => false
        end).

Definition compare_status (v : value) : result pg_error (row -> bool) :=
  Ok (fun r =>
        match param_text E v, status r with
        | Some s, Some s' => String.eqb s' s
        | _, _ => false
        end).

Definition select_by_user (p_user : value)
    (startDate endDate status_is : option value) (limit offset : Z)
    (tb : table) : result statement_error (list joined) :=
  match
    (u ← in_uuid E p_user;
     from ← condition startDate (compare_clock_in Z.geb);
     to ← condition endDate (compare_clock_in Z.leb);
     st ← condition status_is compare_status;
     limit ← in_bigint limit;
     offset ← in_bigint offset;
     Ok (u, from, to, st, limit, offset))
  with
  | Throw e => Throw (Refused e)
  | Ok (u, from, to, st, limit, offset) =>
      rs ← limit_offset limit offset
             (order_by_clock_in_desc
                (List.filter
                   (fun r => text_is (user_id r) u
                             && in_list (facility_id r) (facilities E)
                             && from r && to r && st r)
                   (rows tb)));
      Ok (map (fun r =>
                 {| j_row := r;
                    j_first_name := None;
                    j_last_name := None;
                    j_facility_name :=
                      Some (facility_name D (facility_id r)) |}) rs)
  end.

(** *** SELECT COUNT( * ) FROM attendance WHERE user_id = $1 *)

Definition count_by_user (p_user : value) (tb : table)
    : result pg_error Z :=
  u ← in_uuid E p_user;
  Ok (Z.of_nat
        (length (List.filter (fun r => text_is (user_id r) u) (rows tb)))).

(** *** SELECT * FROM attendance
        WHERE user_id = $1 AND status = 'clocked_in' AND clock_out IS NULL
        ORDER BY clock_in DESC LIMIT 1 *)

Definition is_active (u : option string) (r : row) : bool :=
  text_is (user_id r) u
  && text_is "clocked_in" (status r)
  && is_null (clock_out r).

Definition select_active (p_user : value) (tb : table)
    : result pg_error (list row) :=
  u ← in_uuid E p_user;
  Ok (firstn 1
        (order_by_clock_in_desc (List.filter (is_active u) (rows tb)))).

(** *** SELECT id FROM facilities WHERE id = $1 AND status = $2 *)

Definition select_facility (p_id : value) (p_status : string)
    : result pg_error (list string) :=
  f ← in_uuid E p_id;
  Ok (match f with
      | Some f =>
          if in_list f (facilities E)
             && text_is p_status (facility_status D f)
          then [f] else []
      | None => []
      end).

(** *** INSERT INTO activities (user_id, action, entity_type, entity_id,
        description [, metadata])
        VALUES ($1, '...', 'attendance', $2, '...' [, $3]) *)

Definition insert_activity (p_user : value) (action : string) (entity : N)
    (description : string) (meta : option value) (log : list activity)
    : result pg_error (list activity) :=
  user ← in_uuid E p_user;
  _ ← match user with
      | Some u => references "activities_user_id_fkey" (users E) u
      | None => Ok tt
      end;
  Ok (log ++ [ {| act_user_id := user;
                  act_action := action;
                  act_entity_type := "attendance";
                  act_entity_id := entity;
                  act_description := description;
                  act_metadata := meta;
                  act_created_at := now E |} ])%list.

(** *** INSERT INTO attendance (user_id, facility_id, clock_in,
        clock_out, clock_in_latitude, clock_in_longitude,
        clock_out_latitude, clock_out_longitude, notes, status, synced,
        client_timestamp, device_id, sync_version,
        conflict_resolution_strategy, metadata)
        VALUES ($1, ..., $16) RETURNING * *)

Record insert_all_params : Type := mkInsertAllParams {
  q_user_id : value;
  q_facility_id : value;
  q_clock_in : value;
  q_clock_out : value;
  q_clock_in_latitude : value;
  q_clock_in_longitude : value;
  q_clock_out_latitude : value;
  q_clock_out_longitude : value;
  q_notes : value;
  q_status : value;
  q_synced : value;
  q_client_timestamp : value;
  q_device_id : value;
  q_sync_version : value;
  q_conflict_resolution_strategy : value;
  q_metadata : value
}.

(** As for the statement of [create]: the parameters in their order,
    the columns with a length or a precision, NOT NULL, the CHECK
    constraints, the foreign keys. *)
Definition insert_attendance_all (p : insert_all_params) (tb : table)
    : result pg_error (row * table) :=
  user ← in_uuid E (q_user_id p);
  facility ← in_uuid E (q_facility_id p);
  cin ← in_timestamptz (q_clock_in p);
  cout ← in_timestamptz (q_clock_out p);
  ilat ← in_numeric (q_clock_in_latitude p);
  ilon ← in_numeric (q_clock_in_longitude p);
  olat ← in_numeric (q_clock_out_latitude p);
  olon ← in_numeric (q_clock_out_longitude p);
  sync ← in_boolean (q_synced p);
  cts ← in_timestamptz (q_client_timestamp p);
  ver ← in_integer (q_sync_version p);
  meta ← in_jsonb (q_metadata p);
  ilat ← fit_decimal_10_8 ilat;
  ilon ← fit_decimal_11_8 ilon;
  olat ← fit_decimal_10_8 olat;
  olon ← fit_decimal_11_8 olon;
  st ← fit_varchar 50 (param_text E (q_status p));
  dev ← fit_varchar 255 (param_text E (q_device_id p));
  strat ← fit_varchar 50 (param_text E (q_conflict_resolution_strategy p));
  user ← not_null "user_id" user;
  facility ← not_null "facility_id" facility;
  cin ← not_null "clock_in" cin;
  let r :=
    {| id := next_id tb;
       user_id := user;
       facility_id := facility;
       clock_in := cin;
       clock_out := cout;
       clock_in_latitude := ilat;
       clock_in_longitude := ilon;
       clock_out_latitude := olat;
       clock_out_longitude := olon;
       notes := param_text E (q_notes p);
       status := st;
       Schema.synced := sync;
       client_timestamp := cts;
       server_timestamp := Some (now E);
       device_id := dev;
       sync_version := ver;
       conflict_resolution_strategy := strat;
       metadata := meta;
       created_at := Some (now E);
       updated_at := Some (now E) |} in
  _ ← check_constraints r;
  _ ← references "attendance_facility_id_fkey" (facilities E) facility;
  _ ← references "attendance_user_id_fkey" (users E) user;
  Ok (r, mkTable (rows tb ++ [r]) (N.succ (next_id tb))).

End OnTables.

End Statements.

(* ===================================================================== *)
(** ** src/config/database.js: getClient *)
(* ===================================================================== *)

Module Database.

(** A client of the pool.  [getClient] puts a [query] of its own on the
    client object, in front of the one it finds there, with a flag
    [released] that the [release] it returns sets and that nothing
    clears; the pool hands the same object out again.  The client is
    known by the flags of the wrappers put on it so far, the latest
    first. *)
Definition client : Type := list bool.

(** [getClient()], when the pool hands out the client [c]. *)
Definition getClient (c : client) : client := false :: c.

(** [client.query(...)] reaches the database when no wrapper has its
    flag set; the first one that has throws 'Cannot execute query on
    released client'. *)
Definition query_passes (c : client) : bool := forallb negb c.

(** [client.release()]: the latest wrapper sets its flag and gives the
    client back to the pool. *)
Definition release (c : client) : client :=
  match c with
  | [] => []
  | _ :: c => true :: c
  end.

End Database.

(* ===================================================================== *)
(** ** src/modules/attendance/attendance.repository.js: the queries
       and [bulkInsert] *)
(* ===================================================================== *)

Module AttendanceQueries.

Import Statements.
Import Database.

(** The object [formatAttendance] returns.  [None] is [null], and
    [undefined] in [a_facilityName] and [a_userName]; a coordinate is
    the number [parseFloat] reads from the text of the column. *)
Record attendance : Type := mkAttendance {
  a_id : N;
  a_userId : string;
  a_facilityId : string;
  a_clockIn : Z;
  a_clockOut : option Z;
  a_clockInLatitude : option Q;
  a_clockInLongitude : option Q;
  a_clockOutLatitude : option Q;
  a_clockOutLongitude : option Q;
  a_notes : option string;
  a_status : option string;
  a_synced : option bool;
  a_clientTimestamp : option Z;
  a_serverTimestamp : option Z;
  a_deviceId : option string;
  a_syncVersion : option Z;
  a_conflictResolutionStrategy : option string;
  a_metadata : option value;
  a_createdAt : option Z;
  a_updatedAt : option Z;
  a_facilityName : option string;
  a_userName : option string
}.

(** [c ? parseFloat(c) : null] on a [DECIMAL] column, which the driver
    hands over as its text with eight decimals: never the empty
    string. *)
Definition parse_coordinate (c : option Z) : option Q :=
  match c with
  | Some z => Some (z # 100000000)
  | None => None
  end.

Definition nonempty (s : option string) : bool :=
  match s with
  | Some s => negb (String.eqb s "")
  | None => false
  end.

Definition formatAttendance (row : joined) : attendance :=
  let r := j_row row in
  {| a_id := id r;
     a_userId := user_id r;
     a_facilityId := facility_id r;
     a_clockIn := clock_in r;
     a_clockOut := clock_out r;
     a_clockInLatitude := parse_coordinate (clock_in_latitude r);
     a_clockInLongitude := parse_coordinate (clock_in_longitude r);
     a_clockOutLatitude := parse_coordinate (clock_out_latitude r);
     a_clockOutLongitude := parse_coordinate (clock_out_longitude r);
     a_notes := notes r;
     a_status := status r;
     a_synced := Schema.synced r;
     a_clientTimestamp := client_timestamp r;
     a_serverTimestamp := server_timestamp r;
     a_deviceId := device_id r;
     a_syncVersion := sync_version r;
     a_conflictResolutionStrategy := conflict_resolution_strategy r;
     a_metadata := metadata r;
     a_createdAt := created_at r;
     a_updatedAt := updated_at r;
     a_facilityName := j_facility_name row;
     a_userName :=
       if nonempty (j_first_name row) && nonempty (j_last_name row)
       then Some (default "" (j_first_name row) ++ " "
                  ++ default "" (j_last_name row))
       else None |}.

Section Queries.

Variable E : env.
Variable D : directory.

(** [findById(attendanceId)], for the identifier [attendanceId]
    denotes. *)
Definition findById (attendanceId : N) (tb : table) : option attendance :=
  match select_by_id E D attendanceId tb with
  | row :: _ => Some (formatAttendance row)
  | [] => None
  end.

(** [if (filters.k)]: the condition is added for a truthy value. *)
Definition filter_of (filters : gmap string value) (k : string)
    : option value :=
  if truthy (get filters k) then Some (get filters k) else None.

(** [findByUserId(userId, filters, limit, offset)], for a limit and an
    offset that are integers. *)
Definition findByUserId (userId : string) (filters : gmap string value)
    (limit offset : Z) (tb : table)
    : result statement_error (list attendance) :=
  rs ← select_by_user E D (VStr userId)
         (filter_of filters "startDate") (filter_of filters "endDate")
         (filter_of filters "status") limit offset tb;
  Ok (map formatAttendance rs).

(** [findActiveAttendance(userId)]: the row as the driver returns it. *)
Definition findActiveAttendance (userId : string) (tb : table)
    : result pg_error (option row) :=
  rs ← select_active E (VStr userId) tb;
  Ok (head rs).

(** The parameters [bulkInsert] sends for one record. *)
Definition insert_all_params_of (record : gmap string value)
    : insert_all_params :=
  {| q_user_id := get record "userId";
     q_facility_id := get record "facilityId";
     q_clock_in := get record "clockIn";
     q_clock_out := JS.or_else (get record "clockOut") VNull;
     q_clock_in_latitude := JS.or_else (get record "clockInLatitude") VNull;
     q_clock_in_longitude := JS.or_else (get record "clockInLongitude") VNull;
     q_clock_out_latitude := JS.or_else (get record "clockOutLatitude") VNull;
     q_clock_out_longitude :=
       JS.or_else (get record "clockOutLongitude") VNull;
     q_notes := JS.or_else (get record "notes") VNull;
     q_status :=
       JS.or_else (get record "status")
         (if truthy (get record "clockOut") then VStr "clocked_out"
          else VStr "clocked_in");
     q_synced := VBool true;
     q_client_timestamp := get record "clientTimestamp";
     q_device_id := get record "deviceId";
     q_sync_version := JS.or_else (get record "syncVersion") (VNum 1);
     q_conflict_resolution_strategy :=
       JS.or_else (get record "conflictResolutionStrategy")
                  (VStr "server_wins");
     q_metadata := JS.or_else (get record "metadata") (VObj "{}") |}.

(** The loop of [bulkInsert] between BEGIN and COMMIT; reading
    [record.userId] of [null] throws. *)
Fixpoint insert_each (records : list item) (inserted : list row)
    (tb : table) : result error (list row * table) :=
  match records with
  | [] => Ok (inserted, tb)
  | record :: records =>
      match record with
      | INull => Throw (TypeErrorNull "userId")
      | _ =>
          match insert_attendance_all E
                  (insert_all_params_of (fields record)) tb with
          | Ok (r, tb') => insert_each records (push inserted r) tb'
          | Throw e => Throw (Pg e)
          end
      end
  end.

(** The transaction of [bulkInsert] on a client that takes queries:
    COMMIT, or ROLLBACK and the error thrown again. *)
Definition in_transaction (records : list item) (tb : table)
    : result error (list row) * table :=
  match insert_each records [] tb with
  | Ok (inserted, tb') => (Ok inserted, tb')
  | Throw e => (Throw e, tb)
  end.

(** [bulkInsert(records)], when the pool hands out the client [c].
    On a client whose [query] throws, BEGIN throws inside [try],
    ROLLBACK throws inside [catch], and that error leaves the function
    after [finally] has released the client; no statement was sent. *)
Definition bulkInsert (records : list item) (c : client) (tb : table)
    : result error (list row) * table * client :=
  let client := getClient c in
  if query_passes client then
    let (res, tb') := in_transaction records tb in
    (res, tb', release client)
  else
    (Throw (JsError "Cannot execute query on released client"), tb,
     release client).

End Queries.

End AttendanceQueries.

(* ===================================================================== *)
(** ** src/modules/attendance/attendance.service.js: clocking in and
       out, and the history of a user *)
(* ===================================================================== *)

Module ClockService.

Import Statements.
Import AttendanceQueries.

(** What the functions throw: an [AppError] with its status code, or
    what a statement or the language raised. *)
Inductive failure : Type :=
| AppError (message : string) (statusCode : Z)
| Uncaught (e : error)
| Statement (e : statement_error).

(** The two tables the functions write. *)
Record store : Type := mkStore {
  attendance_table : table;
  activities : list activity
}.

(** State and exceptions. *)
Definition Task (A : Type) : Type := store -> result failure A * store.

Definition resolve {A : Type} (a : A) : Task A := fun s => (Ok a, s).

Definition throw {A : Type} (e : failure) : Task A :=
  fun s => (Throw e, s).

Definition and_then {A B : Type} (m : Task A) (k : A -> Task B) : Task B :=
  fun s =>
    match m s with
    | (Ok a, s') => k a s'
    | (Throw e, s') => (Throw e, s')
    end.

Notation "'await' x := m 'in' k" := (and_then m (fun x => k))
  (at level 10, x name, m at level 100, k at level 200, only parsing).

(** A query that reads the attendance table. *)
Definition reading {A : Type} (q : table -> result pg_error A) : Task A :=
  fun s =>
    match q (attendance_table s) with
    | Ok a => (Ok a, s)
    | Throw e => (Throw (Uncaught (Pg e)), s)
    end.

(** A call of the repository that writes it. *)
Definition writing {A : Type} (q : table -> result error A * table) : Task A :=
  fun s =>
    match q (attendance_table s) with
    | (Ok a, tb) => (Ok a, mkStore tb (activities s))
    | (Throw e, tb) => (Throw (Uncaught e), mkStore tb (activities s))
    end.

(** An INSERT INTO activities. *)
Definition logging
    (q : list activity -> result pg_error (list activity)) : Task unit :=
  fun s =>
    match q (activities s) with
    | Ok log => (Ok tt, mkStore (attendance_table s) log)
    | Throw e => (Throw (Uncaught (Pg e)), s)
    end.

(** [pagination] of [getUserAttendance]; [None] in [pages] is a
    quotient by zero, which is no finite number. *)
Record pagination : Type := mkPagination {
  page : Z;
  limit : Z;
  total : Z;
  pages : option Z
}.

(** [Math.ceil(a / b)] for integers. *)
Definition ceil_div (a b : Z) : option Z :=
  if b =? 0 then None else Some (- ((- a) / b)).

Definition of_option {A : Type} (v : option A) (f : A -> value) : value :=
  match v with
  | Some a => f a
  | None => VNull
  end.

(** What [clockOut] has in [attendance]: the identifier in [id], and
    the properties it reads besides, of the object of [findById] or of
    the row of [findActiveAttendance]. *)
Definition formatted_object (a : attendance) : N * gmap string value :=
  (a_id a,
   list_to_map
     [("userId", VStr (a_userId a));
      ("clockOut", of_option (a_clockOut a) VDate);
      ("notes", of_option (a_notes a) VStr);
      ("syncVersion",
       of_option (a_syncVersion a) (fun n => VNum (inject_Z n)))]).

Definition row_properties (r : row) : N * gmap string value :=
  (id r,
   list_to_map
     [("user_id", VStr (user_id r));
      ("clock_out", of_option (clock_out r) VDate);
      ("notes", of_option (notes r) VStr);
      ("sync_version",
       of_option (sync_version r) (fun n => VNum (inject_Z n)))]).

(** [v + 1] for a number, for [null] and for [undefined]; the last is
    NaN, which the driver sends as the text [NaN].  The sum is exact
    for a version read from the table, a 32-bit integer. *)
Definition plus_one (v : value) : value :=
  match v with
  | VNum q => VNum (q + 1)
  | VNull => VNum 1
  | _ => VStr "NaN"
  end.

Section Service.

Variable E : env.
Variable D : directory.

(** The object literal [clockIn] passes to [create]. *)
Definition new_attendance (userId : string) (clockInData : gmap string value)
    : gmap string value :=
  list_to_map
    [("userId", VStr userId);
     ("facilityId", get clockInData "facilityId");
     ("clockIn", JS.or_else (get clockInData "clockIn") (VDate (now E)));
     ("clockInLatitude", get clockInData "latitude");
     ("clockInLongitude", get clockInData "longitude");
     ("notes", get clockInData "notes");
     ("deviceId", get clockInData "deviceId");
     ("clientTimestamp", get clockInData "clientTimestamp");
     ("synced", VBool true)].

(** The object literal [clockOut] passes to [update]. *)
Definition clock_out_updates (clockOutData attendance : gmap string value)
    : gmap string value :=
  list_to_map
    [("clock_out", JS.or_else (get clockOutData "clockOut") (VDate (now E)));
     ("clock_out_latitude", get clockOutData "latitude");
     ("clock_out_longitude", get clockOutData "longitude");
     ("notes",
      JS.or_else (get clockOutData "notes") (get attendance "notes"));
     ("status", VStr "clocked_out");
     ("sync_version", plus_one (get attendance "syncVersion"))].

Definition clockIn (userId : string) (clockInData : gmap string value)
    : Task (option attendance) :=
  await activeAttendance := reading (findActiveAttendance E userId) in
  match activeAttendance with
  | Some _ =>
      throw (AppError "User already clocked in. Please clock out first." 400)
  | None =>
      await facilityResult :=
        reading (fun _ =>
          select_facility E D (get clockInData "facilityId") "active") in
      if Nat.eqb (length facilityResult) 0 then
        throw (AppError "Facility not found or inactive" 404)
      else
        await attendance :=
          writing (AttendanceRepository.create E
                     (new_attendance userId clockInData)) in
        await _ :=
          logging (insert_activity E (VStr userId) "CLOCK_IN" (id attendance)
                     "User clocked in"
                     (Some (get clockInData "facilityId"))) in
        reading (fun tb => Ok (findById E D (id attendance) tb))
  end.

(** [clockOut(userId, clockOutData)]; [attendanceId] is the identifier
    [clockOutData.attendanceId] denotes, and [None] when that is
    falsy. *)
Definition clockOut (userId : string) (attendanceId : option N)
    (clockOutData : gmap string value) : Task (option attendance) :=
  await attendance :=
    match attendanceId with
    | Some i =>
        reading (fun tb =>
          Ok (option_map formatted_object (findById E D i tb)))
    | None =>
        reading (fun tb =>
          r ← findActiveAttendance E userId tb;
          Ok (option_map row_properties r))
    end in
  match attendance with
  | None => throw (AppError "No active attendance record found" 404)
  | Some (attendance_id, attendance) =>
      if negb (strict_eq (get attendance "userId") (VStr userId)) then
        throw (AppError "Not authorized to clock out this attendance" 403)
      else if truthy (get attendance "clockOut") then
        throw (AppError "Already clocked out" 400)
      else
        await updated :=
          writing (AttendanceRepository.update E attendance_id
                     (clock_out_updates clockOutData attendance)) in
        await _ :=
          logging (insert_activity E (VStr userId) "CLOCK_OUT"
                     attendance_id "User clocked out" None) in
        match updated with
        | Some updated =>
            reading (fun tb => Ok (findById E D (id updated) tb))
        | None => throw (Uncaught (TypeErrorNull "id"))
        end
  end.

(** [getUserAttendance(userId, filters, page, limit)], for a page and
    a limit that are integers. *)
Definition getUserAttendance (userId : string) (filters : gmap string value)
    (page limit : Z) : Task (list attendance * pagination) :=
  let offset := (page - 1) * limit in
  await records :=
    (fun s =>
       match findByUserId E D userId filters limit offset
               (attendance_table s) with
       | Ok rs => (Ok rs, s)
       | Throw e => (Throw (Statement e), s)
       end) in
  await total := reading (count_by_user E (VStr userId)) in
  resolve (records,
          {| page := page;
             limit := limit;
             total := total;
             pages := ceil_div total limit |}).

End Service.

End ClockService.

(* ===================================================================== *)
(** ** Vocabulary of the properties of the queries and of the clock *)
(* ===================================================================== *)

Module Vocabulary.

Import Merging Statements Database AttendanceQueries ClockService.

(** The keys [mergeRecords] sets itself. *)
Definition merge_keys : list string :=
  ["sync_version"; "merged"; "merge_timestamp"].

(** The client was released by a caller of [getClient] before. *)
Definition released_before (c : client) : bool := existsb (fun released => released) c.

(** [bulkInsert] stores the record when it is given alone, on a client
    that [getClient] hands out for the first time. *)
Definition accepted_alone (E : env) (tb : table) (record : item) : Prop :=
  exists r tb' c, bulkInsert E [record] [] tb = (Ok [r], tb', c).

(** The version [mergeRecords] reads from [o] is the integer [n], one
    that a double holds together with its successor. *)
Definition safe_version (o : gmap string value) (n : Z) : Prop :=
  JS.or_else (get o "sync_version") (VNum 1) = VNum (inject_Z n)
  /\ Z.abs n < 2 ^ 53.

(** [plus] adds one to such an integer without rounding. *)
Definition exact_successor (plus : Q -> Q -> Q) : Prop :=
  forall n, Z.abs n < 2 ^ 53 -> (plus (inject_Z n) 1 == inject_Z (n + 1))%Q.

(** What a row stored by [bulkInsert] holds of its record. *)
Definition stored_as (record : item) (r : row) : Prop :=
  let o := fields record in
  get o "clockIn" = VDate (clock_in r)
  /\ (if truthy (get o "clockOut")
      then exists t, get o "clockOut" = VDate t /\ clock_out r = Some t
                     /\ clock_in r < t
      else clock_out r = None)
  /\ (truthy (get o "status") = false ->
      status r = Some (if truthy (get o "clockOut")
                       then "clocked_out" else "clocked_in"))
  /\ Schema.synced r = Some true.

(** Every element is at least as late as the ones after it. *)
Fixpoint descending_by {A : Type} (f : A -> Z) (l : list A) : Prop :=
  match l with
  | [] => True
  | a :: l => (forall x, In x l -> f x <= f a) /\ descending_by f l
  end.

(** The instant [clockOut] stores: the one sent, or the server clock. *)
Definition clock_out_instant (E : env) (clockOutData : gmap string value)
    (t : Z) : Prop :=
  if truthy (get clockOutData "clockOut")
  then get clockOutData "clockOut" = VDate t
  else t = now E.

(** What [clockOut] did to the row [r] when it closed the attendance
    [target], which had the version [version]. *)
Definition clocked_out_at (target : N) (version : option Z) (t : Z)
    (r r' : row) : Prop :=
  if N.eqb (id r) target then
    untouched r r'
    /\ clock_out r' = Some t
    /\ clock_in r < t
    /\ status r' = Some "clocked_out"
    /\ sync_version r'
       = Some (match version with Some n => n + 1 | None => 1 end)
  else r' = r.

(** The identifiers of the rows are among those given out. *)
Definition known_ids (tb : table) : Prop :=
  Forall (fun r => (id r < next_id tb)%N) (rows tb).

(** The row of [activities] a clock-in or a clock-out leaves. *)
Definition logged (E : env) (action description : string) (r : row)
    (meta : option value) : activity :=
  {| act_user_id := Some (user_id r);
     act_action := action;
     act_entity_type := "attendance";
     act_entity_id := id r;
     act_description := description;
     act_metadata := meta;
     act_created_at := now E |}.

(** The rows [findById] selects for an identifier. *)
Definition joins (E : env) (i : N) (r : row) : bool :=
  N.eqb (id r) i && in_list (user_id r) (users E)
  && in_list (facility_id r) (facilities E).

(** A record of the history of the user [u] under [filters]. *)
Definition in_history (E : env) (tb : table) (u : option string)
    (filters : gmap string value) (a : attendance) : Prop :=
  u = Some (a_userId a)
  /\ (exists r, In r (rows tb) /\ a_id a = id r)
  /\ (forall t, get filters "startDate" = VDate t -> t <= a_clockIn a)
  /\ (forall t, get filters "endDate" = VDate t -> a_clockIn a <= t)
  /\ (truthy (get filters "status") = true ->
      a_status a = param_text E (get filters "status"))
  /\ a_userName a = None.

End Vocabulary.

Module ClockExamples.

Import Examples Statements AttendanceQueries ClockService.

(** The names of the user and of the facility of [E0]; the facility is
    active. *)
Definition D0 : directory :=
  {| first_name := fun _ => "Amina";
     last_name := fun _ => "Juma";
     facility_name := fun _ => "Kibaha Health Centre";
     facility_status := fun _ => Some "active" |}.

(** Nobody is clocked in. *)
Definition closed_store : store := mkStore empty [].

(** [user1] is clocked in since [T], with the attendance 0. *)
Definition open_store : store := mkStore one_row [].

(** The body of a clock-in and of a clock-out request. *)
Definition clock_in_request : gmap string value :=
  list_to_map
    [("facilityId", VStr facility1);
     ("latitude", VNum (-67924 # 10000));
     ("longitude", VNum (392083 # 10000));
     ("deviceId", VStr "device_123")].

Definition clock_out_request : gmap string value :=
  list_to_map
    [("latitude", VNum (-67924 # 10000));
     ("longitude", VNum (392083 # 10000));
     ("notes", VStr "end of shift")].

(** A record for [bulkInsert]: [clocked_out] with its user. *)
Definition bulk_record : gmap string value :=
  <["userId" := VStr user1]> clocked_out.

(** Two versions of a record for [mergeRecords], the client one
    written two minutes after the server one. *)
Definition merge_client : gmap string value :=
  list_to_map
    [("client_timestamp", VDate (T + 120000));
     ("sync_version", VNum 2);
     ("notes", VStr "late")].

Definition merge_server : gmap string value :=
  list_to_map
    [("server_timestamp", VDate T);
     ("sync_version", VNum 1);
     ("notes", VStr "on time");
     ("status", VStr "clocked_in")].

End ClockExamples.

(* ===================================================================== *)
(** ** Facts about the statements *)
(* ===================================================================== *)

(** Inversion of a sequence of steps that succeeded. *)
Ltac bind_inv H :=
  repeat match type of H with
  | mbind _ ?m = Ok _ =>
      let x := fresh "x" in
      let Hx := fresh "Hx" in
      destruct m as [x | ?] eqn:Hx;
        [cbn [mbind result_bind rbind] in H | discriminate H]
  | rbind ?m _ = Ok _ =>
      let x := fresh "x" in
      let Hx := fresh "Hx" in
      destruct m as [x | ?] eqn:Hx; [cbn [rbind] in H | discriminate H]
  end.

Ltac simpl_state :=
  cbn [db synced_records conflict_records error_records fst snd negb
       push_synced push_error push_conflict ret].


Section StatementFacts.

Variable E : env.

Lemma insert_attendance_ok p tb r tb' :
  insert_attendance E p tb = Ok (r, tb') ->
  tb' = mkTable (rows tb ++ [r]) (N.succ (next_id tb))
  /\ id r = next_id tb
  /\ clock_out r = None
  /\ clock_out_latitude r = None
  /\ clock_out_longitude r = None
  /\ fit_varchar 50 (param_text E (p_status p)) = Ok (status r)
  /\ fit_varchar 255 (param_text E (p_device_id p)) = Ok (device_id r)
  /\ in_timestamptz (p_client_timestamp p) = Ok (client_timestamp r)
  /\ check_constraints r = Ok tt
  /\ (exists lat, in_numeric (p_clock_in_latitude p) = Ok lat
        /\ fit_decimal_10_8 lat = Ok (clock_in_latitude r)).
Proof.
  unfold insert_attendance. intros H.
  bind_inv H.
  injection H as <- <-. cbn.
  repeat match goal with u : unit |- _ => destruct u end.
  repeat apply conj; try assumption; try reflexivity.
  eexists. split; [reflexivity|eassumption].
Qed.

Lemma check_constraints_ok r :
  check_constraints r = Ok tt ->
  check_strategy r = true /\ check_status r = true
  /\ valid_clock_in_coords r = true /\ valid_clock_out_coords r = true
  /\ valid_clock_times r = true.
Proof.
  unfold check_constraints. intros H.
  destruct (check_strategy r); [|discriminate H].
  destruct (check_status r); [|discriminate H].
  destruct (valid_clock_in_coords r); [|discriminate H].
  destruct (valid_clock_out_coords r); [|discriminate H].
  destruct (valid_clock_times r); [|discriminate H].
  repeat split.
Qed.

Lemma insert_refuses_latitude p tb q :
  p_clock_in_latitude p = VNum q ->
  round8 q < -90 * 10 ^ 8 \/ 90 * 10 ^ 8 < round8 q ->
  exists e, insert_attendance E p tb = Throw e.
Proof.
  intros Hp Hq.
  destruct (insert_attendance E p tb) as [[r tb']|e] eqn:Hi; [exfalso|eauto].
  destruct (insert_attendance_ok _ _ _ _ Hi)
    as (_ & _ & _ & _ & _ & _ & _ & _ & Hck & lat & Hin & Hfit).
  rewrite Hp in Hin. injection Hin as <-.
  unfold fit_decimal_10_8 in Hfit.
  destruct (Z.abs (round8 q) <? 10 ^ 10); [|discriminate Hfit].
  injection Hfit as Hlat.
  destruct (check_constraints_ok _ Hck) as (_ & _ & Hc & _).
  unfold valid_clock_in_coords, valid_coords in Hc. rewrite <- Hlat in Hc.
  destruct (clock_in_longitude r); [|discriminate Hc].
  apply andb_prop in Hc as [Hc _]. apply andb_prop in Hc as [Hc _].
  apply andb_prop in Hc as [H1 H2].
  apply Z.leb_le in H1, H2. lia.
Qed.


Lemma untouched_refl r : untouched r r.
Proof. repeat split. Qed.

Lemma untouched_trans r1 r2 r3 :
  untouched r1 r2 -> untouched r2 r3 -> untouched r1 r3.
Proof.
  unfold untouched. intros H1 H2.
  destruct H1 as (?&?&?&?&?&?&?&?&?&?&?).
  destruct H2 as (?&?&?&?&?&?&?&?&?&?&?).
  repeat split; congruence.
Qed.

Lemma bind_assignment_untouched column v f r :
  bind_assignment E column v = Ok f -> untouched r (f r).
Proof.
  unfold bind_assignment. intros Hf.
  repeat match type of Hf with
  | (if ?b then _ else _) = _ => destruct b
  end;
    try discriminate Hf;
    bind_inv Hf; injection Hf as <-;
    repeat split.
Qed.

Lemma assign_untouched sets : forall fs r,
  bind_assignments E sets = Ok fs -> untouched r (assign fs r).
Proof.
  induction sets as [|[column v] sets IH]; intros fs r Hfs.
  - injection Hfs as <-. apply untouched_refl.
  - cbn [bind_assignments] in Hfs. bind_inv Hfs. injection Hfs as <-.
    unfold assign. cbn [fold_left]. fold (assign x0 (x r)).
    eapply untouched_trans.
    + eapply bind_assignment_untouched; eassumption.
    + eapply IH; eauto.
Qed.

Lemma update_row_untouched sets fs r r' :
  bind_assignments E sets = Ok fs -> update_row E fs r = Ok r' ->
  untouched r r'.
Proof.
  unfold update_row. intros Hfs Hr. bind_inv Hr. injection Hr as <-.
  eapply untouched_trans; [eapply assign_untouched; eassumption|].
  repeat split.
Qed.

Lemma update_rows_untouched sets fs target : forall rs rs',
  bind_assignments E sets = Ok fs ->
  update_rows E fs target rs = Ok rs' ->
  Forall2 untouched rs rs'.
Proof.
  induction rs as [|r rs IH]; intros rs' Hfs H.
  - injection H as <-. constructor.
  - cbn [update_rows] in H. bind_inv H. injection H as <-.
    constructor; [|eauto].
    destruct (N.eqb (id r) target).
    + eapply update_row_untouched; eassumption.
    + injection Hx as <-. apply untouched_refl.
Qed.



Lemma update_attendance_ok sets target tb rs tb' :
  update_attendance E sets target tb = Ok (rs, tb') ->
  Forall2 untouched (rows tb) (rows tb') /\ next_id tb' = next_id tb.
Proof.
  unfold update_attendance. intros H. bind_inv H. injection H as <- <-.
  split; [|reflexivity]. cbn [rows].
  eapply update_rows_untouched; eassumption.
Qed.

End StatementFacts.

(* ===================================================================== *)
(** ** One turn of the loop, case by case *)
(* ===================================================================== *)

Section LoopFacts.

Variable E : env.

Lemma create_ok data tb r tb' :
  AttendanceRepository.create E data tb = (Ok r, tb') ->
  exists p, insert_attendance E p tb = Ok (r, tb')
    /\ p_status p = VStr "clocked_in"
    /\ p_device_id p = JS.or_else (get data "deviceId") VNull
    /\ p_client_timestamp p = JS.or_else (get data "clientTimestamp") VNull
    /\ p_clock_in_latitude p = JS.or_else (get data "clockInLatitude") VNull.
Proof.
  unfold AttendanceRepository.create. intros H.
  match type of H with
  | match insert_attendance E ?p tb with _ => _ end = _ =>
      exists p; destruct (insert_attendance E p tb) as [[r0 tb0]|e] eqn:Hi
  end.
  - injection H as <- <-. repeat split.
  - discriminate H.
Qed.

Lemma create_throw data tb e tb' :
  AttendanceRepository.create E data tb = (Throw e, tb') -> tb' = tb.
Proof.
  unfold AttendanceRepository.create. intros H.
  destruct (insert_attendance E _ tb) as [[r0 tb0]|e0]; congruence.
Qed.

Lemma update_ok target updates tb r tb' :
  AttendanceRepository.update E target updates tb = (Ok r, tb') ->
  Forall2 untouched (rows tb) (rows tb') /\ next_id tb' = next_id tb.
Proof.
  unfold AttendanceRepository.update. intros H.
  destruct (Nat.eqb _ 0); [discriminate H|].
  destruct (update_attendance E _ target tb) as [[rs tb0]|e] eqn:Hu;
    [|discriminate H].
  injection H as _ <-. eapply update_attendance_ok; eassumption.
Qed.

Lemma update_throw target updates tb e tb' :
  AttendanceRepository.update E target updates tb = (Throw e, tb') -> tb' = tb.
Proof.
  unfold AttendanceRepository.update. intros H.
  destruct (Nat.eqb _ 0); [congruence|].
  destruct (update_attendance E _ target tb) as [[rs tb0]|e0]; congruence.
Qed.

Lemma process_record_turn userId st record :
  turn E userId st record (process_record E userId st record).
Proof.
  unfold process_record, try_record, AttendanceService.bind, validate.
  destruct st as [tb sy co er].
  destruct record as [o| |v]; [|apply (turn_error E _ (mkState tb sy co er))|].
  all: destruct (isValid _); simpl_state;
    [|apply (turn_error E _ (mkState tb sy co er))].
  all: unfold select_existing, query; simpl_state.
  all: destruct (select_by_device_and_client_timestamp E _ _ tb)
         as [[|existing rest]|e] eqn:Hs;
    simpl_state; [| |apply (turn_error E _ (mkState tb sy co er))].
  all: try (destruct (AttendanceRepository.create E _ tb) as [[r|e] tb'] eqn:Hc;
    simpl_state;
    [ apply (turn_created E _ (mkState tb sy co er)); assumption
    | apply create_throw in Hc; subst tb';
      apply (turn_error E _ (mkState tb sy co er)) ]).
  all: destruct (hasConflict _ _); simpl_state;
    [|apply (turn_kept E _ (mkState tb sy co er))].
  all: destruct (String.eqb (winner _) "manual"); simpl_state;
    [apply (turn_conflict E _ (mkState tb sy co er))|].
  all: destruct (String.eqb (winner _) "client"); simpl_state;
    [|apply (turn_kept E _ (mkState tb sy co er))].
  all: destruct (AttendanceRepository.update E _ _ tb) as [[r|e] tb'] eqn:Hu;
    simpl_state;
    [ apply update_ok in Hu; destruct Hu;
      apply (turn_updated E _ (mkState tb sy co er)); assumption
    | apply update_throw in Hu; subst tb';
      apply (turn_error E _ (mkState tb sy co er)) ].
Qed.

(** *** The dedup key across one turn *)

Lemma fit_varchar_short n s x :
  (String.length s <= n)%nat -> fit_varchar n (Some s) = Ok x -> x = Some s.
Proof.
  unfold fit_varchar. intros Hn.
  destruct (Nat.leb_spec (String.length s) n); [congruence|lia].
Qed.






Lemma created_rows data tb r tb' :
  AttendanceRepository.create E data tb = (Ok r, tb') ->
  rows tb' = (rows tb ++ [r])%list.
Proof.
  intros Hc. destruct (create_ok _ _ _ _ Hc) as (p & Hi & _).
  destruct (insert_attendance_ok E _ _ _ _ Hi) as (-> & _). reflexivity.
Qed.


Lemma turn_rows_grow userId st record st' :
  turn E userId st record st' ->
  length (rows (db st')) <> length (rows (db st)) ->
  select_by_device_and_client_timestamp E
    (get (fields record) "deviceId")
    (get (fields record) "clientTimestamp") (db st) = Ok [].
Proof.
  intros Ht Hlen.
  destruct Ht as [msgs|existing res|entry|entry tb' Hu _|r tb' Hs Hc];
    cbn [db] in Hlen; try congruence.
  apply Forall2_length in Hu. congruence.
Qed.


End LoopFacts.


(* ===================================================================== *)
(** ** The resolver *)
(* ===================================================================== *)

Lemma resolveConflict_falls_back {C S : Type} (c : C) (s : S) strategy :
  strategy <> VStr "client_wins" ->
  strategy <> VStr "manual" ->
  winner (resolveConflict c s strategy) = "server"
  /\ resolved (resolveConflict c s strategy) = Some (inr s).
Proof.
  intros Hc Hm. unfold resolveConflict.
  destruct strategy as [| |b|q|x|t|j]; cbn; try (split; reflexivity).
  destruct (String.eqb x "client_wins") eqn:H1.
  { apply String.eqb_eq in H1. subst x. contradiction. }
  destruct (String.eqb x "server_wins"); [split; reflexivity|].
  destruct (String.eqb x "manual") eqn:H3; [|split; reflexivity].
  apply String.eqb_eq in H3. subst x. contradiction.
Qed.

Lemma declared_strategy_falls_back v :
  v <> VStr "client_wins" ->
  v <> VStr "manual" ->
  JS.or_else v (VStr "server_wins") <> VStr "client_wins"
  /\ JS.or_else v (VStr "server_wins") <> VStr "manual".
Proof.
  intros Hc Hm. unfold JS.or_else. destruct (truthy v); split;
    solve [assumption | discriminate].
Qed.

(* ===================================================================== *)
(** ** The turns of the loop, branch by branch *)
(* ===================================================================== *)

Section Branches.

Variable E : env.
Variable userId : string.

(** Reduction of a turn once the validator accepted the record and the
    lookup returned. *)
Ltac enter_turn Hv Hs :=
  unfold process_record, try_record, AttendanceService.bind, validate;
  cbn [fields]; rewrite Hv; simpl_state;
  unfold select_existing, query; cbn [fields]; simpl_state;
  rewrite Hs; simpl_state.

Lemma turn_of_manual_conflict st o existing :
  detected_conflict E o (db st) existing ->
  get o "conflictResolutionStrategy" = VStr "manual" ->
  process_record E userId st (IObj o)
  = mkState (db st) (synced_records st)
      (push (conflict_records st)
         (mkConflict (IObj o) existing
            (resolveConflict (IObj o) existing (VStr "manual"))))
      (error_records st).
Proof.
  intros (Hv & (rest & Hs) & Hc) Hm. destruct st as [tb sy co er].
  cbn [db] in Hs. enter_turn Hv Hs.
  rewrite Hc, Hm. reflexivity.
Qed.

Lemma turn_of_server_win st o existing :
  detected_conflict E o (db st) existing ->
  get o "conflictResolutionStrategy" <> VStr "client_wins" ->
  get o "conflictResolutionStrategy" <> VStr "manual" ->
  process_record E userId st (IObj o)
  = mkState (db st)
      (push (synced_records st)
         (mkSynced (id existing) "updated" (Some "server")))
      (conflict_records st) (error_records st).
Proof.
  intros (Hv & (rest & Hs) & Hc) H1 H2. destruct st as [tb sy co er].
  cbn [db] in Hs. enter_turn Hv Hs.
  rewrite Hc.
  destruct (declared_strategy_falls_back _ H1 H2) as [H1' H2'].
  destruct (resolveConflict_falls_back (IObj o) existing _ H1' H2') as [Hw _].
  rewrite Hw. reflexivity.
Qed.

Lemma turn_of_client_win st o existing :
  detected_conflict E o (db st) existing ->
  get o "conflictResolutionStrategy" = VStr "client_wins" ->
  process_record E userId st (IObj o)
  = match AttendanceRepository.update E (id existing)
            (<["sync_version" := next_version existing]> o) (db st) with
    | (Ok _, tb') =>
        mkState tb'
          (push (synced_records st)
             (mkSynced (id existing) "updated" (Some "client")))
          (conflict_records st) (error_records st)
    | (Throw e, _) =>
        mkState (db st) (synced_records st) (conflict_records st)
          (push (error_records st) (mkErrorEntry (IObj o) [Raised e]))
    end.
Proof.
  intros (Hv & (rest & Hs) & Hc) Hm. destruct st as [tb sy co er].
  cbn [db] in Hs. enter_turn Hv Hs.
  rewrite Hc, Hm. cbn [JS.or_else truthy String.eqb Ascii.eqb Bool.eqb negb].
  cbn [resolveConflict strict_eq String.eqb Ascii.eqb Bool.eqb winner].
  simpl_state.
  destruct (AttendanceRepository.update E _ _ tb) as [[r|e] tb'] eqn:Hu;
    simpl_state; [reflexivity|].
  apply update_throw in Hu. now subst tb'.
Qed.

Lemma turn_of_no_match st o :
  isValid (validateSyncMetadata o) = true ->
  select_by_device_and_client_timestamp E
    (get o "deviceId") (get o "clientTimestamp") (db st) = Ok [] ->
  process_record E userId st (IObj o)
  = match AttendanceRepository.create E (attendanceData userId (IObj o))
            (db st) with
    | (Ok r, tb') =>
        mkState tb'
          (push (synced_records st) (mkSynced (id r) "created" None))
          (conflict_records st) (error_records st)
    | (Throw e, _) =>
        mkState (db st) (synced_records st) (conflict_records st)
          (push (error_records st) (mkErrorEntry (IObj o) [Raised e]))
    end.
Proof.
  intros Hv Hs. destruct st as [tb sy co er].
  cbn [db] in Hs. enter_turn Hv Hs.
  destruct (AttendanceRepository.create E _ tb) as [[r|e] tb'] eqn:Hc;
    simpl_state; [reflexivity|].
  apply create_throw in Hc. now subst tb'.
Qed.

End Branches.

(* ===================================================================== *)
(** ** The properties of the sync path *)
(* ===================================================================== *)

Import Examples.

Lemma sync_loop_app E userId l1 l2 st :
  sync_loop E userId (l1 ++ l2) st
  = sync_loop E userId l2 (sync_loop E userId l1 st).
Proof. unfold sync_loop. apply fold_left_app. Qed.

Lemma turn_one_entry E userId st record st' :
  turn E userId st record st' -> one_entry record st st'.
Proof.
  intros Ht.
  destruct Ht as [msgs|existing res|entry|entry tb' _ _|r tb' _ _];
    unfold one_entry; cbn.
  - right. right. exists (mkErrorEntry record msgs). repeat split.
  - right. left. exists (mkConflict record existing res). repeat split.
  - left. exists entry. repeat split.
  - left. exists entry. repeat split.
  - left. exists (mkSynced (id r) "created" None). repeat split.
Qed.

Lemma one_entry_count record st st' :
  one_entry record st st' ->
  (length (synced_records st') + length (conflict_records st')
   + length (error_records st')
   = S (length (synced_records st) + length (conflict_records st)
        + length (error_records st)))%nat.
Proof.
  unfold one_entry, push.
  intros [(e & -> & -> & ->)|[(e & _ & -> & -> & ->)|(e & _ & -> & -> & ->)]];
    rewrite length_app; cbn; lia.
Qed.

Lemma one_entry_grows record st st' :
  one_entry record st st' ->
  synced_records st `prefix_of` synced_records st'
  /\ conflict_records st `prefix_of` conflict_records st'
  /\ error_records st `prefix_of` error_records st'.
Proof.
  unfold one_entry, push.
  intros [(e & -> & -> & ->)|[(e & _ & -> & -> & ->)|(e & _ & -> & -> & ->)]];
    repeat split; try reflexivity; apply prefix_app_r; reflexivity.
Qed.

Lemma sync_loop_count E userId records : forall st,
  let st' := sync_loop E userId records st in
  (length (synced_records st') + length (conflict_records st')
   + length (error_records st')
   = length records + (length (synced_records st)
        + length (conflict_records st) + length (error_records st)))%nat.
Proof.
  induction records as [|record records IH]; intros st; cbn; [reflexivity|].
  specialize (IH (process_record E userId st record)). cbn in IH.
  unfold sync_loop in IH. rewrite IH.
  pose proof (one_entry_count _ _ _
    (turn_one_entry _ _ _ _ _ (process_record_turn E userId st record))).
  lia.
Qed.

Lemma sync_loop_grows E userId records : forall st,
  let st' := sync_loop E userId records st in
  synced_records st `prefix_of` synced_records st'
  /\ conflict_records st `prefix_of` conflict_records st'
  /\ error_records st `prefix_of` error_records st'.
Proof.
  induction records as [|record records IH]; intros st; cbn;
    [repeat split; reflexivity|].
  destruct (IH (process_record E userId st record)) as (H1 & H2 & H3).
  destruct (one_entry_grows _ _ _
    (turn_one_entry _ _ _ _ _ (process_record_turn E userId st record)))
    as (G1 & G2 & G3).
  repeat split; etransitivity; eassumption.
Qed.

Lemma turn_keeps_clock_in E userId st record st' :
  turn E userId st record st' ->
  map clock_in (rows (db st)) `prefix_of` map clock_in (rows (db st')).
Proof.
  intros Ht.
  destruct Ht as [msgs|existing res|entry|entry tb' Hu _|r tb' _ Hc];
    cbn [db]; try reflexivity.
  - assert (Heq : map clock_in (rows tb') = map clock_in (rows (db st))).
    { induction Hu as [|r r' rs rs' Hr _ IH]; [reflexivity|].
      cbn [map]. rewrite IH. f_equal. apply Hr. }
    rewrite Heq. reflexivity.
  - rewrite (created_rows _ _ _ _ _ Hc), map_app. apply prefix_app_r.
    reflexivity.
Qed.

(** C1 (the code departs from the claim).  The stored record has version 1
    and clock-in [T]; the incoming record has version 2, clock-in
    [T + 120 s] and the strategy client_wins, every field under both
    spellings.  The turn answers "updated" with the resolution "client"
    and the stored version becomes 2, but the stored clock-in is still
    [T]: the UPDATE assigns [sync_version] and nothing else of the
    incoming record.  No turn of the loop, on any record, changes the
    clock-in of a stored row. *)
Theorem C1_client_wins_keeps_stored_clock_in :
  (let '(response, tb) :=
     syncOfflineRecords E0 user1 [IObj (incoming "client_wins")] one_row in
   data_synced response = [mkSynced 0 "updated" (Some "client")]
   /\ map clock_in (rows tb) = [T]
   /\ map sync_version (rows tb) = [Some 2])
  /\ (forall E userId st record,
        map clock_in (rows (db st))
        `prefix_of`
        map clock_in (rows (db (process_record E userId st record)))).
Proof.
  split.
  - vm_compute. repeat split.
  - intros E userId st record. eapply turn_keeps_clock_in, process_record_turn.
Qed.

Lemma validate_without_device_id o :
  exists msgs,
    validateSyncMetadata (delete "device_id" o)
    = mkValidation false ("Missing device_id" :: msgs).
Proof.
  unfold validateSyncMetadata, get, push.
  rewrite lookup_delete_eq. cbn [default truthy negb app].
  repeat match goal with
  | |- context [if ?b then _ else _] => destruct b
  end; cbn; eexists; reflexivity.
Qed.

Lemma turn_of_invalid E userId st o :
  isValid (validateSyncMetadata o) = false ->
  process_record E userId st (IObj o)
  = mkState (db st) (synced_records st) (conflict_records st)
      (push (error_records st)
         (mkErrorEntry (IObj o) (map Text (errors (validateSyncMetadata o))))).
Proof.
  intros Hv. destruct st as [tb sy co er].
  unfold process_record, try_record, AttendanceService.bind, validate.
  cbn [fields]. rewrite Hv. reflexivity.
Qed.

(** C2 (the code departs from the claim).  A record in the wire format
    of the sync request, submitted to an empty table, is not created: the
    validator reads [device_id] and [client_timestamp], which the wire
    format spells [deviceId] and [clientTimestamp], so the first
    submission already yields synced 0 and errors 1, and nothing is
    stored.  So it is for every record without a [device_id] property,
    whatever else it carries and whatever is stored. *)
Theorem C2_wire_format_record_is_refused :
  (let '(response, tb) := syncOfflineRecords E0 user1 [IObj (wire T)] empty in
   synced response = 0%nat
   /\ errors_count response = 1%nat
   /\ data_errors response
      = [mkErrorEntry (IObj (wire T))
           [Text "Missing device_id"; Text "Missing client_timestamp"]]
   /\ tb = empty)
  /\ (forall E userId st o,
        exists msgs,
          process_record E userId st (IObj (delete "device_id" o))
          = mkState (db st) (synced_records st) (conflict_records st)
              (push (error_records st)
                 (mkErrorEntry (IObj (delete "device_id" o))
                    (Text "Missing device_id" :: msgs)))).
Proof.
  split.
  - vm_compute. repeat split.
  - intros E userId st o.
    destruct (validate_without_device_id o) as [msgs Hv].
    exists (map Text msgs).
    rewrite turn_of_invalid; rewrite Hv; reflexivity.
Qed.

(** C3, refuted as stated: same version, same clock-in, a clock-out on
    the client side only, and [hasConflict] answers false. *)
Lemma C3_counterexample :
  strict_eq (get client_with_clock_out "sync_version")
            (get server_without_clock_out "sync_version") = true
  /\ getTime (get client_with_clock_out "clock_in") = Some T
  /\ getTime (get server_without_clock_out "clock_in") = Some T
  /\ Z.abs (T - T) <= 60000
  /\ truthy (get client_with_clock_out "clock_out") = true
  /\ truthy (get server_without_clock_out "clock_out") = false
  /\ hasConflict client_with_clock_out (Some server_without_clock_out) <> true.
Proof. vm_compute. repeat split; discriminate. Qed.

(** C3, amended.  When the two records have the same sync version and
    clock-ins at most 60 seconds apart, and exactly one of them has a
    clock-out, [hasConflict] returns false: the clock-outs are compared
    only when both records have one. *)
Theorem C3_one_sided_clock_out_is_no_conflict
    (c s : gmap string value) (a b : Z) :
  strict_eq (get c "sync_version") (get s "sync_version") = true ->
  getTime (get c "clock_in") = Some a ->
  getTime (get s "clock_in") = Some b ->
  Z.abs (a - b) <= 60000 ->
  truthy (get c "clock_out") <> truthy (get s "clock_out") ->
  hasConflict c (Some s) = false.
Proof.
  intros Hv Ha Hb Hab Hout. unfold hasConflict.
  rewrite Hv, Ha, Hb. cbn [negb abs_diff_gt].
  destruct (Z.ltb_spec 60000 (Z.abs (a - b))) as [Hlt|_]; [lia|].
  destruct (truthy (get c "clock_out")), (truthy (get s "clock_out"));
    try reflexivity; congruence.
Qed.

Lemma C3_witness :
  hasConflict client_with_clock_out (Some server_without_clock_out) = false.
Proof.
  apply (C3_one_sided_clock_out_is_no_conflict
           client_with_clock_out server_without_clock_out T T).
  - reflexivity.
  - reflexivity.
  - reflexivity.
  - vm_compute. discriminate.
  - vm_compute. discriminate.
Defined.

(** C4 (the code departs from the claim).  Three records, the first and
    the third in the wire format of the sync request, the second without
    [deviceId]: all three land in the errors bucket with the same two
    messages, and nothing is stored. *)
Theorem C4_wire_format_batch_is_refused :
  let batch :=
    [IObj (wire T);
     IObj (delete "deviceId" (wire (T + 1000)));
     IObj (wire (T + 2000))] in
  let '(response, tb) := syncOfflineRecords E0 user1 batch empty in
  synced response = 0%nat
  /\ errors_count response = 3%nat
  /\ map error_messages (data_errors response)
     = [[Text "Missing device_id"; Text "Missing client_timestamp"];
        [Text "Missing device_id"; Text "Missing client_timestamp"];
        [Text "Missing device_id"; Text "Missing client_timestamp"]]
  /\ rows tb = [].
Proof. vm_compute. repeat split. Qed.




(** C6.  A record that passes the validator and whose lookup returns no
    row is inserted by [create]; the row stored has no clock-out, no
    clock-out coordinates and the status 'clocked_in', whatever
    [clockOut], [clockOutLatitude] and [clockOutLongitude] the record
    carries, and the turn answers "created". *)
Theorem C6_created_row_has_no_clock_out
    (E : env) (userId : string) (st : state) (o : gmap string value)
    (r : row) (tb' : table) :
  isValid (validateSyncMetadata o) = true ->
  select_by_device_and_client_timestamp E
    (get o "deviceId") (get o "clientTimestamp") (db st) = Ok [] ->
  AttendanceRepository.create E (attendanceData userId (IObj o)) (db st)
    = (Ok r, tb') ->
  process_record E userId st (IObj o)
    = mkState tb' (push (synced_records st) (mkSynced (id r) "created" None))
        (conflict_records st) (error_records st)
  /\ rows tb' = (rows (db st) ++ [r])%list
  /\ clock_out r = None
  /\ clock_out_latitude r = None
  /\ clock_out_longitude r = None
  /\ status r = Some "clocked_in".
Proof.
  intros Hv Hs Hc. split.
  { rewrite (turn_of_no_match E userId st o Hv Hs), Hc. reflexivity. }
  destruct (create_ok _ _ _ _ _ Hc) as (p & Hi & Hst & _).
  destruct (insert_attendance_ok _ _ _ _ _ Hi)
    as (-> & _ & Hout & Hlat & Hlon & Hfit & _).
  rewrite Hst in Hfit. cbn in Hfit. injection Hfit as Hfit.
  repeat split; auto.
Qed.

Lemma C6_witness :
  AttendanceRepository.create E0
    (attendanceData user1 (IObj clocked_out)) one_row = (Ok created, two_rows)
  /\ get clocked_out "clockOut" = VDate (T + 28800000)
  /\ rows two_rows = [stored; created]
  /\ clock_out created = None
  /\ clock_out_latitude created = None
  /\ clock_out_longitude created = None
  /\ status created = Some "clocked_in".
Proof.
  assert (Hc : AttendanceRepository.create E0
                 (attendanceData user1 (IObj clocked_out)) one_row
               = (Ok created, two_rows)).
  { vm_compute. reflexivity. }
  destruct (C6_created_row_has_no_clock_out E0 user1
              (mkState one_row [] [] []) clocked_out created two_rows)
    as (_ & Hrows & Hout & Hlat & Hlon & Hst).
  - vm_compute. reflexivity.
  - vm_compute. reflexivity.
  - exact Hc.
  - repeat split; assumption.
Defined.

(** C7.  For every strategy other than the strings client_wins and
    manual, [resolveConflict] answers as it does for server_wins: the
    winner is the server and the resolved record is the server record.
    In the loop a detected conflict under such a strategy leaves the
    table as it was and is acknowledged as "updated" with the resolution
    "server". *)
Theorem C7_unrecognized_strategy_is_server_wins
    (E : env) (userId : string) (st : state) (o : gmap string value)
    (existing : row) (strategy : value) :
  strategy <> VStr "client_wins" ->
  strategy <> VStr "manual" ->
  (forall (C S : Type) (c : C) (s : S),
     winner (resolveConflict c s strategy)
       = winner (resolveConflict c s (VStr "server_wins"))
     /\ resolved (resolveConflict c s strategy)
       = resolved (resolveConflict c s (VStr "server_wins"))
     /\ resolved (resolveConflict c s strategy) = Some (inr s))
  /\ (detected_conflict E o (db st) existing ->
      get o "conflictResolutionStrategy" = strategy ->
      process_record E userId st (IObj o)
      = mkState (db st)
          (push (synced_records st)
             (mkSynced (id existing) "updated" (Some "server")))
          (conflict_records st) (error_records st)).
Proof.
  intros Hc Hm. split.
  - intros C S c s.
    destruct (resolveConflict_falls_back c s strategy Hc Hm) as [Hw Hr].
    rewrite Hw, Hr. repeat split.
  - intros Hd Hs. subst strategy. apply turn_of_server_win; assumption.
Qed.

Lemma C7_witness :
  winner (resolveConflict (incoming "bogus") stored (VStr "bogus")) = "server"
  /\ resolved (resolveConflict (incoming "bogus") stored (VStr "bogus"))
     = Some (inr stored)
  /\ process_record E0 user1 (mkState one_row [] [] [])
       (IObj (incoming "bogus"))
     = mkState one_row [mkSynced 0 "updated" (Some "server")] [] [].
Proof.
  destruct (C7_unrecognized_strategy_is_server_wins E0 user1
              (mkState one_row [] [] []) (incoming "bogus") stored
              (VStr "bogus")) as [Hr Hp].
  - discriminate.
  - discriminate.
  - destruct (Hr _ _ (incoming "bogus") stored) as (Hw & _ & Hres).
    split; [exact Hw|]. split; [exact Hres|].
    apply Hp.
    + split; [|split; [exists []|]]; vm_compute; reflexivity.
    + reflexivity.
Defined.

(** C8.  For every list of records the three counts of the response are
    the lengths of its three arrays and add up to the length of the
    list.  Every record of the list, wherever it stands, adds exactly one
    entry to exactly one array (with the record in it for conflicts and
    errors), whether its processing threw or not; the entries stay in the
    response; and the loop goes on with the records after it. *)
Theorem C8_every_record_lands_in_one_bucket
    (E : env) (userId : string) (tb : table) :
  (forall records,
     let response := fst (syncOfflineRecords E userId records tb) in
     synced response = length (data_synced response)
     /\ conflicts response = length (data_conflicts response)
     /\ errors_count response = length (data_errors response)
     /\ (synced response + conflicts response + errors_count response
         = length records)%nat)
  /\ (forall done record rest,
        let response :=
          fst (syncOfflineRecords E userId (done ++ record :: rest) tb) in
        let st := sync_loop E userId done (mkState tb [] [] []) in
        let st' := process_record E userId st record in
        one_entry record st st'
        /\ sync_loop E userId (done ++ record :: rest) (mkState tb [] [] [])
           = sync_loop E userId rest st'
        /\ synced_records st' `prefix_of` data_synced response
        /\ conflict_records st' `prefix_of` data_conflicts response
        /\ error_records st' `prefix_of` data_errors response).
Proof.
  split.
  - intros records. unfold syncOfflineRecords, createSyncResponse. cbn.
    repeat split.
    pose proof (sync_loop_count E userId records (mkState tb [] [] [])) as H.
    cbn in H. lia.
  - intros done record rest. cbn zeta.
    assert (Hloop :
      sync_loop E userId (done ++ record :: rest) (mkState tb [] [] [])
      = sync_loop E userId rest
          (process_record E userId
             (sync_loop E userId done (mkState tb [] [] [])) record)).
    { rewrite sync_loop_app. reflexivity. }
    split; [apply turn_one_entry with E userId, process_record_turn|].
    split; [exact Hloop|].
    unfold syncOfflineRecords, createSyncResponse. cbn.
    rewrite Hloop. apply sync_loop_grows.
Qed.

(** C9.  A detected conflict whose declared strategy is manual writes
    nothing: the table is as it was, nothing is pushed on synced or
    errors, and one entry is pushed on conflicts, which holds the
    incoming record and the existing row. *)
Theorem C9_manual_conflict_is_reported_not_written
    (E : env) (userId : string) (st : state) (o : gmap string value)
    (existing : row) :
  detected_conflict E o (db st) existing ->
  get o "conflictResolutionStrategy" = VStr "manual" ->
  let st' := process_record E userId st (IObj o) in
  db st' = db st
  /\ synced_records st' = synced_records st
  /\ error_records st' = error_records st
  /\ exists entry,
       conflict_records st' = push (conflict_records st) entry
       /\ conflict_record entry = IObj o
       /\ existingRecord entry = existing.
Proof.
  intros Hd Hm. cbn zeta.
  rewrite (turn_of_manual_conflict E userId st o existing Hd Hm). cbn.
  repeat split. eexists. repeat split.
Qed.

Lemma C9_witness :
  let '(response, tb) :=
    syncOfflineRecords E0 user1 [IObj (incoming "manual")] one_row in
  tb = one_row
  /\ synced response = 0%nat
  /\ errors_count response = 0%nat
  /\ exists entry,
       data_conflicts response = [entry]
       /\ conflict_record entry = IObj (incoming "manual")
       /\ existingRecord entry = stored.
Proof.
  destruct (C9_manual_conflict_is_reported_not_written E0 user1
              (mkState one_row [] [] []) (incoming "manual") stored)
    as (Hdb & Hsy & Her & entry & Hco & Hrec & Hex).
  - split; [|split; [exists []|]]; vm_compute; reflexivity.
  - reflexivity.
  - unfold syncOfflineRecords, sync_loop. cbn [fold_left fst snd].
    unfold createSyncResponse. cbn [synced errors_count data_conflicts].
    rewrite Hdb, Hsy, Her, Hco. cbn.
    repeat split. exists entry. repeat split; assumption.
Defined.

Lemma round8_zero q : Qnum q = 0 -> round8 q = 0.
Proof. unfold round8. intros ->. reflexivity. Qed.

Lemma validateSyncMetadata_ignores o k v :
  k <> "device_id" -> k <> "client_timestamp" -> k <> "sync_version" ->
  k <> "conflict_resolution_strategy" ->
  validateSyncMetadata (<[k := v]> o) = validateSyncMetadata o.
Proof.
  intros H1 H2 H3 H4. unfold validateSyncMetadata, get.
  rewrite !lookup_insert_ne by assumption. reflexivity.
Qed.

(** C10, refuted as stated: a record with [clockInLatitude] 95 passes
    the validator without an error, and when a stored row has its
    [(deviceId, clientTimestamp)] it lands in the synced bucket. *)
Lemma C10_counterexample :
  get latitude_95 "clockInLatitude" = VNum 95
  /\ validateSyncMetadata latitude_95 = mkValidation true []
  /\ (let '(response, tb) :=
        syncOfflineRecords E0 user1 [IObj latitude_95] one_row in
      errors_count response = 0%nat
      /\ data_errors response = []
      /\ data_synced response = [mkSynced 0 "no_change" None]).
Proof. vm_compute. repeat split. Qed.

(** C10, amended.  The validator does not look at [clockInLatitude].  A
    record that passes it, whose lookup returns no row and whose
    [clockInLatitude] is a number that, at the eight decimals of the
    column, lies outside [-90, 90], is refused by the table when [create]
    inserts it: nothing is stored and the record lands in the errors
    bucket with the message of the database error. *)
Theorem C10_latitude_out_of_range_is_refused_on_insert
    (E : env) (userId : string) (st : state) (o : gmap string value) (q : Q) :
  isValid (validateSyncMetadata o) = true ->
  select_by_device_and_client_timestamp E
    (get o "deviceId") (get o "clientTimestamp") (db st) = Ok [] ->
  get o "clockInLatitude" = VNum q ->
  round8 q < -90 * 10 ^ 8 \/ 90 * 10 ^ 8 < round8 q ->
  (forall v,
     validateSyncMetadata (<["clockInLatitude" := v]> o)
     = validateSyncMetadata o)
  /\ exists e,
       process_record E userId st (IObj o)
       = mkState (db st) (synced_records st) (conflict_records st)
           (push (error_records st) (mkErrorEntry (IObj o) [Raised (Pg e)])).
Proof.
  intros Hv Hs Hlat Hq. split.
  { intros v. apply validateSyncMetadata_ignores; discriminate. }
  rewrite (turn_of_no_match E userId st o Hv Hs).
  unfold AttendanceRepository.create.
  match goal with
  | |- context [insert_attendance E ?p (db st)] =>
      destruct (insert_refuses_latitude E p (db st) q) as [e He]
  end.
  - cbn [p_clock_in_latitude].
    change (get (attendanceData userId (IObj o)) "clockInLatitude")
      with (get o "clockInLatitude").
    rewrite Hlat. unfold JS.or_else. cbn [truthy].
    destruct (Z.eqb_spec (Qnum q) 0) as [H0|_]; [|reflexivity].
    apply round8_zero in H0. lia.
  - assumption.
  - rewrite He. exists e. reflexivity.
Qed.

Lemma C10_witness :
  process_record E0 user1 (mkState empty [] [] []) (IObj latitude_95)
  = mkState empty [] []
      [mkErrorEntry (IObj latitude_95)
         [Raised (Pg (CheckViolation "valid_clock_in_coords"))]].
Proof.
  destruct (C10_latitude_out_of_range_is_refused_on_insert E0 user1
              (mkState empty [] [] []) latitude_95 95) as (_ & e & He).
  - vm_compute. reflexivity.
  - vm_compute. reflexivity.
  - reflexivity.
  - right. vm_compute. reflexivity.
  - rewrite He. vm_compute in He. injection He as <-. reflexivity.
Defined.

(* ===================================================================== *)
(** * The rest of the attendance module *)
(* ===================================================================== *)

Import Merging Statements Database AttendanceQueries ClockService
  Vocabulary ClockExamples.

(* ===================================================================== *)
(** ** The resolver and [create] *)
(* ===================================================================== *)

(* ---------- hasConflict ---------- *)

Lemma row_object_sync_version r :
  get (row_object r) "sync_version"
  = match sync_version r with Some n => VNum (inject_Z n) | None => VNull end.
Proof. reflexivity. Qed.

(** X1.  A record that has no [sync_version] property (the wire format
    spells it [syncVersion]) is in conflict with every stored row: the
    row reads a number or [null] there, and [undefined] is strictly
    different from both. *)
Theorem X1_hasConflict_without_sync_version (o : gmap string value) (r : row) :
  get o "sync_version" = VUndef ->
  hasConflict o (Some (row_object r)) = true.
Proof.
  intros H. unfold hasConflict. rewrite H, row_object_sync_version.
  destruct (sync_version r); reflexivity.
Qed.

(** X2.  When the two versions are strictly equal and both clock-ins
    can be read as instants, the conflict test is a test of distance.
    Unless both records have a truthy [clock_out], they are in conflict
    exactly when the clock-ins are more than 60000 ms apart; when both
    clock-outs are timestamps, exactly when the clock-ins or the
    clock-outs are more than 60000 ms apart.  A distance of exactly
    60000 ms is no conflict. *)
Theorem X2_hasConflict_tolerance (c s : gmap string value) (a b : Z) :
  strict_eq (get c "sync_version") (get s "sync_version") = true ->
  getTime (get c "clock_in") = Some a ->
  getTime (get s "clock_in") = Some b ->
  (truthy (get c "clock_out") && truthy (get s "clock_out") = false ->
   (hasConflict c (Some s) = true <-> 60000 < Z.abs (a - b)))
  /\ (forall x y,
        get c "clock_out" = VDate x -> get s "clock_out" = VDate y ->
        (hasConflict c (Some s) = true
         <-> 60000 < Z.abs (a - b) \/ 60000 < Z.abs (x - y))).
Proof.
  intros Hv Ha Hb. unfold hasConflict. rewrite Hv, Ha, Hb.
  cbn [negb abs_diff_gt]. split.
  - intros ->. destruct (Z.ltb_spec 60000 (Z.abs (a - b))); split; intros; try lia; try discriminate; reflexivity.
  - intros x y -> ->. cbn [truthy andb getTime abs_diff_gt].
    destruct (Z.ltb_spec 60000 (Z.abs (a - b))), (Z.ltb_spec 60000 (Z.abs (x - y)));
      split; intros; try lia; try discriminate; try reflexivity.
Qed.

(* ---------- validateSyncMetadata ---------- *)

Lemma strict_eq_string v s : strict_eq v (VStr s) = true <-> v = VStr s.
Proof.
  destruct v; cbn; try (split; [discriminate|discriminate]).
  rewrite String.eqb_eq. split; congruence.
Qed.

Lemma includes_validStrategies v :
  includes validStrategies v = true
  <-> v = VStr "client_wins" \/ v = VStr "server_wins" \/ v = VStr "manual".
Proof.
  unfold includes, validStrategies. cbn [existsb].
  rewrite !orb_true_iff, !strict_eq_string. intuition discriminate.
Qed.

(** X3.  The validator accepts a record exactly when [device_id] and
    [client_timestamp] are truthy, [sync_version] is falsy or a number,
    and [conflict_resolution_strategy] is falsy or one of the three
    strategies.  It reads these four snake_case properties and no
    other. *)
Theorem X3_validateSyncMetadata_accepts (o : gmap string value) :
  isValid (validateSyncMetadata o) = true
  <-> truthy (get o "device_id") = true
      /\ truthy (get o "client_timestamp") = true
      /\ (truthy (get o "sync_version") = false
          \/ is_number (get o "sync_version") = true)
      /\ (truthy (get o "conflict_resolution_strategy") = false
          \/ get o "conflict_resolution_strategy" = VStr "client_wins"
          \/ get o "conflict_resolution_strategy" = VStr "server_wins"
          \/ get o "conflict_resolution_strategy" = VStr "manual").
Proof.
  rewrite <- includes_validStrategies.
  unfold validateSyncMetadata, push.
  destruct (truthy (get o "device_id")),
           (truthy (get o "client_timestamp")),
           (truthy (get o "sync_version")),
           (is_number (get o "sync_version")),
           (truthy (get o "conflict_resolution_strategy")),
           (includes validStrategies (get o "conflict_resolution_strategy"));
    cbn; intuition discriminate.
Qed.

(* ---------- create ---------- *)

Section CreateFacts.

Variable E : env.

(** Everything a successful INSERT went through. *)
Lemma insert_attendance_inv p tb r tb' :
  insert_attendance E p tb = Ok (r, tb') ->
  in_uuid E (p_user_id p) = Ok (Some (user_id r))
  /\ in_uuid E (p_facility_id p) = Ok (Some (facility_id r))
  /\ in_timestamptz (p_clock_in p) = Ok (Some (clock_in r))
  /\ (exists lat, in_numeric (p_clock_in_latitude p) = Ok lat
        /\ fit_decimal_10_8 lat = Ok (clock_in_latitude r))
  /\ (exists lon, in_numeric (p_clock_in_longitude p) = Ok lon
        /\ fit_decimal_11_8 lon = Ok (clock_in_longitude r))
  /\ in_boolean (p_synced p) = Ok (Schema.synced r)
  /\ in_integer (p_sync_version p) = Ok (sync_version r)
  /\ in_jsonb (p_metadata p) = Ok (metadata r)
  /\ fit_varchar 50 (param_text E (p_conflict_resolution_strategy p))
     = Ok (conflict_resolution_strategy r)
  /\ notes r = param_text E (p_notes p)
  /\ server_timestamp r = Some (now E)
  /\ created_at r = Some (now E)
  /\ updated_at r = Some (now E)
  /\ In (user_id r) (users E)
  /\ In (facility_id r) (facilities E)
  /\ next_id tb' = N.succ (next_id tb).
Proof.
  unfold insert_attendance. intros H.
  bind_inv H.
  injection H as <- <-. cbn.
  repeat match goal with u : unit |- _ => destruct u end.
  repeat match goal with
  | H : not_null _ ?o = Ok _ |- _ =>
      destruct o; cbn in H; [injection H as ->|discriminate H]
  end.
  repeat match goal with
  | H : references _ ?l ?u = Ok _ |- _ =>
      unfold references, in_list in H;
      destruct (existsb (String.eqb u) l) eqn:?; [clear H|discriminate H]
  end.
  repeat match goal with
  | H : existsb (String.eqb ?u) ?l = true |- _ =>
      apply existsb_exists in H; destruct H as (? & ? & ->%String.eqb_eq)
  end.
  repeat apply conj; try assumption; try reflexivity;
    try (eexists; split; [reflexivity|eassumption]).
Qed.

End CreateFacts.

Lemma Qred_num_nonzero q : Qnum q <> 0 -> Qnum (Qred q) <> 0.
Proof.
  intros Hq H0. pose proof (Qred_correct q) as Hr. unfold Qeq in Hr.
  rewrite H0 in Hr. cbn in Hr. symmetry in Hr.
  apply Z.mul_eq_0 in Hr as [Hr|Hr]; [contradiction|discriminate Hr].
Qed.

Lemma truthy_or_else v w : truthy w = true -> truthy (JS.or_else v w) = true.
Proof. unfold JS.or_else. destruct (truthy v) eqn:Hv; auto. Qed.

Lemma in_boolean_truthy v b :
  truthy v = true -> in_boolean v = Ok b -> b = Some true.
Proof.
  destruct v as [| |x|q|x|t|j]; cbn; try discriminate.
  - intros -> H. congruence.
  - intros Hq. destruct (Qeq_bool q 1); [congruence|].
    destruct (Qeq_bool q 0) eqn:H0; [|discriminate].
    apply Qeq_bool_iff in H0. unfold Qeq in H0. cbn in H0.
    rewrite Z.mul_1_r in H0. rewrite H0 in Hq. discriminate Hq.
Qed.

Lemma in_integer_truthy v n :
  truthy v = true -> in_integer v = Ok n -> exists z, n = Some z /\ z <> 0.
Proof.
  destruct v as [| |x|q|x|t|j]; unfold in_integer, truthy;
    try discriminate.
  intros Hq H.
  repeat match type of H with
  | (if ?b then _ else _) = _ => destruct b
  end; try discriminate H.
  injection H as <-. eexists. split; [reflexivity|].
  apply Qred_num_nonzero. intros H0. rewrite H0 in Hq. discriminate Hq.
Qed.

Lemma fit_varchar_none n s : fit_varchar n s = Ok None -> s = None.
Proof.
  unfold fit_varchar. destruct s as [s|]; [|reflexivity].
  destruct (String.length s <=? n)%nat; [discriminate|].
  destruct (all_blank _); discriminate.
Qed.

Lemma param_text_none E v : param_text E v = None -> truthy v = false.
Proof. destruct v; cbn; try discriminate; reflexivity. Qed.

(** X4.  When [synced] and [syncVersion] of the data are no text, the
    row [create] stores is marked synced, whatever [synced] the caller
    passed ([false || true] is [true]), has a version that is an integer
    other than 0 and a strategy among the three of the table, and takes
    the next identifier.  A text is left out: it passes [||] when it is
    not empty, and the database reads 'false' or '0' as a value of the
    column. *)
Theorem X4_create_row_is_synced_and_versioned
    (E : env) (data : gmap string value) (tb : table) (r : row) (tb' : table) :
  is_text (get data "synced") = false ->
  is_text (get data "syncVersion") = false ->
  AttendanceRepository.create E data tb = (Ok r, tb') ->
  Schema.synced r = Some true
  /\ (exists n, sync_version r = Some n /\ n <> 0)
  /\ (conflict_resolution_strategy r = Some "client_wins"
      \/ conflict_resolution_strategy r = Some "server_wins"
      \/ conflict_resolution_strategy r = Some "manual")
  /\ id r = next_id tb
  /\ next_id tb' = N.succ (next_id tb).
Proof.
  unfold AttendanceRepository.create. intros _ _ H.
  match type of H with
  | match insert_attendance E ?p tb with _ => _ end = _ =>
      destruct (insert_attendance E p tb) as [[r0 tb0]|e] eqn:Hi;
        [|discriminate H]
  end.
  injection H as -> ->.
  destruct (insert_attendance_inv _ _ _ _ _ Hi)
    as (_ & _ & _ & _ & _ & Hsy & Hver & _ & Hst & _ & _ & _ & _ & _ & _ & Hn).
  destruct (insert_attendance_ok _ _ _ _ _ Hi)
    as (_ & Hid & _ & _ & _ & _ & _ & _ & Hck & _).
  cbn in Hsy, Hver, Hst.
  split; [|split; [|split; [|split]]].
  - eapply in_boolean_truthy; [|exact Hsy]. now apply truthy_or_else.
  - eapply in_integer_truthy; [|exact Hver]. now apply truthy_or_else.
  - apply check_constraints_ok in Hck as (Hc & _).
    unfold check_strategy in Hc.
    destruct (conflict_resolution_strategy r) as [s|] eqn:Hs.
    + unfold in_list in Hc. cbn [existsb] in Hc.
      rewrite !orb_true_iff, !String.eqb_eq in Hc.
      destruct Hc as [->|[->|[->|Hc]]]; auto. discriminate Hc.
    + exfalso. apply fit_varchar_none in Hst.
      apply param_text_none in Hst.
      rewrite truthy_or_else in Hst by reflexivity. discriminate Hst.
  - exact Hid.
  - exact Hn.
Qed.

Lemma numeric_of_falsy v lat z :
  truthy v = false ->
  in_numeric (JS.or_else v VNull) = Ok lat ->
  fit_decimal_10_8 lat = Ok z \/ fit_decimal_11_8 lat = Ok z ->
  z = None.
Proof.
  unfold JS.or_else. intros ->. cbn. intros [= <-]. cbn.
  intros [H|H]; congruence.
Qed.

Lemma numeric_of_truthy v lat z :
  truthy v = true ->
  in_numeric (JS.or_else v VNull) = Ok lat ->
  fit_decimal_10_8 lat = Ok z \/ fit_decimal_11_8 lat = Ok z ->
  z <> None.
Proof.
  unfold JS.or_else. intros Hv. rewrite Hv.
  destruct v; cbn in *; try discriminate.
  intros [= <-]. cbn.
  intros [H|H]; (destruct (_ <? _); [|discriminate H]); congruence.
Qed.

(** X5.  [create] succeeds only when the clock-in latitude and longitude
    are both truthy or both falsy, and it stores NULL for a falsy one: a
    coordinate of exactly 0 is stored as NULL, and a position on the
    equator or on the prime meridian with the other coordinate given is
    refused by the table. *)
Theorem X5_create_coordinates_both_or_none
    (E : env) (data : gmap string value) (tb : table) (r : row) (tb' : table) :
  AttendanceRepository.create E data tb = (Ok r, tb') ->
  truthy (get data "clockInLatitude") = truthy (get data "clockInLongitude")
  /\ (clock_in_latitude r = None
      <-> truthy (get data "clockInLatitude") = false)
  /\ (clock_in_longitude r = None
      <-> truthy (get data "clockInLongitude") = false).
Proof.
  unfold AttendanceRepository.create. intros H.
  match type of H with
  | match insert_attendance E ?p tb with _ => _ end = _ =>
      destruct (insert_attendance E p tb) as [[r0 tb0]|e] eqn:Hi;
        [|discriminate H]
  end.
  injection H as -> ->.
  destruct (insert_attendance_inv _ _ _ _ _ Hi)
    as (_ & _ & _ & (lat & H1 & H2) & (lon & H3 & H4) & _).
  destruct (insert_attendance_ok _ _ _ _ _ Hi)
    as (_ & _ & _ & _ & _ & _ & _ & _ & Hck & _).
  apply check_constraints_ok in Hck as (_ & _ & H5 & _).
  cbn in H1, H3.
  unfold valid_clock_in_coords, valid_coords in H5.
  destruct (truthy (get data "clockInLatitude")) eqn:Ha,
           (truthy (get data "clockInLongitude")) eqn:Ho.
  - pose proof (numeric_of_truthy _ _ _ Ha H1 (or_introl H2)).
    pose proof (numeric_of_truthy _ _ _ Ho H3 (or_intror H4)).
    repeat split; intros; congruence.
  - exfalso. pose proof (numeric_of_truthy _ _ _ Ha H1 (or_introl H2)).
    pose proof (numeric_of_falsy _ _ _ Ho H3 (or_intror H4)) as Hn. rewrite Hn in H5.
    destruct (clock_in_latitude r); [discriminate H5|congruence].
  - exfalso. pose proof (numeric_of_falsy _ _ _ Ha H1 (or_introl H2)) as Hn.
    pose proof (numeric_of_truthy _ _ _ Ho H3 (or_intror H4)). rewrite Hn in H5.
    destruct (clock_in_longitude r); [discriminate H5|congruence].
  - pose proof (numeric_of_falsy _ _ _ Ha H1 (or_introl H2)).
    pose proof (numeric_of_falsy _ _ _ Ho H3 (or_intror H4)).
    repeat split; intros; congruence.
Qed.

Lemma X1_witness :
  get (wire T) "sync_version" = VUndef
  /\ hasConflict (wire T) (Some (row_object stored)) = true.
Proof.
  split; [reflexivity|].
  apply (X1_hasConflict_without_sync_version (wire T) stored). reflexivity.
Defined.

Lemma X2_witness :
  hasConflict client_with_clock_out (Some server_without_clock_out) = true
  <-> 60000 < Z.abs (T - T).
Proof.
  apply (X2_hasConflict_tolerance client_with_clock_out
           server_without_clock_out T T);
    reflexivity.
Defined.

Lemma X4_witness :
  Schema.synced created = Some true
  /\ (exists n, sync_version created = Some n /\ n <> 0)
  /\ id created = next_id one_row.
Proof.
  destruct (X4_create_row_is_synced_and_versioned E0
              (attendanceData user1 (IObj clocked_out)) one_row created
              two_rows) as (Hs & Hv & _ & Hid & _).
  - reflexivity.
  - reflexivity.
  - vm_compute. reflexivity.
  - repeat split; assumption.
Defined.

Lemma X5_witness :
  clock_in_latitude created = None
  <-> truthy (get (attendanceData user1 (IObj clocked_out)) "clockInLatitude")
      = false.
Proof.
  destruct (X5_create_coordinates_both_or_none E0
              (attendanceData user1 (IObj clocked_out)) one_row created
              two_rows) as (_ & Hlat & _).
  - vm_compute. reflexivity.
  - exact Hlat.
Defined.

(* ===================================================================== *)
(** ** [update] *)
(* ===================================================================== *)

Section ColumnFacts.

Variable E : env.
Variable A : Type.
Variable column : string.
Variable project : row -> A.
Variable read : value -> A -> Prop.

Hypothesis assigns :
  forall v f r,
    bind_assignment E column v = Ok f -> read v (project (f r)).
Hypothesis keeps :
  forall c v f r,
    c <> column ->
    bind_assignment E c v = Ok f -> project (f r) = project r.

Lemma assign_cons f fs r : assign (f :: fs) r = assign fs (f r).
Proof. reflexivity. Qed.

Lemma assign_keeps sets : forall fs r,
  ~ In column (map fst sets) ->
  bind_assignments E sets = Ok fs ->
  project (assign fs r) = project r.
Proof.
  induction sets as [|[c v] sets IH]; intros fs r Hni Hfs.
  - injection Hfs as <-. reflexivity.
  - cbn [bind_assignments] in Hfs. bind_inv Hfs. injection Hfs as <-.
    rewrite assign_cons. cbn in Hni.
    rewrite (IH x0 (x r)) by first [tauto|assumption].
    eapply keeps; [|eassumption]. intros ->. tauto.
Qed.

Lemma assign_assigns sets : forall fs r v,
  NoDup (map fst sets) -> In (column, v) sets ->
  bind_assignments E sets = Ok fs ->
  read v (project (assign fs r)).
Proof.
  induction sets as [|[c w] sets IH]; intros fs r v Hnd Hin Hfs.
  - destruct Hin.
  - cbn [bind_assignments] in Hfs. bind_inv Hfs. injection Hfs as <-.
    rewrite assign_cons. cbn in Hnd.
    apply NoDup_cons in Hnd as [Hni Hnd].
    destruct Hin as [[= -> ->]|Hin].
    + rewrite (assign_keeps sets _ _
                 (proj1 (not_iff_compat (list_elem_of_In _ _)) Hni) Hx0).
      eapply assigns; eassumption.
    + eapply IH; eauto.
Qed.

End ColumnFacts.

Ltac column_keeps :=
  let Hf := fresh "Hf" in
  intros ? ? ? ? ? Hf; unfold bind_assignment in Hf;
  repeat match type of Hf with
  | (if String.eqb ?c ?k then _ else _) = _ =>
      destruct (String.eqb_spec c k)
  end;
  try discriminate Hf; try congruence;
  bind_inv Hf; injection Hf as <-; reflexivity.

Lemma fit_decimal_rounded q z :
  fit_decimal_10_8 q = Ok z \/ fit_decimal_11_8 q = Ok z ->
  z = option_map round8 q.
Proof.
  unfold fit_decimal_10_8, fit_decimal_11_8.
  destruct q as [q|]; [|now intros [[= <-]|[= <-]]].
  intros [H|H]; (destruct (Z.abs (round8 q) <? _);
    [now injection H as <-|discriminate H]).
Qed.

Ltac column_assigns :=
  let Hf := fresh "Hf" in
  intros ? ? ? Hf; unfold bind_assignment in Hf;
  cbn [String.eqb Ascii.eqb Bool.eqb] in Hf;
  bind_inv Hf; injection Hf as <-;
  cbn; unfold rounded;
  eauto using fit_decimal_rounded.

Section UpdateFacts.

Variable E : env.

Lemma sets_of_keys u :
  map fst (sets_of u)
  = List.filter
      (fun key => negb (AttendanceRepository.is_undefined (get u key)))
      AttendanceRepository.allowedFields.
Proof.
  unfold sets_of. rewrite map_map. cbn. apply map_id.
Qed.

Lemma sets_of_NoDup u : NoDup (map fst (sets_of u)).
Proof.
  rewrite sets_of_keys.
  apply NoDup_ListNoDup, List.NoDup_filter, NoDup_ListNoDup.
  apply (bool_decide_unpack _). vm_compute. exact I.
Qed.

Lemma sets_of_assigned {A : Type} column (project : row -> A) read fs r u :
  In column AttendanceRepository.allowedFields ->
  (forall v f r,
     bind_assignment E column v = Ok f -> read v (project (f r))) ->
  (forall c v f r,
     c <> column ->
     bind_assignment E c v = Ok f -> project (f r) = project r) ->
  bind_assignments E (sets_of u) = Ok fs ->
  assigned (get u column) (project r) (project (assign fs r)) read.
Proof.
  intros Hal Hassigns Hkeeps Hfs. unfold assigned.
  destruct (AttendanceRepository.is_undefined (get u column)) eqn:Hu.
  - eapply assign_keeps; try eassumption.
    rewrite sets_of_keys, filter_In, Hu. cbn. intros [_ H]. discriminate H.
  - eapply assign_assigns; try eassumption; [apply sets_of_NoDup|].
    unfold sets_of. apply in_map_iff. exists column. split; [reflexivity|].
    apply filter_In. rewrite Hu. auto.
Qed.

Lemma update_row_written u fs r r' :
  bind_assignments E (sets_of u) = Ok fs ->
  update_row E fs r = Ok r' ->
  written E u r r'.
Proof.
  intros Hfs Hr.
  pose proof (update_row_untouched E _ _ _ _ Hfs Hr) as Hun.
  unfold update_row in Hr. bind_inv Hr. injection Hr as <-.
  repeat match goal with x : unit |- _ => destruct x end.
  unfold written. split; [exact Hun|]. split; [reflexivity|].
  cbn [update_updated_at_column clock_out clock_out_latitude
       clock_out_longitude notes status Schema.synced sync_version metadata].
  repeat apply conj;
    try (eapply (sets_of_assigned _ _ _ _ _ _);
         [cbn; tauto|column_assigns|column_keeps|eassumption]).
  assumption.
Qed.

End UpdateFacts.

Section UpdateTheorems.

Variable E : env.

Lemma update_rows_effect u fs target : forall rs rs',
  bind_assignments E (sets_of u) = Ok fs ->
  update_rows E fs target rs = Ok rs' ->
  Forall2 (update_effect E target u) rs rs'.
Proof.
  induction rs as [|r rs IH]; intros rs' Hfs H.
  - injection H as <-. constructor.
  - cbn [update_rows] in H. bind_inv H. injection H as <-.
    constructor; [|eauto].
    unfold update_effect. destruct (N.eqb (id r) target).
    + eapply update_row_written; eassumption.
    + now injection Hx as <-.
Qed.

Lemma update_ok_effect
    (target : N) (u : gmap string value) (tb : table)
    (res : option row) (tb' : table) :
  AttendanceRepository.update E target u tb = (Ok res, tb') ->
  next_id tb' = next_id tb
  /\ Forall2 (update_effect E target u) (rows tb) (rows tb')
  /\ res = head (List.filter (fun r => N.eqb (id r) target) (rows tb')).
Proof.
  unfold AttendanceRepository.update. intros H.
  destruct (Nat.eqb _ 0); [discriminate H|].
  fold (sets_of u) in H.
  destruct (update_attendance E (sets_of u) target tb)
    as [[rs tb0]|e] eqn:Hu; [|discriminate H].
  injection H as <- <-.
  unfold update_attendance in Hu. bind_inv Hu. injection Hu as <- <-.
  cbn [rows next_id]. repeat split.
  eapply update_rows_effect; eassumption.
Qed.

(** X6.  What a successful [update] did to the table: the rows with
    another identifier are as they were; in a row with the identifier,
    each of the eight allowed columns holds what was read from the key of
    that name when the key is not [undefined] and its old value
    otherwise, [updated_at] is the server clock, the other columns are as
    they were and the CHECK constraints hold.  No row is added or
    removed, and the row returned is the first one with the
    identifier. *)
Theorem X6_update_writes_the_allowed_keys
    (target : N) (u : gmap string value) (tb : table)
    (res : option row) (tb' : table) :
  AttendanceRepository.update E target u tb = (Ok res, tb') ->
  next_id tb' = next_id tb
  /\ Forall2 (update_effect E target u) (rows tb) (rows tb')
  /\ res = head (List.filter (fun r => N.eqb (id r) target) (rows tb')).
Proof. apply update_ok_effect. Qed.

(** X7.  A key outside the allow-list changes nothing of what [update]
    does or returns: [clockIn], [clock_in], [clockOut], [deviceId] and
    every other camelCase key of a record are ignored. *)
Theorem X7_update_ignores_other_keys
    (target : N) (u : gmap string value) (tb : table) (k : string) (v : value) :
  ~ In k AttendanceRepository.allowedFields ->
  AttendanceRepository.update E target (<[k := v]> u) tb
  = AttendanceRepository.update E target u tb.
Proof.
  intros Hk.
  assert (Hget : forall key, In key AttendanceRepository.allowedFields ->
            get (<[k := v]> u) key = get u key).
  { intros key Hin. unfold get. rewrite lookup_insert_ne; [reflexivity|].
    intros ->. contradiction. }
  unfold AttendanceRepository.update.
  assert (Hf : List.filter
            (fun key => negb (AttendanceRepository.is_undefined
                                (get (<[k := v]> u) key)))
            AttendanceRepository.allowedFields
          = List.filter
            (fun key => negb (AttendanceRepository.is_undefined (get u key)))
            AttendanceRepository.allowedFields).
  { apply filter_ext_in. intros key Hin. now rewrite Hget. }
  rewrite Hf.
  assert (Hm : map (fun key => (key, get (<[k := v]> u) key))
            (List.filter
               (fun key => negb (AttendanceRepository.is_undefined (get u key)))
               AttendanceRepository.allowedFields)
          = map (fun key => (key, get u key))
            (List.filter
               (fun key => negb (AttendanceRepository.is_undefined (get u key)))
               AttendanceRepository.allowedFields)).
  { apply map_ext_in. intros key Hin. apply filter_In in Hin as [Hin _].
    now rewrite Hget. }
  rewrite Hm. reflexivity.
Qed.

(** X8.  [update] throws 'No valid fields to update', and leaves the
    table alone, exactly when every allowed key of the object is
    [undefined]. *)
Theorem X8_update_without_valid_fields
    (target : N) (u : gmap string value) (tb : table) :
  AttendanceRepository.update E target u tb
    = (Throw (JsError "No valid fields to update"), tb)
  <-> forall key, In key AttendanceRepository.allowedFields ->
        get u key = VUndef.
Proof.
  unfold AttendanceRepository.update.
  set (fields := List.filter _ _).
  split.
  - intros H key Hin.
    destruct fields as [|k ks] eqn:Hf.
    + destruct (get u key) eqn:Hg; try reflexivity; exfalso;
        assert (Hin' : In key fields)
          by (apply filter_In; rewrite Hg; auto);
        rewrite Hf in Hin'; destruct Hin'.
    + cbn [length Nat.eqb] in H.
      match type of H with
      | match ?m with _ => _ end = _ => destruct m as [[rs tb0]|e]
      end; discriminate H.
  - intros Hall.
    assert (Hf : fields = []).
    { unfold fields. 
      induction AttendanceRepository.allowedFields as [|k ks IH];
        [reflexivity|].
      cbn [List.filter]. rewrite (Hall k) by (left; reflexivity). cbn.
      apply IH. intros key Hin. apply Hall. now right. }
    rewrite Hf. reflexivity.
Qed.

End UpdateTheorems.

Lemma X6_witness :
  exists res tb',
    AttendanceRepository.update E0 0
      (<["sync_version" := VNum 2]> (incoming "client_wins")) one_row
    = (Ok res, tb')
    /\ next_id tb' = next_id one_row
    /\ Forall2 (update_effect E0 0
                  (<["sync_version" := VNum 2]> (incoming "client_wins")))
         (rows one_row) (rows tb').
Proof.
  destruct (AttendanceRepository.update E0 0
              (<["sync_version" := VNum 2]> (incoming "client_wins")) one_row)
    as [[res|e] tb'] eqn:H; [|vm_compute in H; discriminate H].
  exists res, tb'. split; [reflexivity|].
  destruct (X6_update_writes_the_allowed_keys E0 0 _ one_row res tb' H)
    as (Hn & Hf & _).
  split; assumption.
Defined.

Lemma X7_witness :
  AttendanceRepository.update E0 0
    (<["clockIn" := VDate (T + 120000)]> (incoming "client_wins")) one_row
  = AttendanceRepository.update E0 0 (incoming "client_wins") one_row.
Proof.
  apply (X7_update_ignores_other_keys E0 0 (incoming "client_wins") one_row
           "clockIn" (VDate (T + 120000))).
  vm_compute. intuition discriminate.
Defined.

(* ===================================================================== *)
(** ** The loop of [syncOfflineRecords] *)
(* ===================================================================== *)

Section SyncFacts.

Variable E : env.
Variable userId : string.

(** The case analysis of one turn, by the branch it takes. *)
Ltac turn_cases tb :=
  unfold process_record, try_record, AttendanceService.bind, validate;
  match goal with
  | |- context [match ?record with IObj _ => _ | INull => _ | IScalar _ => _ end] =>
      destruct record as [o| |v]
  end;
  cbn [fields]; simpl_state;
  try (destruct (isValid _); simpl_state;
       [unfold select_existing, query; cbn [fields]; simpl_state;
        destruct (select_by_device_and_client_timestamp E _ _ tb)
          as [[|existing rest]|e] eqn:Hs; simpl_state;
        [destruct (AttendanceRepository.create E _ tb) as [[r|e] tb'] eqn:Hc;
         simpl_state
        |destruct (hasConflict _ _); simpl_state;
         [destruct (String.eqb (winner _) "manual"); simpl_state;
          [|destruct (String.eqb (winner _) "client"); simpl_state;
            [destruct (AttendanceRepository.update E _ _ tb)
               as [[r|e] tb'] eqn:Hu; simpl_state|]]|]|]|]).

Lemma process_record_after sy0 co0 er0 st record :
  process_record E userId (after sy0 co0 er0 st) record
  = after sy0 co0 er0 (process_record E userId st record).
Proof.
  destruct st as [tb sy co er]. unfold after. cbn [db synced_records conflict_records error_records].
  turn_cases tb; unfold after, push; cbn [db synced_records conflict_records error_records];
    rewrite ?app_assoc; reflexivity.
Qed.

Lemma sync_loop_after sy0 co0 er0 records : forall st,
  sync_loop E userId records (after sy0 co0 er0 st)
  = after sy0 co0 er0 (sync_loop E userId records st).
Proof.
  induction records as [|record records IH]; intros st; [reflexivity|].
  cbn [sync_loop fold_left]. rewrite process_record_after. apply IH.
Qed.

Lemma sync_loop_split records st :
  sync_loop E userId records st
  = after (synced_records st) (conflict_records st) (error_records st)
      (sync_loop E userId records (mkState (db st) [] [] [])).
Proof.
  rewrite <- sync_loop_after. f_equal.
  unfold after. cbn. rewrite !app_nil_r. now destruct st.
Qed.

(** X9.  For one reading of the server clock, synchronising a list in
    one call or in two calls, the first on a prefix and the second on the
    rest, leaves the same table; the three arrays of the single call are
    the arrays of the two calls one after the other, and the counts
    add. *)
Theorem X9_sync_in_chunks (first second : list item) (tb : table) :
  let whole := syncOfflineRecords E userId (first ++ second) tb in
  let one := syncOfflineRecords E userId first tb in
  let two := syncOfflineRecords E userId second (snd one) in
  snd whole = snd two
  /\ data_synced (fst whole)
     = (data_synced (fst one) ++ data_synced (fst two))%list
  /\ data_conflicts (fst whole)
     = (data_conflicts (fst one) ++ data_conflicts (fst two))%list
  /\ data_errors (fst whole)
     = (data_errors (fst one) ++ data_errors (fst two))%list
  /\ synced (fst whole) = (synced (fst one) + synced (fst two))%nat
  /\ conflicts (fst whole) = (conflicts (fst one) + conflicts (fst two))%nat
  /\ errors_count (fst whole)
     = (errors_count (fst one) + errors_count (fst two))%nat.
Proof.
  cbn zeta. unfold syncOfflineRecords, createSyncResponse.
  cbn [fst snd data_synced data_conflicts data_errors synced conflicts
       errors_count].
  rewrite sync_loop_app.
  rewrite (sync_loop_split second (sync_loop E userId first _)).
  unfold after.
  cbn [db synced_records conflict_records error_records].
  rewrite !length_app. repeat split.
Qed.

Lemma created_entries_push l e :
  created_entries (push l e)
  = (created_entries l
     ++ (if String.eqb (action e) "created" then [e] else []))%list.
Proof. unfold created_entries, push. rewrite List.filter_app. reflexivity. Qed.

Lemma process_record_accounting st record :
  let st' := process_record E userId st record in
  (length (rows (db st')) + length (created_entries (synced_records st))
   = length (rows (db st)) + length (created_entries (synced_records st')))%nat.
Proof.
  destruct st as [tb sy co er]. cbn zeta.
  turn_cases tb;
    cbn [db synced_records conflict_records error_records];
    rewrite ?created_entries_push, ?length_app;
    cbn [action String.eqb Ascii.eqb Bool.eqb length];
    try lia.
  all: match goal with
  | Hc : AttendanceRepository.create _ _ _ = (Ok _, _) |- _ =>
      rewrite (created_rows _ _ _ _ _ Hc), length_app; cbn
  | Hc : AttendanceRepository.create _ _ _ = (Throw _, _) |- _ =>
      apply create_throw in Hc; subst
  | Hu : AttendanceRepository.update _ _ _ _ = (Ok _, _) |- _ =>
      apply update_ok in Hu as [Hu _]; apply Forall2_length in Hu
  | Hu : AttendanceRepository.update _ _ _ _ = (Throw _, _) |- _ =>
      apply update_throw in Hu; subst
  end; lia.
Qed.

Lemma turn_keeps_ids st record st' :
  turn E userId st record st' ->
  map id (rows (db st)) `prefix_of` map id (rows (db st')).
Proof.
  intros Ht.
  destruct Ht as [msgs|existing res|entry|entry tb' Hu _|r tb' _ Hc];
    cbn [db]; try reflexivity.
  - assert (Heq : map id (rows tb') = map id (rows (db st))).
    { induction Hu as [|r r' rs rs' Hr _ IH]; [reflexivity|].
      cbn [map]. rewrite IH. f_equal. apply Hr. }
    rewrite Heq. reflexivity.
  - rewrite (created_rows _ _ _ _ _ Hc), map_app. apply prefix_app_r.
    reflexivity.
Qed.

(** X10.  A call of [syncOfflineRecords] removes and reorders no row:
    the identifiers stored before are a prefix of the identifiers stored
    after, and the table grew by exactly the number of entries of
    [synced] whose action is "created". *)
Theorem X10_sync_never_deletes_and_counts_created
    (records : list item) (tb : table) :
  let result := syncOfflineRecords E userId records tb in
  map id (rows tb) `prefix_of` map id (rows (snd result))
  /\ length (rows (snd result))
     = (length (rows tb)
        + length (created_entries (data_synced (fst result))))%nat.
Proof.
  cbn zeta. unfold syncOfflineRecords, createSyncResponse.
  cbn [fst snd data_synced].
  assert (H : forall st,
    map id (rows (db st))
      `prefix_of` map id (rows (db (sync_loop E userId records st)))
    /\ (length (rows (db (sync_loop E userId records st)))
        + length (created_entries (synced_records st))
        = length (rows (db st))
          + length (created_entries
                      (synced_records (sync_loop E userId records st))))%nat).
  { induction records as [|record rest IH]; intros st.
    - split; [reflexivity|cbn; lia].
    - cbn [sync_loop fold_left].
      destruct (IH (process_record E userId st record)) as [H1 H2].
      pose proof (process_record_accounting st record) as H3. cbn zeta in H3.
      pose proof (turn_keeps_ids _ _ _ (process_record_turn E userId st record)).
      split; [etransitivity; eassumption|].
      unfold sync_loop in *. lia. }
  destruct (H (mkState tb [] [] [])) as [H1 H2]. cbn in H1, H2.
  split; [exact H1|]. unfold sync_loop in *. cbn. lia.
Qed.

Lemma created_key_of_truthy o st r tb' :
  AttendanceRepository.create E (attendanceData userId (IObj o)) (db st)
    = (Ok r, tb') ->
  truthy (get o "deviceId") = true ->
  device_id_fits E (IObj o) ->
  truthy (get o "clientTimestamp") = true ->
  exists d t,
    param_text E (get o "deviceId") = Some d
    /\ in_timestamptz (get o "clientTimestamp") = Ok (Some t)
    /\ device_id r = Some d /\ client_timestamp r = Some t.
Proof.
  intros Hc Hd Hfit Ht.
  destruct (create_ok _ _ _ _ _ Hc) as (p & Hi & _ & Hdev & Hcts & _).
  destruct (insert_attendance_ok E _ _ _ _ Hi)
    as (_ & _ & _ & _ & _ & _ & Hfd & Hft & _).
  rewrite Hdev in Hfd. rewrite Hcts in Hft.
  change (get (attendanceData userId (IObj o)) "deviceId")
    with (get o "deviceId") in Hfd.
  change (get (attendanceData userId (IObj o)) "clientTimestamp")
    with (get o "clientTimestamp") in Hft.
  unfold JS.or_else in Hfd, Hft. rewrite Hd in Hfd. rewrite Ht in Hft.
  destruct (param_text E (get o "deviceId")) as [d|] eqn:Hp.
  2:{ apply param_text_none in Hp. congruence. }
  apply fit_varchar_short in Hfd; [|exact (Hfit d Hp)].
  symmetry in Hfd.
  destruct (get o "clientTimestamp") as [| |x|q|x|t|j];
    try discriminate Ht; try discriminate Hft.
  injection Hft as Hft. exists d, t. auto.
Qed.

(** X11.  A record whose [deviceId] is truthy and fits the column (at
    most 255 characters) and whose [clientTimestamp] is a timestamp
    denoting an instant, and that was created by one turn of the loop, is
    found by the lookup of the next turn on the same record, which
    therefore stores no second row and reports no second "created". *)
Theorem X11_resubmission_adds_no_row
    (st : state) (o : gmap string value) (r : row) (tb' : table) (t0 : Z) :
  isValid (validateSyncMetadata o) = true ->
  select_by_device_and_client_timestamp E
    (get o "deviceId") (get o "clientTimestamp") (db st) = Ok [] ->
  AttendanceRepository.create E (attendanceData userId (IObj o)) (db st)
    = (Ok r, tb') ->
  truthy (get o "deviceId") = true ->
  device_id_fits E (IObj o) ->
  get o "clientTimestamp" = VDate t0 ->
  let st1 := process_record E userId st (IObj o) in
  let st2 := process_record E userId st1 (IObj o) in
  db st1 = tb'
  /\ select_by_device_and_client_timestamp E
       (get o "deviceId") (get o "clientTimestamp") (db st1) = Ok [r]
  /\ length (rows (db st2)) = length (rows (db st1))
  /\ created_entries (synced_records st2) = created_entries (synced_records st1).
Proof.
  intros Hv Hs Hc Hd Hfit Ht0. cbn zeta.
  assert (Ht : truthy (get o "clientTimestamp") = true)
    by (rewrite Ht0; reflexivity).
  destruct (created_key_of_truthy _ _ _ _ Hc Hd Hfit Ht)
    as (d & t & Hpd & Hpt & Hrd & Hrt).
  assert (H1 : db (process_record E userId st (IObj o)) = tb').
  { rewrite (turn_of_no_match E userId st o Hv Hs), Hc. reflexivity. }
  assert (H2 : select_by_device_and_client_timestamp E
                 (get o "deviceId") (get o "clientTimestamp") tb' = Ok [r]).
  { unfold select_by_device_and_client_timestamp in *.
    rewrite Hpt in *. cbn [mbind result_bind rbind] in *. rewrite Hpd in *.
    injection Hs as Hs.
    rewrite (created_rows _ _ _ _ _ Hc), List.filter_app, Hs. cbn.
    unfold key_matches. rewrite Hrd, Hrt, String.eqb_refl, Z.eqb_refl.
    reflexivity. }
  rewrite H1. split; [reflexivity|]. split; [exact H2|].
  set (st1 := process_record E userId st (IObj o)) in *.
  pose proof (process_record_accounting st1 (IObj o)) as Hacc.
  cbn zeta in Hacc.
  assert (Hlen : length (rows (db (process_record E userId st1 (IObj o))))
                 = length (rows (db st1))).
  { destruct (Nat.eq_dec
                (length (rows (db (process_record E userId st1 (IObj o)))))
                (length (rows (db st1)))) as [Heq|Hne]; [exact Heq|].
    exfalso.
    pose proof (turn_rows_grow E userId st1 (IObj o) _
                  (process_record_turn E userId st1 (IObj o)) Hne) as Hg.
    cbn [fields] in Hg. rewrite H1, H2 in Hg. discriminate Hg. }
  rewrite <- H1. split; [exact Hlen|].
  pose proof (turn_one_entry _ _ _ _ _ (process_record_turn E userId st1 (IObj o)))
    as Hone.
  destruct Hone as [(e & Hsy & _)|[(e & _ & Hsy & _)|(e & _ & Hsy & _)]];
    rewrite Hsy; [|reflexivity|reflexivity].
  rewrite Hsy, created_entries_push, length_app in Hacc.
  rewrite created_entries_push.
  destruct (String.eqb (action e) "created"); [cbn in Hacc; lia|].
  now rewrite app_nil_r.
Qed.

Lemma turn_of_failed_lookup st o e :
  isValid (validateSyncMetadata o) = true ->
  select_by_device_and_client_timestamp E
    (get o "deviceId") (get o "clientTimestamp") (db st) = Throw e ->
  process_record E userId st (IObj o)
  = mkState (db st) (synced_records st) (conflict_records st)
      (push (error_records st) (mkErrorEntry (IObj o) [Raised (Pg e)])).
Proof.
  intros Hv Hs. destruct st as [tb sy co er]. cbn [db] in Hs.
  unfold process_record, try_record, AttendanceService.bind, validate.
  cbn [fields]. rewrite Hv. simpl_state.
  unfold select_existing, query. cbn [fields]. simpl_state.
  rewrite Hs. reflexivity.
Qed.

(** X12.  A record that passes the validator (it has [device_id]) but
    has no [deviceId] is never matched with a stored row: the lookup
    compares the column with NULL, so the turn either raises an error or
    inserts a new row, whose [device_id] column is NULL. *)
Theorem X12_record_without_deviceId_never_matches
    (st : state) (o : gmap string value) :
  isValid (validateSyncMetadata o) = true ->
  get o "deviceId" = VUndef ->
  let st' := process_record E userId st (IObj o) in
  (exists e,
     st' = mkState (db st) (synced_records st) (conflict_records st)
             (push (error_records st) (mkErrorEntry (IObj o) [Raised e])))
  \/ (exists r,
        rows (db st') = (rows (db st) ++ [r])%list
        /\ device_id r = None
        /\ synced_records st'
           = push (synced_records st) (mkSynced (id r) "created" None)
        /\ conflict_records st' = conflict_records st
        /\ error_records st' = error_records st).
Proof.
  intros Hv Hd. cbn zeta.
  destruct (select_by_device_and_client_timestamp E
              (get o "deviceId") (get o "clientTimestamp") (db st))
    as [rs|e] eqn:Hs.
  - assert (rs = []) as ->.
    { unfold select_by_device_and_client_timestamp in Hs. rewrite Hd in Hs.
      destruct (in_timestamptz _) as [t|]; cbn in Hs; [|discriminate Hs].
      destruct t; congruence. }
    rewrite (turn_of_no_match E userId st o Hv Hs).
    destruct (AttendanceRepository.create E _ (db st)) as [[r|e] tb'] eqn:Hc.
    + right. exists r. cbn.
      rewrite (created_rows _ _ _ _ _ Hc). repeat split.
      destruct (create_ok _ _ _ _ _ Hc) as (p & Hi & _ & Hdev & _).
      destruct (insert_attendance_ok E _ _ _ _ Hi)
        as (_ & _ & _ & _ & _ & _ & Hfd & _).
      rewrite Hdev in Hfd.
      change (get (attendanceData userId (IObj o)) "deviceId")
        with (get o "deviceId") in Hfd.
      rewrite Hd in Hfd. cbn in Hfd. congruence.
    + left. eauto.
  - left. rewrite (turn_of_failed_lookup st o e Hv Hs). eauto.
Qed.

End SyncFacts.

Lemma X11_witness :
  let st1 := process_record E0 user1 (mkState one_row [] [] []) (IObj clocked_out) in
  let st2 := process_record E0 user1 st1 (IObj clocked_out) in
  db st1 = two_rows
  /\ length (rows (db st2)) = length (rows (db st1)).
Proof.
  destruct (X11_resubmission_adds_no_row E0 user1 (mkState one_row [] [] [])
              clocked_out created two_rows T)
    as (H1 & _ & H2 & _).
  - vm_compute. reflexivity.
  - vm_compute. reflexivity.
  - vm_compute. reflexivity.
  - reflexivity.
  - intros d Hd. vm_compute in Hd. injection Hd as <-.
    apply Nat.leb_le. reflexivity.
  - reflexivity.
  - split; assumption.
Defined.

Lemma X12_witness :
  exists r,
    rows (db (process_record E0 user1 (mkState one_row [] [] [])
                (IObj (delete "deviceId" clocked_out))))
    = [stored; r]
    /\ device_id r = None.
Proof.
  destruct (X12_record_without_deviceId_never_matches E0 user1
              (mkState one_row [] [] []) (delete "deviceId" clocked_out))
    as [(e & He)|(r & Hrows & Hdev & _)].
  - vm_compute. reflexivity.
  - reflexivity.
  - vm_compute in He. discriminate He.
  - exists r. split; [exact Hrows|exact Hdev].
Defined.

(* ===================================================================== *)
(** ** [mergeRecords] *)
(* ===================================================================== *)

Lemma Qle_bool_inject_Z a b : Qle_bool (inject_Z a) (inject_Z b) = (a <=? b).
Proof.
  unfold Qle_bool, inject_Z. cbn. now rewrite !Z.mul_1_r.
Qed.

(** X13.  When the versions [mergeRecords] reads from the two records
    (1 for a falsy one) are integers below 2^53 in absolute value, which
    a double holds together with their successors, it returns a record
    with the greater of the two versions plus one as [sync_version], with
    [merged] set and with the clock reading as [merge_timestamp].  From
    2^53 on the sum is rounded and the merged version need not exceed
    the two. *)
Theorem X13_merge_version_exceeds_both
    (plus : Q -> Q -> Q) (now : Z) (c s : gmap string value) (a b : Z) :
  exact_successor plus ->
  safe_version c a -> safe_version s b ->
  exists m q,
    mergeRecords plus now c s = Some m
    /\ get m "sync_version" = VNum q
    /\ (q == inject_Z (Z.max a b + 1))%Q
    /\ (inject_Z a < q)%Q /\ (inject_Z b < q)%Q
    /\ get m "merged" = VBool true
    /\ get m "merge_timestamp" = VDate now.
Proof.
  intros Hplus [Ha Hsa] [Hb Hsb].
  unfold mergeRecords. rewrite Ha, Hb. cbn [to_number max_plus_one].
  eexists _, _. split; [reflexivity|].
  unfold get. rewrite lookup_insert_eq.
  rewrite (lookup_insert_ne _ "merge_timestamp" "merged") by discriminate.
  rewrite lookup_insert_eq.
  rewrite (lookup_insert_ne _ "merge_timestamp" "sync_version") by discriminate.
  rewrite (lookup_insert_ne _ "merged" "sync_version") by discriminate.
  rewrite lookup_insert_eq.
  split; [reflexivity|].
  assert (Hq : (plus (if Qle_bool (inject_Z a) (inject_Z b)
                      then inject_Z b else inject_Z a) 1
                == inject_Z (Z.max a b + 1))%Q).
  { rewrite Qle_bool_inject_Z.
    destruct (Z.leb_spec a b).
    - rewrite Z.max_r by lia. now apply Hplus.
    - rewrite Z.max_l by lia. now apply Hplus. }
  split; [exact Hq|].
  repeat split; try (rewrite Hq; unfold Qlt; cbn; lia).
Qed.

(** X14.  Apart from the three keys [mergeRecords] sets itself, a key of
    the merged record holds the value of the client record when the
    client timestamp is strictly later than the server timestamp and the
    client record has the key, and the value of the server record when
    only that one has it; otherwise (the server is later, the two
    instants are equal, or one of them cannot be read) the server record
    comes first.  No key of either record is lost. *)
Theorem X14_merge_last_write_wins
    (plus : Q -> Q -> Q) (now : Z) (c s m : gmap string value) (k : string) :
  mergeRecords plus now c s = Some m ->
  ~ In k merge_keys ->
  m !! k =
    if later (getTime (JS.or_else (get c "client_timestamp")
                                  (get c "updated_at")))
             (getTime (JS.or_else (get s "server_timestamp")
                                  (get s "updated_at")))
    then match c !! k with Some v => Some v | None => s !! k end
    else match s !! k with Some v => Some v | None => c !! k end.
Proof.
  unfold mergeRecords, merge_keys.
  destruct (max_plus_one _ _) as [q|]; [|discriminate].
  intros [= <-] Hk. cbn in Hk.
  rewrite !lookup_insert_ne by (intros <-; tauto).
  destruct (later _ _); rewrite lookup_union;
    destruct (c !! k), (s !! k); reflexivity.
Qed.

Lemma X13_witness :
  exists m q,
    mergeRecords Qplus (now E0) merge_client merge_server = Some m
    /\ get m "sync_version" = VNum q
    /\ (q == 3)%Q.
Proof.
  destruct (X13_merge_version_exceeds_both Qplus (now E0)
              merge_client merge_server 2 1)
    as (m & q & Hm & Hq & Hv & _).
  - intros n _. unfold Qeq. cbn. lia.
  - split; reflexivity.
  - split; reflexivity.
  - exists m, q. repeat split; assumption.
Defined.

Lemma X14_witness :
  exists m,
    mergeRecords Qplus (now E0) merge_client merge_server = Some m
    /\ m !! "notes" = Some (VStr "late")
    /\ m !! "status" = Some (VStr "clocked_in").
Proof.
  destruct (mergeRecords Qplus (now E0) merge_client merge_server)
    as [m|] eqn:H; [|vm_compute in H; discriminate H].
  exists m. split; [reflexivity|]. split.
  - rewrite (X14_merge_last_write_wins Qplus (now E0) merge_client merge_server m
               "notes" H); [reflexivity|].
    vm_compute. intuition discriminate.
  - rewrite (X14_merge_last_write_wins Qplus (now E0) merge_client merge_server m
               "status" H); [reflexivity|].
    vm_compute. intuition discriminate.
Defined.

(* ===================================================================== *)
(** ** [bulkInsert] *)
(* ===================================================================== *)

Section BulkFacts.

Variable E : env.

Lemma check_constraints_ext r r' :
  conflict_resolution_strategy r = conflict_resolution_strategy r' ->
  status r = status r' ->
  clock_in_latitude r = clock_in_latitude r' ->
  clock_in_longitude r = clock_in_longitude r' ->
  clock_out_latitude r = clock_out_latitude r' ->
  clock_out_longitude r = clock_out_longitude r' ->
  clock_in r = clock_in r' ->
  clock_out r = clock_out r' ->
  check_constraints r = check_constraints r'.
Proof.
  intros H1 H2 H3 H4 H5 H6 H7 H8.
  unfold check_constraints, check_strategy, check_status,
    valid_clock_in_coords, valid_clock_out_coords, valid_clock_times.
  now rewrite H1, H2, H3, H4, H5, H6, H7, H8.
Qed.

(** The statement looks at the table for the next identifier only. *)
Lemma insert_attendance_all_any_table p tb1 tb2 :
  match insert_attendance_all E p tb1 with
  | Ok _ => exists r tb', insert_attendance_all E p tb2 = Ok (r, tb')
  | Throw e => insert_attendance_all E p tb2 = Throw e
  end.
Proof.
  unfold insert_attendance_all.
  repeat match goal with
  | |- context [mbind _ ?m] =>
      match m with
      | context [tb1] => fail 1
      | _ => destruct m; cbn [mbind result_bind rbind]; [|reflexivity]
      end
  end.
  match goal with
  | |- match mbind _ (check_constraints ?r1) with _ => _ end =>
      match goal with
      | |- context [mbind _ (check_constraints ?r2) = _] =>
          rewrite (check_constraints_ext r2 r1) by reflexivity;
          destruct (check_constraints r1)
      end
  end; cbn [mbind result_bind rbind]; [|reflexivity].
  repeat match goal with
  | |- context [references ?c ?l ?u] =>
      destruct (references c l u); cbn [mbind result_bind rbind];
        [|reflexivity]
  end.
  eauto.
Qed.

Lemma insert_attendance_all_inv p tb r tb' :
  insert_attendance_all E p tb = Ok (r, tb') ->
  tb' = mkTable (rows tb ++ [r]) (N.succ (next_id tb))
  /\ id r = next_id tb
  /\ in_timestamptz (q_clock_in p) = Ok (Some (clock_in r))
  /\ in_timestamptz (q_clock_out p) = Ok (clock_out r)
  /\ fit_varchar 50 (param_text E (q_status p)) = Ok (status r)
  /\ in_boolean (q_synced p) = Ok (Schema.synced r)
  /\ check_constraints r = Ok tt.
Proof.
  unfold insert_attendance_all. intros H.
  bind_inv H.
  injection H as <- <-. cbn.
  repeat match goal with u : unit |- _ => destruct u end.
  repeat apply conj; try assumption; try reflexivity.
  match goal with
  | H : not_null "clock_in" ?c = Ok _ |- _ =>
      destruct c; [injection H as <-; reflexivity|discriminate H]
  end.
Qed.

Lemma insert_each_app records : forall inserted tb res tb',
  insert_each E records inserted tb = Ok (res, tb') ->
  exists new,
    res = (inserted ++ new)%list
    /\ rows tb' = (rows tb ++ new)%list
    /\ next_id tb' = (next_id tb + N.of_nat (length new))%N
    /\ Forall2 stored_as records new.
Proof.
  induction records as [|record records IH]; intros inserted tb res tb' H.
  - injection H as <- <-. exists []. rewrite !app_nil_r.
    repeat split; [cbn; lia|constructor].
  - cbn [insert_each] in H.
    assert (Hstep : exists r tb1,
              insert_attendance_all E (insert_all_params_of (fields record)) tb
              = Ok (r, tb1)
              /\ insert_each E records (push inserted r) tb1 = Ok (res, tb')).
    { destruct record; try discriminate H;
        destruct (insert_attendance_all E _ tb) as [[r tb1]|e];
        try discriminate H; eauto. }
    clear H. destruct Hstep as (r & tb1 & Hins & Hrest).
    apply IH in Hrest as (new & -> & Hrows & Hnext & Hall).
    apply insert_attendance_all_inv in Hins
      as (-> & Hid & Hcin & Hcout & Hst & Hsy & Hck).
    exists (r :: new). unfold push. rewrite <- !app_assoc. cbn [app].
    cbn [rows next_id] in Hrows, Hnext.
    rewrite <- app_assoc in Hrows. cbn [app] in Hrows.
    repeat split; try assumption.
    + rewrite Hnext. cbn [length]. lia.
    + constructor; [|exact Hall].
      unfold stored_as. cbn [insert_all_params_of q_clock_in q_clock_out
        q_status q_synced] in Hcin, Hcout, Hst, Hsy.
      apply check_constraints_ok in Hck.
      repeat split.
      * destruct (get (fields record) "clockIn"); try discriminate Hcin.
        now injection Hcin as ->.
      * unfold JS.or_else in Hcout.
        destruct (truthy (get (fields record) "clockOut")) eqn:Htr.
        -- destruct (get (fields record) "clockOut"); try discriminate Hcout;
             try discriminate Htr.
           injection Hcout as Hcout. exists t. repeat split; auto.
           destruct Hck as (_ & _ & _ & _ & Hvt).
           unfold valid_clock_times in Hvt. rewrite <- Hcout in Hvt. lia.
        -- now injection Hcout as <-.
      * intros Hfalsy. unfold JS.or_else in Hst. rewrite Hfalsy in Hst.
        destruct (truthy (get (fields record) "clockOut"));
          cbn in Hst; now injection Hst as <-.
      * cbn in Hsy. now injection Hsy as <-.
Qed.

Lemma bulkInsert_fresh records tb :
  bulkInsert E records [] tb
  = (fst (in_transaction E records tb), snd (in_transaction E records tb),
     [true]).
Proof.
  unfold bulkInsert. cbn. now destruct (in_transaction E records tb).
Qed.

Lemma accepted_alone_transaction tb record :
  accepted_alone E tb record
  <-> exists r tb', in_transaction E [record] tb = (Ok [r], tb').
Proof.
  unfold accepted_alone. setoid_rewrite bulkInsert_fresh.
  destruct (in_transaction E [record] tb) as [res tb1]. cbn. split.
  - intros (r & tb' & c & [= -> -> _]). eauto.
  - intros (r & tb' & [= -> ->]). eauto.
Qed.

Lemma accepted_alone_any_table tb1 tb2 record :
  accepted_alone E tb1 record -> accepted_alone E tb2 record.
Proof.
  rewrite !accepted_alone_transaction.
  intros (r & tb' & Ha).
  unfold in_transaction in *. cbn [insert_each] in *.
  pose proof (insert_attendance_all_any_table
                (insert_all_params_of (fields record)) tb1 tb2) as Hany.
  destruct record as [o| |v]; try discriminate Ha;
    destruct (insert_attendance_all E _ tb1) as [[r0 tb0]|?];
    try discriminate Ha; destruct Hany as (r2 & tb2' & ->); eauto.
Qed.

Lemma insert_each_step record records inserted tb :
  insert_each E (record :: records) inserted tb
  = match in_transaction E [record] tb with
    | (Ok [r], tb1) => insert_each E records (push inserted r) tb1
    | (Ok _, _) => Throw (TypeErrorNull "userId")
    | (Throw e, _) => Throw e
    end.
Proof.
  unfold in_transaction. cbn [insert_each].
  destruct record;
    try destruct (insert_attendance_all E _ tb) as [[r tb1]|e]; reflexivity.
Qed.

Lemma insert_each_throw records : forall inserted tb e,
  insert_each E records inserted tb = Throw e ->
  Exists (fun record => ~ accepted_alone E tb record) records.
Proof.
  induction records as [|record records IH]; intros inserted tb e H.
  - discriminate H.
  - rewrite insert_each_step in H.
    destruct (in_transaction E [record] tb) as [[[|r [|r' rs]]|e1] tb1] eqn:Hb.
    + left. intros (r' & tb' & Ha)%accepted_alone_transaction. congruence.
    + right. apply IH in H. apply Exists_exists in H as (x & Hin & Hx).
      apply Exists_exists. exists x. split; [exact Hin|].
      intros Ha. apply Hx. revert Ha. apply accepted_alone_any_table.
    + left. intros (r0 & tb' & Ha)%accepted_alone_transaction. congruence.
    + left. intros (r0 & tb' & Ha)%accepted_alone_transaction. congruence.
Qed.

Lemma insert_each_ok_accepted records : forall inserted tb res tb',
  insert_each E records inserted tb = Ok (res, tb') ->
  Forall (accepted_alone E tb) records.
Proof.
  induction records as [|record records IH]; intros inserted tb res tb' H.
  - constructor.
  - rewrite insert_each_step in H.
    destruct (in_transaction E [record] tb) as [[[|r [|r' rs]]|e1] tb1] eqn:Hb;
      try discriminate H.
    constructor; [apply accepted_alone_transaction; exists r, tb1; exact Hb|].
    apply IH in H. rewrite Forall_forall in *.
    intros x Hin. eapply accepted_alone_any_table. apply H, Hin.
Qed.

Lemma query_passes_getClient c :
  query_passes (getClient c) = negb (released_before c).
Proof.
  unfold getClient, released_before. cbn [query_passes forallb negb andb].
  induction c as [|[] c IH]; cbn; auto.
Qed.

(** X15.  [bulkInsert] leaves the client it was given released, and on
    a client that was released before it throws 'Cannot execute query on
    released client' with the table as it was, whatever the records: the
    [query] that [getClient] put on the client then still throws.  On any
    other client it stores the whole list or nothing.  Either every
    record of the list would be stored when given alone on a new client,
    and then all of them are appended to the table, one row per record;
    or some record would be refused alone, and then the call throws and
    the table is as it was, whatever stood before that record in the
    list. *)
Theorem X15_bulkInsert_is_all_or_nothing
    (records : list item) (c : client) (tb : table) :
  released_before (snd (bulkInsert E records c tb)) = true
  /\ if released_before c
     then fst (bulkInsert E records c tb)
          = (Throw (JsError "Cannot execute query on released client"), tb)
     else
       (Forall (accepted_alone E tb) records
        /\ exists inserted tb',
             fst (bulkInsert E records c tb) = (Ok inserted, tb')
             /\ rows tb' = (rows tb ++ inserted)%list
             /\ length inserted = length records)
       \/ (Exists (fun record => ~ accepted_alone E tb record) records
           /\ exists e, fst (bulkInsert E records c tb) = (Throw e, tb)).
Proof.
  unfold bulkInsert. rewrite query_passes_getClient.
  destruct (released_before c); cbn [negb].
  - split; reflexivity.
  - unfold in_transaction.
    destruct (insert_each E records [] tb) as [[inserted tb']|e] eqn:H;
      (split; [reflexivity|]); cbn [fst].
    + left. split; [eapply insert_each_ok_accepted; eassumption|].
      apply insert_each_app in H as (new & -> & Hrows & _ & Hall).
      exists new, tb'. repeat split; [assumption|].
      symmetry. eapply Forall2_length; eassumption.
    + right. split; [eapply insert_each_throw; eassumption|eauto].
Qed.

(** X16.  Unlike [create], [bulkInsert] stores the clock-out of a
    record: the row holds the record's [clockOut], which is strictly
    later than its clock-in, or NULL when [clockOut] is falsy; a record
    without a status is stored as 'clocked_out' when it has a clock-out
    and as 'clocked_in' otherwise; and the row is marked synced. *)
Theorem X16_bulkInsert_stores_the_clock_out
    (records : list item) (c : client) (tb : table)
    (inserted : list row) (tb' : table) (c' : client) :
  bulkInsert E records c tb = (Ok inserted, tb', c') ->
  Forall2 stored_as records inserted.
Proof.
  unfold bulkInsert, in_transaction.
  destruct (query_passes (getClient c)); [|discriminate].
  destruct (insert_each E records [] tb) as [[res tb1]|e] eqn:H;
    [|discriminate].
  intros [= <- <- <-].
  apply insert_each_app in H as (new & -> & _ & _ & Hall). exact Hall.
Qed.

End BulkFacts.

Lemma X16_witness :
  exists r tb' c,
    bulkInsert E0 [IObj bulk_record] [] one_row = (Ok [r], tb', c)
    /\ clock_out r = Some (T + 28800000)
    /\ status r = Some "clocked_out".
Proof.
  destruct (bulkInsert E0 [IObj bulk_record] [] one_row)
    as [[[inserted|e] tb'] c] eqn:H; [|vm_compute in H; discriminate H].
  pose proof (X16_bulkInsert_stores_the_clock_out E0 [IObj bulk_record]
                [] one_row inserted tb' c H) as Hall.
  inversion Hall as [|record r records rs Hr Hrest]; subst.
  inversion Hrest; subst.
  exists r, tb', c. split; [reflexivity|].
  destruct Hr as (_ & Hco & Hst & _).
  change (truthy (get (fields (IObj bulk_record)) "clockOut")) with true
    in Hco, Hst.
  change (truthy (get (fields (IObj bulk_record)) "status")) with false in Hst.
  destruct Hco as (t & Ht & Hco & _).
  change (get (fields (IObj bulk_record)) "clockOut")
    with (VDate (T + 28800000)) in Ht.
  injection Ht as <-. split; [exact Hco|apply Hst; reflexivity].
Defined.

(* ===================================================================== *)
(** ** [findActiveAttendance] *)
(* ===================================================================== *)

(* ---------- ORDER BY ---------- *)

Lemma insert_desc_In r rs x :
  In x (insert_desc r rs) <-> x = r \/ In x rs.
Proof.
  induction rs as [|r' rs IH]; cbn.
  - split; [intros [<-|[]]; auto|intros [->|[]]; auto].
  - destruct (clock_in r' <=? clock_in r); cbn.
    + split; [intros [<-|H]; auto|intros [->|H]; auto].
    + rewrite IH. split; [intros [<-|[->|H]]; auto|intros [->|[<-|H]]; auto].
Qed.

Lemma order_by_In rs x : In x (order_by_clock_in_desc rs) <-> In x rs.
Proof.
  unfold order_by_clock_in_desc.
  induction rs as [|r rs IH]; cbn [fold_right In]; [tauto|].
  rewrite insert_desc_In, IH. split; [intros [->|]|intros [<-|]]; auto.
Qed.

Lemma insert_desc_length r rs : length (insert_desc r rs) = Datatypes.S (length rs).
Proof.
  induction rs as [|r' rs IH]; cbn; [reflexivity|].
  destruct (clock_in r' <=? clock_in r); cbn; [reflexivity|now rewrite IH].
Qed.

Lemma order_by_length rs : length (order_by_clock_in_desc rs) = length rs.
Proof.
  unfold order_by_clock_in_desc.
  induction rs as [|r rs IH]; cbn [fold_right]; [reflexivity|].
  now rewrite insert_desc_length, IH.
Qed.

Lemma insert_desc_descending r rs :
  descending_by clock_in rs -> descending_by clock_in (insert_desc r rs).
Proof.
  induction rs as [|r' rs IH]; cbn; [intros _; split; [intros x []|exact I]|].
  intros [Hle Hd].
  destruct (clock_in r' <=? clock_in r) eqn:Hc; cbn.
  - split; [|split; assumption].
    intros x [<-|Hx]; [lia|]. specialize (Hle x Hx). lia.
  - split; [|apply IH, Hd].
    intros x Hx. apply insert_desc_In in Hx as [->|Hx]; [lia|auto].
Qed.

Lemma order_by_descending rs :
  descending_by clock_in (order_by_clock_in_desc rs).
Proof.
  unfold order_by_clock_in_desc.
  induction rs as [|r rs IH]; cbn [fold_right]; [exact I|].
  now apply insert_desc_descending.
Qed.

Lemma head_latest rs r :
  head (firstn 1 (order_by_clock_in_desc rs)) = Some r ->
  In r rs /\ forall x, In x rs -> clock_in x <= clock_in r.
Proof.
  pose proof (order_by_descending rs) as Hd.
  pose proof (order_by_In rs) as Hin.
  destruct (order_by_clock_in_desc rs) as [|r0 rest]; [discriminate|].
  cbn. intros [= ->]. destruct Hd as [Hle _]. split.
  - apply Hin. now left.
  - intros x Hx. apply Hin in Hx as [->|Hx]; [lia|auto].
Qed.

Lemma head_none rs :
  head (firstn 1 (order_by_clock_in_desc rs)) = None -> rs = [].
Proof.
  pose proof (order_by_length rs) as Hl.
  destruct (order_by_clock_in_desc rs); [|discriminate].
  destruct rs; [reflexivity|discriminate Hl].
Qed.

Section ActiveFacts.

Variable E : env.
Variable D : directory.

Lemma findActiveAttendance_latest
    (userId : string) (tb : table) (res : option row) :
  findActiveAttendance E userId tb = Ok res ->
  exists u,
    in_uuid E (VStr userId) = Ok u
    /\ match res with
       | Some r =>
           In r (rows tb) /\ is_active u r = true
           /\ forall x, In x (rows tb) -> is_active u x = true ->
                        clock_in x <= clock_in r
       | None => forall x, In x (rows tb) -> is_active u x = false
       end.
Proof.
  unfold findActiveAttendance, select_active. intros H.
  bind_inv H. injection H as <-. bind_inv Hx. injection Hx as <-.
  exists x0. split; [reflexivity|].
  destruct (head _) as [r|] eqn:Hh.
  - apply head_latest in Hh as [Hin Hle].
    apply filter_In in Hin as [Hin Ha]. repeat split; try assumption.
    intros y Hy Hay. apply Hle. apply filter_In. auto.
  - apply head_none in Hh. intros y Hy.
    destruct (is_active x0 y) eqn:Ha; [|reflexivity].
    assert (Hin : In y (List.filter (is_active x0) (rows tb)))
      by (apply filter_In; auto).
    rewrite Hh in Hin. destruct Hin.
Qed.

(** X17.  [findActiveAttendance] returns [null] exactly when no row of
    the user has the status 'clocked_in' and no clock-out; otherwise it
    returns such a row of the table, with the latest clock-in among
    them. *)
Theorem X17_findActiveAttendance_finds_the_latest
    (userId : string) (tb : table) (res : option row) :
  findActiveAttendance E userId tb = Ok res ->
  exists u,
    in_uuid E (VStr userId) = Ok u
    /\ match res with
       | Some r =>
           In r (rows tb) /\ is_active u r = true
           /\ forall x, In x (rows tb) -> is_active u x = true ->
                        clock_in x <= clock_in r
       | None => forall x, In x (rows tb) -> is_active u x = false
       end.
Proof. apply findActiveAttendance_latest. Qed.

End ActiveFacts.

Lemma X17_witness :
  findActiveAttendance E0 user1 one_row = Ok (Some stored)
  /\ is_active (Some user1) stored = true.
Proof.
  assert (H : findActiveAttendance E0 user1 one_row = Ok (Some stored))
    by (vm_compute; reflexivity).
  split; [exact H|].
  destruct (X17_findActiveAttendance_finds_the_latest E0 user1 one_row
              (Some stored) H) as (u & Hu & _ & Ha & _).
  vm_compute in Hu. injection Hu as <-. exact Ha.
Defined.

(* ===================================================================== *)
(** ** [clockIn] and [clockOut] *)
(* ===================================================================== *)

Ltac task_steps :=
  unfold clockIn, clockOut, and_then, reading, writing, logging, throw,
    resolve.

Section ClockFacts.

Variable E : env.
Variable D : directory.

(* ---------- findById ---------- *)


Lemma findById_row i tb a :
  findById E D i tb = Some a ->
  exists r,
    head (List.filter (joins E i) (rows tb)) = Some r
    /\ In r (rows tb) /\ id r = i
    /\ a_id a = i /\ a_userId a = user_id r /\ a_clockOut a = clock_out r
    /\ a_notes a = notes r /\ a_syncVersion a = sync_version r
    /\ a_status a = status r /\ a_clockIn a = clock_in r
    /\ a_facilityId a = facility_id r.
Proof.
  unfold findById, select_by_id. fold (joins E i).
  destruct (List.filter (joins E i) (rows tb)) as [|r rest] eqn:Hf;
    [discriminate|].
  cbn. intros [= <-]. exists r.
  assert (Hin : In r (List.filter (joins E i) (rows tb)))
    by (rewrite Hf; now left).
  apply filter_In in Hin as [Hin Hj].
  unfold joins in Hj. apply andb_prop in Hj as [Hj _].
  apply andb_prop in Hj as [Hj _]. apply N.eqb_eq in Hj.
  cbn. repeat split; auto.
Qed.

Lemma findById_of_head i tb r :
  head (List.filter (joins E i) (rows tb)) = Some r ->
  exists a, findById E D i tb = Some a
    /\ a_id a = id r /\ a_userId a = user_id r /\ a_clockOut a = clock_out r
    /\ a_status a = status r /\ a_syncVersion a = sync_version r
    /\ a_clockIn a = clock_in r /\ a_facilityId a = facility_id r.
Proof.
  unfold findById, select_by_id. fold (joins E i).
  destruct (List.filter (joins E i) (rows tb)) as [|r0 rest]; [discriminate|].
  cbn. intros [= ->]. eexists. split; [reflexivity|]. cbn. repeat split.
Qed.

Lemma head_filter_Forall2 {A : Type} (R : A -> A -> Prop) (p : A -> bool) :
  (forall x y, R x y -> p y = p x) ->
  forall l l' x,
    Forall2 R l l' ->
    head (List.filter p l) = Some x ->
    exists y, head (List.filter p l') = Some y /\ R x y.
Proof.
  intros Hp l l' x HF. induction HF as [|a b l l' Hab HF IH];
    [discriminate|].
  cbn [List.filter]. rewrite (Hp _ _ Hab).
  destruct (p a); cbn; [intros [= <-]; eauto|exact IH].
Qed.

Lemma Forall2_In_left {A B : Type} (R : A -> B -> Prop) l l' x :
  Forall2 R l l' -> In x l -> exists y, In y l' /\ R x y.
Proof.
  induction 1 as [|a b l l' Hab _ IH]; [intros []|].
  intros [<-|Hin]; [exists b; split; [now left|assumption]|].
  destruct (IH Hin) as (y & Hy & HR). exists y. split; [now right|assumption].
Qed.

Lemma Forall2_In_right {A B : Type} (R : A -> B -> Prop) l l' y :
  Forall2 R l l' -> In y l' -> exists x, In x l /\ R x y.
Proof.
  induction 1 as [|a b l l' Hab _ IH]; [intros []|].
  intros [<-|Hin]; [exists a; split; [now left|assumption]|].
  destruct (IH Hin) as (x & Hx & HR). exists x. split; [now right|assumption].
Qed.

Lemma head_filter_app_new {A : Type} (p : A -> bool) l x :
  p x = true -> (forall y, In y l -> p y = false) ->
  head (List.filter p (l ++ [x])) = Some x.
Proof.
  intros Hx Hl. rewrite List.filter_app. cbn. rewrite Hx.
  assert (Hn : List.filter p l = []).
  { induction l as [|a l IH]; [reflexivity|]. cbn.
    rewrite (Hl a) by now left. apply IH. intros y Hy. apply Hl. now right. }
  now rewrite Hn.
Qed.

(* ---------- clockIn ---------- *)

Lemma clockIn_inv userId data s res s' :
  clockIn E D userId data s = (Ok res, s') ->
  exists r tb' log f rest,
    findActiveAttendance E userId (attendance_table s) = Ok None
    /\ select_facility E D (get data "facilityId") "active" = Ok (f :: rest)
    /\ AttendanceRepository.create E (new_attendance E userId data)
         (attendance_table s) = (Ok r, tb')
    /\ insert_activity E (VStr userId) "CLOCK_IN" (id r) "User clocked in"
         (Some (get data "facilityId")) (activities s) = Ok log
    /\ s' = mkStore tb' log
    /\ res = findById E D (id r) tb'.
Proof.
  task_steps. intros H.
  destruct (findActiveAttendance E userId (attendance_table s))
    as [[r0|]|e] eqn:Ha; try discriminate H.
  destruct (select_facility E D (get data "facilityId") "active")
    as [[|f rest]|e] eqn:Hf; try discriminate H.
  cbn [length Nat.eqb] in H.
  destruct (AttendanceRepository.create E _ (attendance_table s))
    as [[r|e] tb'] eqn:Hc; try discriminate H.
  cbn [attendance_table activities] in H.
  destruct (insert_activity E _ _ _ _ _ (activities s)) as [log|e] eqn:Hl;
    try discriminate H.
  cbn [attendance_table activities] in H. injection H as <- <-.
  exists r, tb', log, f, rest. repeat split; assumption.
Qed.

Lemma or_else_idem a b : JS.or_else (JS.or_else a b) b = JS.or_else a b.
Proof.
  unfold JS.or_else. destruct (truthy a) eqn:Ha; [now rewrite Ha|].
  now destruct (truthy b).
Qed.

Lemma in_integer_one : in_integer (VNum 1) = Ok (Some 1).
Proof. reflexivity. Qed.

Lemma new_attendance_row userId data tb r tb' :
  AttendanceRepository.create E (new_attendance E userId data) tb
    = (Ok r, tb') ->
  in_uuid E (VStr userId) = Ok (Some (user_id r))
  /\ in_uuid E (get data "facilityId") = Ok (Some (facility_id r))
  /\ status r = Some "clocked_in"
  /\ clock_out r = None
  /\ sync_version r = Some 1
  /\ Schema.synced r = Some true
  /\ rows tb' = (rows tb ++ [r])%list
  /\ next_id tb' = N.succ (next_id tb)
  /\ id r = next_id tb
  /\ In (user_id r) (users E)
  /\ In (facility_id r) (facilities E)
  /\ in_timestamptz (JS.or_else (get data "clockIn") (VDate (now E)))
     = Ok (Some (clock_in r)).
Proof.
  intros Hc.
  pose proof (created_rows E _ _ _ _ Hc) as Hrows.
  unfold AttendanceRepository.create in Hc.
  match type of Hc with
  | match insert_attendance E ?p tb with _ => _ end = _ =>
      destruct (insert_attendance E p tb) as [[r0 tb0]|e] eqn:Hi;
        [|discriminate Hc]
  end.
  injection Hc as -> ->.
  pose proof (insert_attendance_ok E _ _ _ _ Hi)
    as (_ & Hid & Hco & _ & _ & Hst & _).
  apply insert_attendance_inv in Hi
    as (Hu & Hf & Hci & _ & _ & Hsy & Hv & _ & _ & _ & _ & _ & _ & Hiu & Hif
        & Hn).
  cbn [p_user_id p_facility_id p_clock_in p_synced p_sync_version p_status]
    in *.
  change (get (new_attendance E userId data) "userId") with (VStr userId) in Hu.
  change (get (new_attendance E userId data) "facilityId")
    with (get data "facilityId") in Hf.
  change (get (new_attendance E userId data) "clockIn")
    with (JS.or_else (get data "clockIn") (VDate (now E))) in Hci.
  change (get (new_attendance E userId data) "synced") with (VBool true) in Hsy.
  change (get (new_attendance E userId data) "syncVersion") with VUndef in Hv.
  cbn in Hsy, Hv, Hst. injection Hsy as Hsy. injection Hv as Hv.
  injection Hst as Hst.
  rewrite or_else_idem in Hci.
  repeat split; auto.
Qed.

Lemma in_list_In s l : in_list s l = true <-> In s l.
Proof.
  unfold in_list. rewrite existsb_exists. split.
  - intros (x & Hin & Heq). apply String.eqb_eq in Heq. now subst.
  - intros Hin. exists s. split; [assumption|apply String.eqb_refl].
Qed.

Lemma text_is_eq s v : text_is s v = true <-> v = Some s.
Proof.
  unfold text_is. destruct v as [s'|]; [|split; discriminate].
  rewrite String.eqb_eq. split; [now intros ->|now intros [= ->]].
Qed.

Lemma insert_activity_inv p action entity description meta log log' :
  insert_activity E p action entity description meta log = Ok log' ->
  exists u,
    in_uuid E p = Ok u
    /\ log' = (log ++ [ {| act_user_id := u;
                           act_action := action;
                           act_entity_type := "attendance";
                           act_entity_id := entity;
                           act_description := description;
                           act_metadata := meta;
                           act_created_at := now E |} ])%list.
Proof.
  unfold insert_activity. intros H. bind_inv H. injection H as <-. eauto.
Qed.

Lemma findActive_some_iff userId tb :
  (exists r, findActiveAttendance E userId tb = Ok (Some r))
  <-> exists u x, in_uuid E (VStr userId) = Ok u
                  /\ In x (rows tb) /\ is_active u x = true.
Proof.
  split.
  - intros (r & H).
    destruct (findActiveAttendance_latest E _ _ _ H)
      as (u & Hu & Hin & Ha & _). eauto.
  - intros (u & x & Hu & Hin & Ha).
    destruct (findActiveAttendance E userId tb) as [[r|]|e] eqn:H; eauto.
    + destruct (findActiveAttendance_latest E _ _ _ H)
        as (u' & Hu' & Hnone).
      assert (u' = u) by congruence. subst u'.
      rewrite (Hnone x Hin) in Ha. discriminate Ha.
    + unfold findActiveAttendance, select_active in H.
      rewrite Hu in H. discriminate H.
Qed.

Lemma clockIn_refused_iff
    (userId : string) (data : gmap string value) (s : store) :
  clockIn E D userId data s
    = (Throw (AppError "User already clocked in. Please clock out first." 400),
       s)
  <-> exists u x, in_uuid E (VStr userId) = Ok u
                  /\ In x (rows (attendance_table s))
                  /\ is_active u x = true.
Proof.
  rewrite <- findActive_some_iff. split.
  - task_steps. intros H.
    destruct (findActiveAttendance E userId (attendance_table s))
      as [[r0|]|e] eqn:Ha; try discriminate H; eauto.
    destruct (select_facility E D (get data "facilityId") "active")
      as [[|f rest]|e] eqn:Hf; try discriminate H.
    cbn [length Nat.eqb] in H.
    destruct (AttendanceRepository.create E _ (attendance_table s))
      as [[r|e] tb'] eqn:Hc; try discriminate H.
    cbn [attendance_table activities] in H.
    destruct (insert_activity E _ _ _ _ _ (activities s)) as [log|e] eqn:Hl;
      discriminate H.
  - intros (r & Ha). task_steps. now rewrite Ha.
Qed.

(** X18.  [clockIn] throws 'User already clocked in' with status 400,
    and writes nothing, exactly when the table holds a row of the user
    with the status 'clocked_in' and no clock-out. *)
Theorem X18_clockIn_refused_iff_open
    (userId : string) (data : gmap string value) (s : store) :
  clockIn E D userId data s
    = (Throw (AppError "User already clocked in. Please clock out first." 400),
       s)
  <-> exists u x, in_uuid E (VStr userId) = Ok u
                  /\ In x (rows (attendance_table s))
                  /\ is_active u x = true.
Proof. apply clockIn_refused_iff. Qed.

Lemma new_row_is_active userId data tb r tb' :
  AttendanceRepository.create E (new_attendance E userId data) tb
    = (Ok r, tb') ->
  is_active (Some (user_id r)) r = true.
Proof.
  intros Hc. apply new_attendance_row in Hc
    as (_ & _ & Hst & Hco & _).
  unfold is_active. rewrite Hst, Hco. cbn.
  now rewrite String.eqb_refl.
Qed.

(** X20.  After a [clockIn] that returned, every further [clockIn] of
    the same user is refused with status 400 and writes nothing, whatever
    it sends. *)
Theorem X20_clockIn_twice_is_refused
    (userId : string) (data : gmap string value) (s : store)
    (res : option attendance) (s' : store) :
  clockIn E D userId data s = (Ok res, s') ->
  forall data2,
    clockIn E D userId data2 s'
    = (Throw (AppError "User already clocked in. Please clock out first." 400),
       s').
Proof.
  intros H data2.
  apply clockIn_inv in H
    as (r & tb' & log & f & rest & _ & _ & Hc & _ & -> & _).
  apply clockIn_refused_iff.
  pose proof (new_row_is_active _ _ _ _ _ Hc) as Ha.
  apply new_attendance_row in Hc as (Hu & _ & _ & _ & _ & _ & Hrows & _).
  exists (Some (user_id r)), r. cbn [attendance_table].
  rewrite Hrows. repeat split; [assumption| |assumption].
  apply in_or_app. right. now left.
Qed.

Lemma select_facility_active p f rest :
  select_facility E D p "active" = Ok (f :: rest) ->
  in_uuid E p = Ok (Some f)
  /\ In f (facilities E) /\ facility_status D f = Some "active".
Proof.
  unfold select_facility. intros H. bind_inv H.
  destruct x as [f'|]; [|discriminate H].
  destruct (in_list f' (facilities E)) eqn:Hin; [|discriminate H].
  destruct (text_is "active" (facility_status D f')) eqn:Hst;
    [|discriminate H].
  cbn in H. injection H as <- <-.
  apply in_list_In in Hin. apply text_is_eq in Hst. auto.
Qed.

Lemma joins_new_row tb r :
  known_ids tb -> id r = next_id tb ->
  In (user_id r) (users E) -> In (facility_id r) (facilities E) ->
  head (List.filter (joins E (id r)) (rows tb ++ [r])) = Some r.
Proof.
  intros Hk Hid Hu Hf. apply head_filter_app_new.
  - unfold joins. rewrite N.eqb_refl. cbn.
    apply in_list_In in Hu, Hf. now rewrite Hu, Hf.
  - intros y Hy. unfold joins.
    unfold known_ids in Hk. rewrite List.Forall_forall in Hk.
    specialize (Hk y Hy).
    destruct (N.eqb_spec (id y) (id r)) as [Heq|]; [lia|reflexivity].
Qed.

(** X19.  On a table whose identifiers are among those given out, a
    [clockIn] that returns has appended exactly one row to the table, for the user and for a facility whose status is
    'active': the row is 'clocked_in', has no clock-out, version 1 and is
    marked synced; the user had no open attendance before; one row was
    appended to [activities], with the action 'CLOCK_IN' and the
    identifier of the new attendance; and the object returned is the new
    attendance. *)
Theorem X19_clockIn_opens_one_attendance
    (userId : string) (data : gmap string value) (s : store)
    (res : option attendance) (s' : store) :
  known_ids (attendance_table s) ->
  clockIn E D userId data s = (Ok res, s') ->
  exists r a,
    rows (attendance_table s') = (rows (attendance_table s) ++ [r])%list
    /\ id r = next_id (attendance_table s)
    /\ in_uuid E (VStr userId) = Ok (Some (user_id r))
    /\ in_uuid E (get data "facilityId") = Ok (Some (facility_id r))
    /\ facility_status D (facility_id r) = Some "active"
    /\ status r = Some "clocked_in"
    /\ clock_out r = None
    /\ sync_version r = Some 1
    /\ Schema.synced r = Some true
    /\ (forall x, In x (rows (attendance_table s)) ->
                  is_active (Some (user_id r)) x = false)
    /\ activities s'
       = (activities s
          ++ [logged E "CLOCK_IN" "User clocked in" r
                (Some (get data "facilityId"))])%list
    /\ res = Some a
    /\ a_id a = id r /\ a_userId a = user_id r /\ a_clockOut a = None
    /\ known_ids (attendance_table s').
Proof.
  intros Hk H.
  apply clockIn_inv in H
    as (r & tb' & log & f & rest & Hact & Hfac & Hc & Hlog & -> & ->).
  pose proof (new_attendance_row _ _ _ _ _ Hc)
    as (Hu & Hf & Hst & Hco & Hv & Hsy & Hrows & Hnext & Hid & Hiu & Hif & _).
  apply select_facility_active in Hfac as (Hf' & _ & Hfs).
  assert (f = facility_id r) by congruence. subst f.
  apply insert_activity_inv in Hlog as (u & Hu' & ->).
  assert (u = Some (user_id r)) by congruence. subst u.
  destruct (findActiveAttendance_latest E _ _ _ Hact) as (u' & Hu'' & Hnone).
  assert (u' = Some (user_id r)) by congruence. subst u'.
  pose proof (joins_new_row _ _ Hk Hid Hiu Hif) as Hhead.
  rewrite <- Hrows in Hhead.
  apply findById_of_head in Hhead
    as (a & Ha & Haid & Hauser & Haco & _).
  exists r, a. cbn [attendance_table activities].
  repeat split; try assumption; try congruence.
  unfold known_ids. rewrite Hrows, Hnext.
  apply Forall_app. split.
  - unfold known_ids in Hk. rewrite List.Forall_forall in *.
    intros x Hx. specialize (Hk x Hx). lia.
  - constructor; [lia|constructor].
Qed.


(* ---------- clockOut ---------- *)

Lemma formatted_userId a :
  get (snd (formatted_object a)) "userId" = VStr (a_userId a).
Proof. reflexivity. Qed.

Lemma formatted_clockOut a :
  get (snd (formatted_object a)) "clockOut" = of_option (a_clockOut a) VDate.
Proof. reflexivity. Qed.

Lemma formatted_syncVersion a :
  get (snd (formatted_object a)) "syncVersion"
  = of_option (a_syncVersion a) (fun n => VNum (inject_Z n)).
Proof. reflexivity. Qed.

Lemma row_userId r : get (snd (row_properties r)) "userId" = VUndef.
Proof. reflexivity. Qed.

Lemma clockOut_inv userId i data s res s' :
  clockOut E D userId (Some i) data s = (Ok res, s') ->
  exists a updated tb' log,
    findById E D i (attendance_table s) = Some a
    /\ a_userId a = userId
    /\ a_clockOut a = None
    /\ AttendanceRepository.update E (a_id a)
         (clock_out_updates E data (snd (formatted_object a)))
         (attendance_table s) = (Ok (Some updated), tb')
    /\ insert_activity E (VStr userId) "CLOCK_OUT" (a_id a) "User clocked out"
         None (activities s) = Ok log
    /\ s' = mkStore tb' log
    /\ res = findById E D (id updated) tb'.
Proof.
  task_steps. intros H.
  destruct (findById E D i (attendance_table s)) as [a|] eqn:Hf;
    [|discriminate H].
  cbn [option_map formatted_object] in H.
  change (get _ "userId") with (VStr (a_userId a)) in H.
  change (get _ "clockOut") with (of_option (a_clockOut a) VDate) in H.
  cbn [strict_eq] in H.
  destruct (String.eqb_spec (a_userId a) userId) as [Hu|];
    [|discriminate H].
  cbn [negb] in H.
  destruct (a_clockOut a) as [t|] eqn:Hco; [discriminate H|].
  cbn [of_option truthy] in H.
  match type of H with
  | context [AttendanceRepository.update E ?i ?u ?tb] =>
      destruct (AttendanceRepository.update E i u tb)
        as [[updated|e] tb'] eqn:Hup; [|discriminate H]
  end.
  cbn [attendance_table activities] in H.
  destruct (insert_activity E _ _ _ _ _ (activities s)) as [log|e] eqn:Hl;
    [|discriminate H].
  destruct updated as [updated|]; [|discriminate H].
  cbn [attendance_table activities] in H. injection H as <- <-.
  exists a, updated, tb', log. repeat split; assumption.
Qed.

Lemma clock_out_value v now x :
  in_timestamptz (JS.or_else v (VDate now)) = Ok x ->
  exists t, x = Some t /\ (if truthy v then v = VDate t else t = now).
Proof.
  unfold JS.or_else. destruct (truthy v) eqn:Ht.
  - destruct v; try discriminate; cbn in Ht; try discriminate Ht.
    intros [= <-]. eauto.
  - intros [= <-]. eauto.
Qed.

Lemma in_integer_inject n x :
  in_integer (VNum (inject_Z n)) = Ok x -> x = Some n.
Proof.
  unfold in_integer. rewrite inject_Z_Qred. cbn.
  destruct ((-2147483648 <=? n) && (n <=? 2147483647)).
  - now intros [= <-].
  - destruct (Z.abs n <? 10 ^ 21); discriminate.
Qed.

Lemma in_integer_plus_one version x :
  in_integer (plus_one (of_option version (fun n => VNum (inject_Z n)))) = Ok x ->
  x = Some (match version with Some n => n + 1 | None => 1 end).
Proof.
  destruct version as [n|]; cbn [of_option plus_one].
  - assert (Heq : Qred (inject_Z n + 1) = Qred (inject_Z (n + 1))).
    { apply Qred_complete. rewrite inject_Z_plus. reflexivity. }
    unfold in_integer. rewrite Heq. fold (in_integer (VNum (inject_Z (n + 1)))).
    apply in_integer_inject.
  - now intros [= <-].
Qed.

Lemma written_clocked_out data a r r' :
  written E (clock_out_updates E data (snd (formatted_object a))) r r' ->
  exists t,
    clock_out_instant E data t
    /\ untouched r r'
    /\ clock_out r' = Some t
    /\ clock_in r < t
    /\ status r' = Some "clocked_out"
    /\ sync_version r'
       = Some (match a_syncVersion a with Some n => n + 1 | None => 1 end).
Proof.
  intros (Hun & _ & Hco & _ & _ & _ & Hst & _ & Hv & _ & Hck).
  unfold assigned in Hco, Hst, Hv.
  change (get (clock_out_updates E data (snd (formatted_object a))) "clock_out")
    with (JS.or_else (get data "clockOut") (VDate (now E))) in Hco.
  change (get (clock_out_updates E data (snd (formatted_object a))) "status")
    with (VStr "clocked_out") in Hst.
  change (get (clock_out_updates E data (snd (formatted_object a)))
            "sync_version")
    with (plus_one (of_option (a_syncVersion a) (fun n => VNum (inject_Z n))))
    in Hv.
  cbn in Hst. injection Hst as Hst.
  assert (Hv' : in_integer
            (plus_one (of_option (a_syncVersion a)
                         (fun n => VNum (inject_Z n))))
          = Ok (sync_version r')).
  { destruct (a_syncVersion a); exact Hv. }
  apply in_integer_plus_one in Hv'.
  assert (Hco' : in_timestamptz (JS.or_else (get data "clockOut") (VDate (now E)))
                 = Ok (clock_out r')).
  { unfold JS.or_else in *.
    destruct (truthy (get data "clockOut")) eqn:Ht; [|exact Hco].
    destruct (get data "clockOut"); try discriminate Ht; exact Hco. }
  apply clock_out_value in Hco' as (t & Hct & Hinst).
  exists t. unfold clock_out_instant.
  split; [exact Hinst|]. split; [exact Hun|]. split; [exact Hct|].
  split; [|split; [symmetry; exact Hst|exact Hv']].
  apply check_constraints_ok in Hck as (_ & _ & _ & _ & Hvt).
  unfold valid_clock_times in Hvt. rewrite Hct in Hvt.
  destruct Hun as (_ & _ & _ & Hci & _). rewrite Hci in Hvt.
  now apply Z.ltb_lt in Hvt.
Qed.

Lemma clock_out_instant_unique data t t' :
  clock_out_instant E data t -> clock_out_instant E data t' -> t = t'.
Proof.
  unfold clock_out_instant. destruct (truthy (get data "clockOut"));
    congruence.
Qed.

Lemma joins_untouched i r r' : untouched r r' -> joins E i r' = joins E i r.
Proof.
  intros (Hid & Hu & Hf & _). unfold joins. now rewrite Hid, Hu, Hf.
Qed.

Lemma clockOut_effect
    (userId : string) (i : N) (data : gmap string value) (s : store)
    (res : option attendance) (s' : store) :
  clockOut E D userId (Some i) data s = (Ok res, s') ->
  exists r t u a,
    head (List.filter (joins E i) (rows (attendance_table s))) = Some r
    /\ user_id r = userId
    /\ clock_out r = None
    /\ clock_out_instant E data t
    /\ Forall2 (clocked_out_at i (sync_version r) t)
         (rows (attendance_table s)) (rows (attendance_table s'))
    /\ next_id (attendance_table s') = next_id (attendance_table s)
    /\ in_uuid E (VStr userId) = Ok u
    /\ activities s'
       = (activities s
          ++ [mkActivity u "CLOCK_OUT" "attendance" i "User clocked out"
                None (now E)])%list
    /\ res = Some a
    /\ a_id a = i /\ a_clockOut a = Some t
    /\ a_status a = Some "clocked_out".
Proof.
  intros H.
  apply clockOut_inv in H
    as (a & updated & tb' & log & Hf & Hu & Hco & Hup & Hlog & -> & ->).
  apply findById_row in Hf
    as (r & Hhead & Hin & Hid & Haid & Hauser & Haco & _ & Hav & _).
  rewrite Haid in *.
  apply insert_activity_inv in Hlog as (u & Hpu & ->).
  pose proof Hup as Hup'.
  unfold AttendanceRepository.update in Hup'.
  destruct (Nat.eqb _ 0); [discriminate Hup'|].
  fold (sets_of (clock_out_updates E data (snd (formatted_object a)))) in Hup'.
  destruct (update_attendance E _ i (attendance_table s))
    as [[rs tb0]|e] eqn:Hua; [|discriminate Hup'].
  injection Hup' as Hhd <-.
  unfold update_attendance in Hua. bind_inv Hua. injection Hua as <- <-.
  pose proof (update_rows_effect E _ _ _ _ _ Hx Hx0) as Heff.
  (* the instant, from the row that was found *)
  assert (Ht : exists t, clock_out_instant E data t).
  { destruct (Forall2_In_left _ _ _ _ Heff Hin) as (y' & _ & Hy).
    unfold update_effect in Hy. rewrite Hid, N.eqb_refl in Hy.
    apply written_clocked_out in Hy as (t & Ht & _). eauto. }
  destruct Ht as (t & Ht).
  assert (Hall : Forall2 (clocked_out_at i (sync_version r) t)
                   (rows (attendance_table s)) x0).
  { eapply Forall2_impl; [exact Heff|].
    intros y y' Hy. unfold update_effect in Hy. unfold clocked_out_at.
    destruct (N.eqb (id y) i); [|exact Hy].
    apply written_clocked_out in Hy as (t' & Ht' & Hun & Hc & Hlt & Hst & Hv).
    rewrite (clock_out_instant_unique _ _ _ Ht Ht').
    rewrite <- Hav. auto. }
  destruct (head_filter_Forall2 (clocked_out_at i (sync_version r) t)
              (joins E i)) with (l := rows (attendance_table s)) (l' := x0)
    (x := r) as (r' & Hhead' & Hr'); [|exact Hall|exact Hhead|].
  { intros y y' Hy. unfold clocked_out_at in Hy.
    destruct (N.eqb (id y) i); [|now subst].
    apply joins_untouched, Hy. }
  unfold clocked_out_at in Hr'. rewrite Hid, N.eqb_refl in Hr'.
  destruct Hr' as (Hun & Hc' & _ & Hst' & _).
  assert (Hupd : id updated = i).
  { cbn [rows] in Hhd.
    destruct (List.filter (fun r0 => N.eqb (id r0) i) x0) as [|z zs] eqn:Hfl;
      [discriminate Hhd|].
    cbn in Hhd. injection Hhd as ->.
    assert (Hz : In updated (List.filter (fun r0 => N.eqb (id r0) i) x0))
      by (rewrite Hfl; now left).
    apply filter_In in Hz as [_ Hz]. now apply N.eqb_eq in Hz. }
  rewrite Hupd.
  destruct (findById_of_head i (mkTable x0 (next_id (attendance_table s)))
              r' Hhead')
    as (a' & Ha' & Haid' & _ & Haco' & Hast' & _).
  exists r, t, u, a'. cbn [attendance_table activities rows next_id].
  repeat split; try assumption; try congruence.
  destruct Hun as (Hi' & _). congruence.
Qed.

(** X21.  A [clockOut] with an attendance identifier that returns has
    closed that attendance: it belonged to the user and had no clock-out;
    now its clock-out is the instant sent, or the server clock when none
    was sent, and is strictly later than its clock-in, its status is
    'clocked_out' and its version is one more than before.  The rows with
    another identifier are as they were, one row was appended to
    [activities] with the action 'CLOCK_OUT', and the object returned
    shows the clock-out. *)
Theorem X21_clockOut_closes_the_attendance
    (userId : string) (i : N) (data : gmap string value) (s : store)
    (res : option attendance) (s' : store) :
  clockOut E D userId (Some i) data s = (Ok res, s') ->
  exists r t u a,
    head (List.filter (joins E i) (rows (attendance_table s))) = Some r
    /\ user_id r = userId
    /\ clock_out r = None
    /\ clock_out_instant E data t
    /\ Forall2 (clocked_out_at i (sync_version r) t)
         (rows (attendance_table s)) (rows (attendance_table s'))
    /\ next_id (attendance_table s') = next_id (attendance_table s)
    /\ in_uuid E (VStr userId) = Ok u
    /\ activities s'
       = (activities s
          ++ [mkActivity u "CLOCK_OUT" "attendance" i "User clocked out"
                None (now E)])%list
    /\ res = Some a
    /\ a_id a = i /\ a_clockOut a = Some t
    /\ a_status a = Some "clocked_out".
Proof. apply clockOut_effect. Qed.

(** X22.  After a [clockOut] that returned, every further [clockOut] of
    the same attendance by the same user is refused with 'Already clocked
    out' and status 400, and writes nothing. *)
Theorem X22_clockOut_twice_is_refused
    (userId : string) (i : N) (data : gmap string value) (s : store)
    (res : option attendance) (s' : store) :
  clockOut E D userId (Some i) data s = (Ok res, s') ->
  forall data2,
    clockOut E D userId (Some i) data2 s'
    = (Throw (AppError "Already clocked out" 400), s').
Proof.
  intros H data2.
  destruct (clockOut_effect _ _ _ _ _ _ H)
    as (r & t & u & a & Hhead & Hu & _ & _ & Hall & _).
  destruct (head_filter_Forall2 (clocked_out_at i (sync_version r) t)
              (joins E i)) with (l := rows (attendance_table s))
    (l' := rows (attendance_table s')) (x := r)
    as (r' & Hhead' & Hr'); [|exact Hall|exact Hhead|].
  { intros y y' Hy. unfold clocked_out_at in Hy.
    destruct (N.eqb (id y) i); [|now subst].
    apply joins_untouched, Hy. }
  assert (Hid : id r = i).
  { destruct (List.filter (joins E i) (rows (attendance_table s)))
      as [|z zs] eqn:Hfl; [discriminate Hhead|].
    cbn in Hhead. injection Hhead as ->.
    assert (Hz : In r (List.filter (joins E i) (rows (attendance_table s))))
      by (rewrite Hfl; now left).
    apply filter_In in Hz as [_ Hz]. unfold joins in Hz.
    apply andb_prop in Hz as [Hz _]. apply andb_prop in Hz as [Hz _].
    now apply N.eqb_eq in Hz. }
  unfold clocked_out_at in Hr'. rewrite Hid, N.eqb_refl in Hr'.
  destruct Hr' as (Hun & Hc' & _).
  destruct (findById_of_head i (attendance_table s') r' Hhead')
    as (a' & Ha' & _ & Hauser' & Haco' & _).
  task_steps. rewrite Ha'. cbn [option_map formatted_object].
  change (get _ "userId") with (VStr (a_userId a')).
  change (get _ "clockOut") with (of_option (a_clockOut a') VDate).
  cbn [strict_eq]. rewrite Hauser'.
  destruct Hun as (_ & Huid & _). rewrite Huid, Hu, String.eqb_refl.
  rewrite Haco', Hc'. reflexivity.
Qed.

Lemma clockOut_without_attendanceId
    (userId : string) (data : gmap string value) (s : store) :
  clockOut E D userId None data s
  = match findActiveAttendance E userId (attendance_table s) with
    | Ok (Some _) =>
        (Throw (AppError "Not authorized to clock out this attendance" 403), s)
    | Ok None => (Throw (AppError "No active attendance record found" 404), s)
    | Throw e => (Throw (Uncaught (Pg e)), s)
    end.
Proof.
  task_steps.
  destruct (findActiveAttendance E userId (attendance_table s))
    as [[r|]|e]; reflexivity.
Qed.

(** X23.  [clockOut] without an attendance identifier never returns.
    The row [findActiveAttendance] hands over has [user_id] and no
    [userId], so the ownership test fails: a user who has an open
    attendance is answered 'Not authorized to clock out this attendance'
    with status 403, and nothing is written. *)
Theorem X23_clockOut_without_attendanceId_never_succeeds
    (userId : string) (data : gmap string value) (s : store)
    (u : option string) (x : row) :
  in_uuid E (VStr userId) = Ok u ->
  In x (rows (attendance_table s)) ->
  is_active u x = true ->
  clockOut E D userId None data s
  = (Throw (AppError "Not authorized to clock out this attendance" 403), s)
  /\ forall userId' data' s0 res s',
       clockOut E D userId' None data' s0 <> (Ok res, s').
Proof.
  intros Hu Hin Ha. split.
  - rewrite clockOut_without_attendanceId.
    destruct (proj2 (findActive_some_iff userId (attendance_table s)))
      as (r & ->); eauto.
  - intros userId' data' s0 res s'. rewrite clockOut_without_attendanceId.
    destruct (findActiveAttendance E userId' (attendance_table s0))
      as [[r|]|e]; discriminate.
Qed.

(** X24.  When [clockIn] or [clockOut] throws an [AppError], the
    attendance table and [activities] are as they were, and the status
    code is 400, 403 or 404. *)
Theorem X24_clock_refusals_write_nothing
    (userId : string) (i : option N) (data : gmap string value) (s : store)
    (m : string) (c : Z) (s' : store) :
  clockIn E D userId data s = (Throw (AppError m c), s')
  \/ clockOut E D userId i data s = (Throw (AppError m c), s') ->
  s' = s /\ (c = 400 \/ c = 403 \/ c = 404).
Proof.
  intros [H|H]; revert H; task_steps; intros H.
  - destruct (findActiveAttendance E userId (attendance_table s))
      as [[r0|]|e] eqn:Ha; try discriminate H.
    + injection H as _ <- <-. auto.
    + destruct (select_facility E D (get data "facilityId") "active")
        as [[|f rest]|e] eqn:Hf; try discriminate H.
      * injection H as _ <- <-. auto.
      * cbn [length Nat.eqb] in H.
        destruct (AttendanceRepository.create E _ (attendance_table s))
          as [[r|e] tb'] eqn:Hc; try discriminate H.
        cbn [attendance_table activities] in H.
        destruct (insert_activity E _ _ _ _ _ (activities s)) as [log|e];
          discriminate H.
  - assert (Htail : forall found : N * gmap string value,
      (let (attendance_id, attendance) := found in
       if negb (strict_eq (get attendance "userId") (VStr userId)) then
         throw (AppError "Not authorized to clock out this attendance" 403)
       else if truthy (get attendance "clockOut") then
         throw (AppError "Already clocked out" 400)
       else
         and_then
           (writing (AttendanceRepository.update E attendance_id
                       (clock_out_updates E data attendance)))
           (fun updated =>
              and_then
                (logging (insert_activity E (VStr userId) "CLOCK_OUT"
                            attendance_id "User clocked out" None))
                (fun _ =>
                   match updated with
                   | Some updated =>
                       reading (fun tb => Ok (findById E D (id updated) tb))
                   | None => throw (Uncaught (TypeErrorNull "id"))
                   end))) s
      = (Throw (AppError m c), s') ->
      s' = s /\ (c = 400 \/ c = 403 \/ c = 404)).
    { intros [aid obj]. task_steps. intros Hf.
      destruct (negb _); [injection Hf as _ <- <-; auto|].
      destruct (truthy _); [injection Hf as _ <- <-; auto|].
      destruct (AttendanceRepository.update E aid _ (attendance_table s))
        as [[updated|e] tb']; [|discriminate Hf].
      cbn [activities attendance_table] in Hf.
      destruct (insert_activity E _ _ _ _ _ (activities s)) as [log|e];
        [|discriminate Hf].
      destruct updated; discriminate Hf. }
    destruct i as [i|].
    + destruct (findById E D i (attendance_table s)) as [a|];
        cbn [option_map] in H.
      * apply (Htail (formatted_object a)). exact H.
      * injection H as _ <- <-. auto.
    + destruct (findActiveAttendance E userId (attendance_table s))
        as [r|e]; [|discriminate H].
      cbn [mbind result_bind rbind] in H.
      destruct r as [r|]; cbn [option_map] in H.
      * apply (Htail (row_properties r)). exact H.
      * injection H as _ <- <-. auto.
Qed.

End ClockFacts.

Lemma X20_witness :
  exists res s',
    clockIn E0 D0 user1 clock_in_request closed_store = (Ok res, s')
    /\ clockIn E0 D0 user1 clock_in_request s'
       = (Throw (AppError "User already clocked in. Please clock out first."
                   400), s').
Proof.
  destruct (clockIn E0 D0 user1 clock_in_request closed_store)
    as [[res|e] s'] eqn:H; [|vm_compute in H; discriminate H].
  exists res, s'. split; [reflexivity|].
  apply (X20_clockIn_twice_is_refused E0 D0 user1 clock_in_request closed_store
           res s' H).
Defined.

Lemma X19_witness :
  known_ids (attendance_table closed_store)
  /\ exists r a s',
       clockIn E0 D0 user1 clock_in_request closed_store = (Ok (Some a), s')
       /\ rows (attendance_table s') = [r]
       /\ status r = Some "clocked_in"
       /\ a_id a = id r.
Proof.
  assert (Hk : known_ids (attendance_table closed_store)) by constructor.
  split; [exact Hk|].
  destruct (clockIn E0 D0 user1 clock_in_request closed_store)
    as [[res|e] s'] eqn:H; [|vm_compute in H; discriminate H].
  destruct (X19_clockIn_opens_one_attendance E0 D0 user1 clock_in_request
              closed_store res s' Hk H)
    as (r & a & Hrows & _ & _ & _ & _ & Hst & _ & _ & _ & _ & _ & -> & Hid & _).
  exists r, a, s'. repeat split; assumption.
Defined.

Lemma X21_witness :
  exists res s' r',
    clockOut E0 D0 user1 (Some 0%N) clock_out_request open_store = (Ok res, s')
    /\ rows (attendance_table s') = [r']
    /\ clock_out r' = Some (now E0)
    /\ status r' = Some "clocked_out"
    /\ sync_version r' = Some 2.
Proof.
  destruct (clockOut E0 D0 user1 (Some 0%N) clock_out_request open_store)
    as [[res|e] s'] eqn:H; [|vm_compute in H; discriminate H].
  destruct (X21_clockOut_closes_the_attendance E0 D0 user1 0%N clock_out_request
              open_store res s' H)
    as (r & t & u & a & Hhead & _ & _ & Ht & Hall & _).
  vm_compute in Hhead. injection Hhead as <-.
  vm_compute in Ht. subst t.
  inversion Hall as [|x r' xs rs Hr Hrest Hx Hrs]; subst.
  inversion Hrest; subst.
  exists res, s', r'. split; [reflexivity|]. split; [auto|].
  unfold clocked_out_at in Hr. cbn [id stored N.eqb sync_version] in Hr.
  destruct Hr as (_ & Hco & _ & Hst & Hv). repeat split; assumption.
Defined.

Lemma X22_witness :
  exists res s',
    clockOut E0 D0 user1 (Some 0%N) clock_out_request open_store = (Ok res, s')
    /\ clockOut E0 D0 user1 (Some 0%N) clock_out_request s'
       = (Throw (AppError "Already clocked out" 400), s').
Proof.
  destruct (clockOut E0 D0 user1 (Some 0%N) clock_out_request open_store)
    as [[res|e] s'] eqn:H; [|vm_compute in H; discriminate H].
  exists res, s'. split; [reflexivity|].
  apply (X22_clockOut_twice_is_refused E0 D0 user1 0%N clock_out_request
           open_store res s' H).
Defined.

Lemma X23_witness :
  clockOut E0 D0 user1 None clock_out_request open_store
  = (Throw (AppError "Not authorized to clock out this attendance" 403),
     open_store).
Proof.
  apply (X23_clockOut_without_attendanceId_never_succeeds E0 D0 user1
           clock_out_request open_store (Some user1) stored).
  - reflexivity.
  - now left.
  - reflexivity.
Defined.

Lemma X24_witness :
  clockIn E0 D0 user1 clock_in_request open_store
  = (Throw (AppError "User already clocked in. Please clock out first." 400),
     open_store)
  /\ (400 = 400 \/ 400 = 403 \/ 400 = 404).
Proof.
  assert (H : clockIn E0 D0 user1 clock_in_request open_store
              = (Throw (AppError
                          "User already clocked in. Please clock out first."
                          400), open_store)) by (vm_compute; reflexivity).
  split; [exact H|].
  exact (proj2 (X24_clock_refusals_write_nothing E0 D0 user1 None
                  clock_in_request open_store _ 400 open_store (or_introl H))).
Defined.

(* ===================================================================== *)
(** ** [getUserAttendance] *)
(* ===================================================================== *)

Lemma descending_by_skipn {A : Type} (f : A -> Z) n : forall l,
  descending_by f l -> descending_by f (skipn n l).
Proof.
  induction n as [|n IH]; intros [|a l] H; cbn; auto.
  apply IH, H.
Qed.

Lemma In_take {A : Type} (x : A) n : forall l, In x (firstn n l) -> In x l.
Proof.
  induction n as [|n IH]; intros [|a l] H; cbn in *; try tauto.
  destruct H as [->|H]; auto.
Qed.

Lemma descending_by_firstn {A : Type} (f : A -> Z) n : forall l,
  descending_by f l -> descending_by f (firstn n l).
Proof.
  induction n as [|n IH]; intros [|a l] H; cbn; auto.
  destruct H as [Hle Hd]. split; [|apply IH, Hd].
  intros x Hx. apply Hle. eapply In_take; eassumption.
Qed.

Lemma descending_by_map {A B : Type} (f : B -> Z) (g : A -> B) l :
  descending_by (fun a => f (g a)) l -> descending_by f (map g l).
Proof.
  induction l as [|a l IH]; cbn; [auto|].
  intros [Hle Hd]. split; [|apply IH, Hd].
  intros x Hx. apply in_map_iff in Hx as (y & <- & Hy). auto.
Qed.

Lemma In_skipn {A : Type} (x : A) n : forall l, In x (skipn n l) -> In x l.
Proof.
  induction n as [|n IH]; intros [|a l] H; cbn in *; auto.
Qed.

Lemma ceil_div_bounds a b n :
  0 < b -> ceil_div a b = Some n -> (n - 1) * b < a <= n * b.
Proof.
  unfold ceil_div. intros Hb.
  destruct (Z.eqb_spec b 0); [lia|]. intros [= <-].
  pose proof (Z.div_mod (- a) b ltac:(lia)) as Hdm.
  pose proof (Z.mod_pos_bound (- a) b Hb) as Hm.
  nia.
Qed.

Section HistoryFacts.

Variable E : env.
Variable D : directory.

Lemma condition_clock_in o (holds : Z -> Z -> bool) keep filters k :
  o = filter_of filters k ->
  condition o (compare_clock_in holds) = Ok keep ->
  forall r t, get filters k = VDate t -> keep r = true ->
              holds (clock_in r) t = true.
Proof.
  intros -> H r t Hk. unfold filter_of in H. rewrite Hk in H. cbn in H.
  injection H as <-. auto.
Qed.

Lemma condition_status keep filters :
  condition (filter_of filters "status") (compare_status E) = Ok keep ->
  forall r, truthy (get filters "status") = true -> keep r = true ->
            status r = param_text E (get filters "status").
Proof.
  unfold filter_of. intros H r Ht. rewrite Ht in H. cbn in H.
  injection H as <-.
  destruct (param_text E (get filters "status")) as [s|]; [|discriminate].
  destruct (status r) as [s'|]; [|discriminate].
  intros Heq. apply String.eqb_eq in Heq. now subst.
Qed.

(** X25.  A call of [getUserAttendance] that returns writes nothing; the
    limit and the offset were not negative; the page has at most [limit]
    records, all of the user, each passing the filters that were given,
    ordered by clock-in from the latest on, and none with a [userName].
    [total] counts every row of the user, whatever the filters, and
    [pages] is the least number of pages of [limit] rows that hold
    [total] rows, or no finite number when the limit is 0. *)
Theorem X25_getUserAttendance_page
    (userId : string) (filters : gmap string value) (page limit : Z)
    (s : store) (records : list attendance) (p : pagination) (s' : store) :
  getUserAttendance E D userId filters page limit s
    = (Ok (records, p), s') ->
  s' = s
  /\ 0 <= limit /\ 0 <= (page - 1) * limit
  /\ (length records <= Z.to_nat limit)%nat
  /\ descending_by a_clockIn records
  /\ exists u,
       in_uuid E (VStr userId) = Ok u
       /\ Forall (in_history E (attendance_table s) u filters) records
       /\ ClockService.total p
          = Z.of_nat (length (List.filter (fun r => text_is (user_id r) u)
                                (rows (attendance_table s))))
       /\ (limit = 0 -> ClockService.pages p = None)
       /\ (0 < limit ->
           exists n, ClockService.pages p = Some n
                     /\ (n - 1) * limit < ClockService.total p <= n * limit)
       /\ ClockService.page p = page /\ ClockService.limit p = limit.
Proof.
  unfold getUserAttendance, and_then, reading, resolve. intros H.
  destruct (findByUserId E D userId filters limit ((page - 1) * limit)
              (attendance_table s)) as [rs|e] eqn:Hf; [|discriminate H].
  destruct (count_by_user E (VStr userId) (attendance_table s))
    as [n|e] eqn:Hc; [|discriminate H].
  injection H as <- <- <-.
  unfold findByUserId in Hf. bind_inv Hf. injection Hf as <-.
  unfold select_by_user in Hx.
  match type of Hx with
  | match ?m with _ => _ end = _ =>
      destruct m as [[[[[[u from] to] st] lim] off]|e] eqn:Hp;
        [|discriminate Hx]
  end.
  bind_inv Hp. injection Hp as -> -> -> -> -> ->.
  bind_inv Hx. injection Hx as <-.
  unfold limit_offset in Hx6.
  destruct (Z.ltb_spec off 0); [discriminate Hx6|].
  destruct (Z.ltb_spec lim 0); [discriminate Hx6|].
  injection Hx6 as <-.
  assert (lim = limit).
  { unfold in_bigint in Hx4.
    destruct ((- 2 ^ 63 <=? limit) && (limit <? 2 ^ 63));
      [now injection Hx4|].
    destruct (Z.abs limit <? 10 ^ 21); discriminate Hx4. }
  assert (off = (page - 1) * limit).
  { unfold in_bigint in Hx5.
    destruct ((- 2 ^ 63 <=? (page - 1) * limit)
              && ((page - 1) * limit <? 2 ^ 63));
      [now injection Hx5|].
    destruct (Z.abs ((page - 1) * limit) <? 10 ^ 21); discriminate Hx5. }
  subst lim off.
  unfold count_by_user in Hc. rewrite Hx0 in Hc.
  cbn [mbind result_bind rbind] in Hc. injection Hc as <-.
  split; [reflexivity|]. split; [assumption|]. split; [assumption|].
  split.
  { rewrite !length_map. rewrite length_firstn. lia. }
  split.
  { apply descending_by_map, descending_by_map. cbn.
    apply descending_by_firstn, descending_by_skipn, order_by_descending. }
  exists u. split; [reflexivity|]. split.
  2: { cbn [ClockService.total ClockService.pages ClockService.page
            ClockService.limit].
       repeat split.
       - intros ->. reflexivity.
       - intros Hpos. unfold ceil_div at 1.
         destruct (Z.eqb_spec limit 0); [lia|]. eexists. split; [reflexivity|].
         apply ceil_div_bounds; [assumption|].
         unfold ceil_div. destruct (Z.eqb_spec limit 0); [lia|reflexivity]. }
  apply List.Forall_forall. intros a Ha.
  apply in_map_iff in Ha as (j & <- & Hj).
  apply in_map_iff in Hj as (r & <- & Hr).
  apply In_take, In_skipn in Hr. apply (proj1 (order_by_In _ _)) in Hr.
  apply filter_In in Hr as [Hin Hkeep].
  apply andb_prop in Hkeep as [Hkeep Hst].
  apply andb_prop in Hkeep as [Hkeep Hto].
  apply andb_prop in Hkeep as [Hkeep Hfrom].
  apply andb_prop in Hkeep as [Hkeep _].
  unfold in_history. cbn. repeat split.
  - apply text_is_eq in Hkeep. congruence.
  - eauto.
  - intros t Ht.
    pose proof (condition_clock_in _ _ _ filters "startDate" eq_refl Hx1
                  r t Ht Hfrom) as Hge.
    apply Z.geb_le in Hge. exact Hge.
  - intros t Ht.
    pose proof (condition_clock_in _ _ _ filters "endDate" eq_refl Hx2
                  r t Ht Hto) as Hle.
    apply Z.leb_le in Hle. exact Hle.
  - intros Ht. eapply condition_status; eassumption.
Qed.

End HistoryFacts.

Lemma X25_witness :
  exists records p s',
    getUserAttendance E0 D0 user1 ∅ 1 50 (mkStore two_rows [])
    = (Ok (records, p), s')
    /\ (length records <= 50)%nat
    /\ ClockService.total p = 2
    /\ ClockService.pages p = Some 1.
Proof.
  destruct (getUserAttendance E0 D0 user1 ∅ 1 50 (mkStore two_rows []))
    as [[[records p]|e] s'] eqn:H; [|vm_compute in H; discriminate H].
  destruct (X25_getUserAttendance_page E0 D0 user1 ∅ 1 50 (mkStore two_rows [])
              records p s' H)
    as (_ & _ & _ & Hlen & _ & u & _ & _ & _ & _ & _ & _ & _).
  exists records, p, s'. split; [reflexivity|]. split; [exact Hlen|].
  vm_compute in H. injection H as <- <- <-. split; reflexivity.
Defined.

(* ===================================================================== *)
(** ** The loop, once more: resolution *)
(* ===================================================================== *)

Section ResolutionFacts.

Variable E : env.
Variable userId : string.

Lemma next_version_stored existing x :
  in_integer (next_version existing) = Ok x ->
  x = Some (match sync_version existing with Some n => n + 1 | None => 1 end).
Proof.
  unfold next_version. destruct (sync_version existing) as [n|].
  - apply in_integer_inject.
  - now intros [= <-].
Qed.

(** X26.  A conflict under the strategy client_wins either raises an
    error, which lands in [errors] with the table untouched, or is
    answered "updated" with the resolution "client"; then every row with
    the identifier of the stored record has the version of that record
    plus one, and of the incoming record exactly the allowed snake_case
    keys were written. *)
Theorem X26_client_wins_writes_the_allowed_keys
    (st : state) (o : gmap string value) (existing : row) :
  detected_conflict E o (db st) existing ->
  get o "conflictResolutionStrategy" = VStr "client_wins" ->
  let u := <["sync_version" := next_version existing]> o in
  let st' := process_record E userId st (IObj o) in
  (exists e,
     st' = mkState (db st) (synced_records st) (conflict_records st)
             (push (error_records st) (mkErrorEntry (IObj o) [Raised e])))
  \/ (synced_records st'
        = push (synced_records st)
            (mkSynced (id existing) "updated" (Some "client"))
      /\ conflict_records st' = conflict_records st
      /\ error_records st' = error_records st
      /\ Forall2 (update_effect E (id existing) u)
           (rows (db st)) (rows (db st'))
      /\ Forall (fun r' =>
                   id r' = id existing ->
                   sync_version r'
                   = Some (match sync_version existing with
                           | Some n => n + 1
                           | None => 1
                           end))
           (rows (db st'))).
Proof.
  intros Hd Hs u st'. subst st'.
  rewrite (turn_of_client_win E userId st o existing Hd Hs). fold u.
  destruct (AttendanceRepository.update E (id existing) u (db st))
    as [[res|e] tb'] eqn:Hu; [right|left; eauto].
  cbn [db synced_records conflict_records error_records].
  destruct (update_ok_effect E _ _ _ _ _ Hu) as (_ & Heff & _).
  repeat split; try assumption.
  apply List.Forall_forall. intros r' Hin Hid.
  destruct (Forall2_In_right _ _ _ _ Heff Hin) as (r & _ & Hr).
  unfold update_effect in Hr.
  destruct (N.eqb_spec (id r) (id existing)) as [Heq|Hne].
  - destruct Hr as (_ & _ & _ & _ & _ & _ & _ & _ & Hv & _).
    unfold assigned in Hv.
    assert (Hg : get u "sync_version" = next_version existing).
    { unfold u, get. now rewrite lookup_insert_eq. }
    rewrite Hg in Hv.
    apply next_version_stored.
    unfold next_version in *. destruct (sync_version existing); exact Hv.
  - subst r'. contradiction.
Qed.

(** X27.  A record that passes the validator, whose lookup finds a
    stored row and which is not in conflict with it, is answered
    "no_change" and writes nothing, however often it is submitted. *)
Theorem X27_resubmission_without_conflict_is_no_change
    (st : state) (o : gmap string value) (existing : row) (rest : list row) :
  isValid (validateSyncMetadata o) = true ->
  select_by_device_and_client_timestamp E
    (get o "deviceId") (get o "clientTimestamp") (db st)
    = Ok (existing :: rest) ->
  hasConflict o (Some (row_object existing)) = false ->
  forall n,
    sync_loop E userId (repeat (IObj o) n) st
    = mkState (db st)
        (synced_records st
         ++ repeat (mkSynced (id existing) "no_change" None) n)%list
        (conflict_records st) (error_records st).
Proof.
  intros Hv Hs Hc n.
  assert (Hone : forall st0, db st0 = db st ->
            process_record E userId st0 (IObj o)
            = mkState (db st0)
                (push (synced_records st0)
                   (mkSynced (id existing) "no_change" None))
                (conflict_records st0) (error_records st0)).
  { intros [tb sy co er] Hdb. cbn [db] in Hdb. subst tb.
    unfold process_record, try_record, AttendanceService.bind, validate.
    cbn [fields]. rewrite Hv. simpl_state.
    unfold select_existing, query. cbn [fields]. simpl_state.
    rewrite Hs. simpl_state. rewrite Hc. reflexivity. }
  assert (Hall : forall st0, db st0 = db st ->
            sync_loop E userId (repeat (IObj o) n) st0
            = mkState (db st0)
                (synced_records st0
                 ++ repeat (mkSynced (id existing) "no_change" None) n)%list
                (conflict_records st0) (error_records st0)).
  { induction n as [|n IH]; intros st0 Hdb.
    - cbn. rewrite app_nil_r. now destruct st0.
    - change (sync_loop E userId (repeat (IObj o) (S n)) st0)
        with (sync_loop E userId (repeat (IObj o) n)
                (process_record E userId st0 (IObj o))).
      rewrite (Hone st0 Hdb), IH by exact Hdb.
      cbn [db synced_records conflict_records error_records]. unfold push.
      now rewrite <- app_assoc. }
  apply Hall. reflexivity.
Qed.

End ResolutionFacts.

Lemma X26_witness :
  Forall (fun r' => id r' = id stored -> sync_version r' = Some 2)
    (rows (db (process_record E0 user1 (mkState one_row [] [] [])
                 (IObj (incoming "client_wins"))))).
Proof.
  destruct (X26_client_wins_writes_the_allowed_keys E0 user1
              (mkState one_row [] [] []) (incoming "client_wins") stored)
    as [(e & He)|(_ & _ & _ & _ & Hv)].
  - split; [|split; [exists []|]]; vm_compute; reflexivity.
  - reflexivity.
  - vm_compute in He. discriminate He.
  - exact Hv.
Defined.

Lemma X27_witness :
  sync_loop E0 user1 (repeat (IObj latitude_95) 3) (mkState one_row [] [] [])
  = mkState one_row (repeat (mkSynced 0 "no_change" None) 3) [] [].
Proof.
  apply (X27_resubmission_without_conflict_is_no_change E0 user1
           (mkState one_row [] [] []) latitude_95 stored []);
    vm_compute; reflexivity.
Defined.

